(** * Catastro-MCP: the resolution protocol of [catastro_mcp.py]

    A shallow embedding of the address-resolution core of the Catastro MCP
    server: the nearest-number selection, the XML record extractors, the
    error classifier, the query router [consulta_datos_catastro] and the
    smart search [buscar_inmueble_inteligente] with its nearest-number
    fallback, followed by the properties the specification states about
    them, and the street listing [listar_numeros_via]. The start of the
    server and the logging are not part of it.

    Conventions of the embedding.
    - A Python [int] is a [Z]; a Python [str] is its list of Unicode code
      points ([list N]); XML tag names and dictionary keys, which are ASCII
      literals of the source, are Rocq strings.
    - A Python [float] is an IEEE binary64 value, [SpecFloat.spec_float] at
      precision 53; [float] of a text rounds to nearest, ties to even.
    - A Python [dict] is an association list in insertion order, the order
      [json.dumps] writes it in. A tool returns the value it hands to
      [json.dumps]; the text that [json.dumps] makes of it is not modelled.
    - [None] is [None]; an exception is the [Raise] case of [resultado].
    - The network is a function from the request and the state of the
      outside world to a response; every request sent is logged. *)

From Stdlib Require Import ZArith NArith List String Ascii Bool Lia.
From Stdlib Require Import SpecFloat DecimalString QArith Permutation.
From Stdlib Require DecimalPos DecimalZ.
Import ListNotations.

Local Open Scope string_scope.
Local Open Scope list_scope.
Local Open Scope Z_scope.

(** ** Python text *)

Module Py.

Definition codepoint := N.
Definition str := list codepoint.

(** The code points of a UTF-8 byte sequence (well-formed input assumed: a
    truncated sequence ends the text). *)
Fixpoint utf8_decode (bs : list N) : str :=
  match bs with
  | [] => []
  | b :: r =>
      if (b <? 0x80)%N then b :: utf8_decode r
      else if (b <? 0xE0)%N then
        match r with
        | c1 :: r' => ((b - 0xC0) * 0x40 + (c1 - 0x80))%N :: utf8_decode r'
        | _ => []
        end
      else if (b <? 0xF0)%N then
        match r with
        | c1 :: c2 :: r' =>
            ((b - 0xE0) * 0x1000 + (c1 - 0x80) * 0x40 + (c2 - 0x80))%N
              :: utf8_decode r'
        | _ => []
        end
      else
        match r with
        | c1 :: c2 :: c3 :: r' =>
            ((b - 0xF0) * 0x40000 + (c1 - 0x80) * 0x1000
             + (c2 - 0x80) * 0x40 + (c3 - 0x80))%N :: utf8_decode r'
        | _ => []
        end
  end.

(** A literal of the source: the text of a Rocq string read as UTF-8. *)
Definition u (s : string) : str :=
  utf8_decode (map N_of_ascii (list_ascii_of_string s)).

Definition str_eqb (a b : str) : bool :=
  if list_eq_dec N.eq_dec a b then true else false.

(** [x.startswith(p)] and [needle in hay]. *)
Fixpoint startswith (p s : str) : bool :=
  match p, s with
  | [], _ => true
  | _ :: _, [] => false
  | a :: p', b :: s' => (a =? b)%N && startswith p' s'
  end.

Fixpoint str_in (needle hay : str) : bool :=
  startswith needle hay
  || match hay with
     | [] => false
     | _ :: t => str_in needle t
     end.

(** [s.replace(old, new)] for one-character [old] and [new]. *)
Definition replace_char (old new : codepoint) (s : str) : str :=
  map (fun c => if (c =? old)%N then new else c) s.

(** [sep.join(parts)]. *)
Fixpoint join (sep : str) (parts : list str) : str :=
  match parts with
  | [] => []
  | [p] => p
  | p :: rest => p ++ sep ++ join sep rest
  end.

(** [str.upper] on one code point. The table covers Basic Latin, Latin-1
    Supplement and Latin Extended-A (U+0000 to U+017F), the repertoire of
    the service's Spanish messages and of their mis-decoded variants; code
    points above U+017F are left unchanged here. *)
Definition upper_cp (c : codepoint) : list codepoint :=
  if ((0x61 <=? c) && (c <=? 0x7A))%N then [(c - 0x20)%N]
  else if (c =? 0xB5)%N then [0x39C%N]
  else if (c =? 0xDF)%N then [0x53%N; 0x53%N]
  else if ((0xE0 <=? c) && (c <=? 0xFE) && negb (c =? 0xF7))%N then [(c - 0x20)%N]
  else if (c =? 0xFF)%N then [0x178%N]
  else if (c =? 0x131)%N then [0x49%N]
  else if (c =? 0x149)%N then [0x2BC%N; 0x4E%N]
  else if (c =? 0x17F)%N then [0x53%N]
  else if ((0x100 <=? c) && (c <=? 0x137) && N.odd c)%N then [(c - 1)%N]
  else if ((0x139 <=? c) && (c <=? 0x148) && N.even c)%N then [(c - 1)%N]
  else if ((0x14A <=? c) && (c <=? 0x177) && N.odd c)%N then [(c - 1)%N]
  else if ((0x179 <=? c) && (c <=? 0x17E) && N.even c)%N then [(c - 1)%N]
  else [c].

Definition upper (s : str) : str := flat_map upper_cp s.

(** The white space that [int] and [float] strip from both ends of a text:
    the ASCII blanks and the Unicode spaces outside ASCII. *)
Definition isspace (c : codepoint) : bool :=
  (((0x09 <=? c) && (c <=? 0x0D)) || (c =? 0x20)
   || (c =? 0x85) || (c =? 0xA0) || (c =? 0x1680)
   || ((0x2000 <=? c) && (c <=? 0x200A))
   || (c =? 0x2028) || (c =? 0x2029) || (c =? 0x202F) || (c =? 0x205F)
   || (c =? 0x3000))%N.

Fixpoint lstrip (s : str) : str :=
  match s with
  | c :: r => if isspace c then lstrip r else s
  | [] => []
  end.

Definition strip (s : str) : str := rev (lstrip (rev (lstrip s))).

(** The zero of every run of decimal digits (general category Nd) of
    Unicode 14: [int] and [float] read such a digit as its ASCII value. *)
Definition decimal_zeros : list codepoint :=
  [0x30; 0x660; 0x6f0; 0x7c0; 0x966; 0x9e6; 0xa66; 0xae6; 0xb66; 0xbe6;
   0xc66; 0xce6; 0xd66; 0xde6; 0xe50; 0xed0; 0xf20; 0x1040; 0x1090; 0x17e0;
   0x1810; 0x1946; 0x19d0; 0x1a80; 0x1a90; 0x1b50; 0x1bb0; 0x1c40; 0x1c50;
   0xa620; 0xa8d0; 0xa900; 0xa9d0; 0xa9f0; 0xaa50; 0xabf0; 0xff10; 0x104a0;
   0x10d30; 0x11066; 0x110f0; 0x11136; 0x111d0; 0x112f0; 0x11450; 0x114d0;
   0x11650; 0x116c0; 0x11730; 0x118e0; 0x11950; 0x11c50; 0x11d50; 0x11da0;
   0x16a60; 0x16ac0; 0x16b50; 0x1d7ce; 0x1d7d8; 0x1d7e2; 0x1d7ec; 0x1d7f6;
   0x1e140; 0x1e2f0; 0x1e950; 0x1fbf0]%N.

Definition digit_value (c : codepoint) : option Z :=
  match find (fun z => (z <=? c) && (c <? z + 10))%N decimal_zeros with
  | Some z => Some (Z.of_N (c - z))
  | None => None
  end.

Definition underscore : codepoint := 0x5F%N.

(** A digit part [digit (["_"] digit)*]: the digits read, most significant
    first, and the rest of the text. An underscore is consumed only between
    two digits; [digitpart] is [None] when no digit starts the text. *)
Fixpoint digitpart_rest (s : str) : list Z * str :=
  match s with
  | c :: r =>
      match digit_value c with
      | Some d => let (ds, r') := digitpart_rest r in (d :: ds, r')
      | None =>
          if (c =? underscore)%N then
            match r with
            | c' :: _ =>
                match digit_value c' with
                | Some _ => digitpart_rest r
                | None => ([], s)
                end
            | [] => ([], s)
            end
          else ([], s)
      end
  | [] => ([], [])
  end.

Definition digitpart (s : str) : option (list Z * str) :=
  match s with
  | c :: _ =>
      match digit_value c with
      | Some _ => Some (digitpart_rest s)
      | None => None
      end
  | [] => None
  end.

Definition Z_of_digits (ds : list Z) : Z :=
  fold_left (fun acc d => 10 * acc + d) ds 0.

(** An optional sign: [true] for a minus. *)
Definition sign (s : str) : bool * str :=
  match s with
  | c :: r =>
      if (c =? 0x2D)%N then (true, r)
      else if (c =? 0x2B)%N then (false, r)
      else (false, s)
  | [] => (false, [])
  end.

(** CPython's default bound on the digits of a decimal text that [int]
    converts ([sys.int_info.default_max_str_digits]). *)
Definition int_max_str_digits : nat := 4300.

(** [int(s)] for a text: [None] stands for [ValueError]. *)
Definition int (s : str) : option Z :=
  let (neg, r) := sign (strip s) in
  match digitpart r with
  | Some (ds, []) =>
      if (List.length ds <=? int_max_str_digits)%nat
      then Some (if neg then - Z_of_digits ds else Z_of_digits ds)
      else None
  | _ => None
  end.

(** [str(n)] for an integer. *)
Definition str_of_int (n : Z) : str :=
  map N_of_ascii (list_ascii_of_string (NilZero.string_of_int (Z.to_int n))).

(** *** Decimal text to binary64 *)

Definition prec : Z := 53.
Definition emax : Z := 1024.

(** The binary64 value nearest to [m * 10 ^ e] for [0 <= m], ties to even:
    an integer is rounded once; a quotient by a power of ten is rounded from
    its integer quotient and the position of the remainder. *)
Definition float_of_decimal (neg : bool) (m e : Z) : spec_float :=
  match m with
  | Z0 => S754_zero neg
  | Zpos p =>
      if 0 <=? e then
        binary_round prec emax neg (p * Z.to_pos (10 ^ e))%positive 0
      else
        let '(q, e', l) := SFdiv_core_binary prec emax m 0 (10 ^ (- e)) 0 in
        binary_round_aux prec emax neg q e' l
  | Zneg _ => S754_nan
  end.

(** The rational that a finite binary64 value stands for, in lowest
    terms. *)
Definition valor (f : spec_float) : option Q :=
  match f with
  | S754_zero _ => Some (0 # 1)
  | S754_finite s m e =>
      Some (Qred ((if s then Zneg m # 1 else Zpos m # 1) * Qpower (2 # 1) e))
  | _ => None
  end.

Definition ascii_upper (s : str) : str :=
  map (fun c => if ((0x61 <=? c) && (c <=? 0x7A))%N then (c - 0x20)%N else c) s.

(** [float(s)] for a text: [None] stands for [ValueError]. The text is
    [[sign] ("inf" | "infinity" | "nan" | digits ["." [digits]] [exponent]
    | "." digits [exponent])] between optional white space. *)
Definition float (s : str) : option spec_float :=
  let (neg, r) := sign (strip s) in
  if str_eqb (ascii_upper r) (u "INF") || str_eqb (ascii_upper r) (u "INFINITY")
  then Some (S754_infinity neg)
  else if str_eqb (ascii_upper r) (u "NAN") then Some S754_nan
  else
    let '(ip, r1) :=
      match digitpart r with
      | Some (ds, r1) => (ds, r1)
      | None => ([], r)
      end in
    let '(fp, r2) :=
      match r1 with
      | c :: r1' =>
          if (c =? 0x2E)%N then
            match digitpart r1' with
            | Some (ds, r2) => (ds, r2)
            | None => ([], r1')
            end
          else ([], r1)
      | [] => ([], r1)
      end in
    match ip ++ fp with
    | [] => None
    | _ :: _ =>
        let m := Z_of_digits (ip ++ fp) in
        let scale := Z.of_nat (List.length fp) in
        match r2 with
        | [] => Some (float_of_decimal neg m (- scale))
        | c :: r3 =>
            if ((c =? 0x65) || (c =? 0x45))%N then
              let (eneg, r4) := sign r3 in
              match digitpart r4 with
              | Some (es, []) =>
                  let x := Z_of_digits es in
                  Some (float_of_decimal neg m ((if eneg then - x else x) - scale))
              | _ => None
              end
            else None
        end
    end.

End Py.

(** ** ElementTree elements *)

Module Xml.

(** An element: its tag, the text before its first child ([None] when there
    is none) and its children in document order. *)
#[warnings="-register-all"]
Inductive Element : Type :=
  Elem (tag : string) (text : option Py.str) (children : list Element).

Definition tag (e : Element) : string :=
  match e with Elem t _ _ => t end.

Definition text (e : Element) : option Py.str :=
  match e with Elem _ x _ => x end.

Definition children (e : Element) : list Element :=
  match e with Elem _ _ cs => cs end.

(** Every element below [e], in document order; [e] itself is not one. *)
Fixpoint descendants (e : Element) : list Element :=
  match e with
  | Elem _ _ cs => flat_map (fun c => c :: descendants c) cs
  end.

(** The paths of the source are a tag (["pc1"]: the children with that
    tag), a descendant step ([".//rc"]: the elements below with that tag)
    or a descendant step followed by child steps ([".//lerr/err"]). *)
Inductive step : Type :=
| Child (t : string)
| Desc (t : string).

Fixpoint split_slash (s : string) : list string :=
  match s with
  | EmptyString => [EmptyString]
  | String c r =>
      match split_slash r with
      | p :: ps =>
          if Ascii.eqb c "/" then EmptyString :: p :: ps
          else String c p :: ps
      | [] => []
      end
  end.

Fixpoint steps (parts : list string) : list step :=
  match parts with
  | [] => []
  | EmptyString :: t :: r => Desc t :: steps r
  | t :: r => Child t :: steps r
  end.

Definition path_steps (path : string) : list step :=
  match split_slash path with
  | "." :: r => steps r
  | r => steps r
  end.

Definition select (s : step) (es : list Element) : list Element :=
  match s with
  | Child t =>
      flat_map (fun e => filter (fun c => String.eqb (tag c) t) (children e)) es
  | Desc t =>
      flat_map (fun e => filter (fun c => String.eqb (tag c) t) (descendants e)) es
  end.

(** [e.findall(path)], in document order. *)
Definition findall (e : Element) (path : string) : list Element :=
  fold_left (fun es s => select s es) (path_steps path) [e].

(** [e.find(path)]: the first match, or [None]. *)
Definition find (e : Element) (path : string) : option Element :=
  hd_error (findall e path).

End Xml.

(** ** JSON values and dictionaries *)

Module Json.

#[warnings="-register-all"]
Inductive json : Type :=
| JNull
| JBool (b : bool)
| JInt (n : Z)
| JFloat (f : spec_float)
| JStr (s : Py.str)
| JList (l : list json)
| JDict (d : list (string * json)).

Definition dict := list (string * json).

(** [d[k] = v]: a key already there keeps its place. The values of a
    dictionary of request parameters are texts, those of a result are JSON
    values. *)
Fixpoint dict_set {V : Type} (k : string) (v : V) (d : list (string * V))
  : list (string * V) :=
  match d with
  | [] => [(k, v)]
  | (k', v') :: r =>
      if String.eqb k k' then (k, v) :: r else (k', v') :: dict_set k v r
  end.

(** [d.get(k)]. *)
Fixpoint dict_get {V : Type} (k : string) (d : list (string * V)) : option V :=
  match d with
  | [] => None
  | (k', v) :: r => if String.eqb k k' then Some v else dict_get k r
  end.

Definition keys (d : dict) : list string := map fst d.

(** The truth value of a dictionary or of a list: non-empty. *)
Definition truthy {A : Type} (l : list A) : bool :=
  match l with
  | [] => false
  | _ :: _ => true
  end.

(** A text that may be [None]. *)
Definition json_of_text (t : option Py.str) : json :=
  match t with
  | Some s => JStr s
  | None => JNull
  end.

End Json.

Import Py Xml Json.

(** ** Exceptions *)

Inductive excepcion : Type :=
| ValueError (literal : str)        (* [int] refused this text *)
| AttributeError (atributo : string) (* an attribute of [None] was read *)
| HTTPError (mensaje : str)          (* [httpx.HTTPError] *)
| ParseError (mensaje : str)         (* [ET.ParseError] *)
| OtraExcepcion (mensaje : str).     (* any other [Exception] *)

Inductive resultado (A : Type) : Type :=
| Ok (a : A)
| Raise (e : excepcion).

Arguments Ok {A} a.
Arguments Raise {A} e.

(** ** Sorting

    [sorted] and [list.sort] are stable: elements with equal keys keep
    their order. A stable sort has one result, modelled here by insertion
    from the right. *)

Section Sort.
Context {A : Type} (key : A -> Z).

Fixpoint insert (x : A) (l : list A) : list A :=
  match l with
  | [] => [x]
  | y :: r => if key x <=? key y then x :: l else y :: insert x r
  end.

Definition sort_by (l : list A) : list A := fold_right insert [] l.

(** A list in ascending order of the keys. *)
Fixpoint ascending (l : list A) : Prop :=
  match l with
  | [] => True
  | x :: r => (forall y, In y r -> key x <= key y) /\ ascending r
  end.
End Sort.

Definition sorted (l : list Z) : list Z := sort_by (fun x => x) l.

(** ** [buscar_numero_cercano] *)

(** The body of the loop, on the pair [(diferencia_minima, mejor)]. *)
Definition paso_cercano (numero_buscado : Z) (acc : Z * Z) (num : Z) : Z * Z :=
  let '(diferencia_minima, mejor) := acc in
  let diferencia := Z.abs (numero_buscado - num) in
  if diferencia <? diferencia_minima then (diferencia, num)
  else (diferencia_minima, mejor).

Definition buscar_numero_cercano
  (numero_buscado : Z) (numeros_disponibles : list Z) : option Z :=
  match numeros_disponibles with
  | [] => None
  | _ :: _ =>
      let numeros_ordenados := sorted numeros_disponibles in
      match numeros_ordenados with
      | [] => None
      | mejor :: _ =>
          let diferencia_minima := Z.abs (numero_buscado - mejor) in
          Some (snd (fold_left (paso_cercano numero_buscado)
                       numeros_ordenados (diferencia_minima, mejor)))
      end
  end.

(** ** [parse_xml_error] *)

Definition parse_xml_error (root : Element) : option dict :=
  match find root ".//lerr/err" with
  | Some error =>
      let cod := find error "cod" in
      let des := find error "des" in
      Some [("error", JBool true);
            ("codigo", match cod with
                       | Some cod => json_of_text (text cod)
                       | None => JStr (u "UNKNOWN")
                       end);
            ("descripcion", match des with
                            | Some des => json_of_text (text des)
                            | None => JStr (u "Error desconocido")
                            end)]
  | None => None
  end.

(** ** The record extractors *)

(** [x.text] when [x is not None and x.text], else [None]. *)
Definition texto_de (x : option Element) : option str :=
  match x with
  | Some e =>
      match text e with
      | Some (c :: r) => Some (c :: r)
      | _ => None
      end
  | None => None
  end.

(** [x.text or ""]. *)
Definition text_or_empty (x : Element) : str :=
  match text x with
  | Some s => s
  | None => []
  end.

(** [x.text if x is not None else None]. *)
Definition text_if_present (x : option Element) : json :=
  match x with
  | Some e => json_of_text (text e)
  | None => JNull
  end.

(** [ref += x.text] under [if x is not None and x.text]. *)
Definition sufijo (x : option Element) : str :=
  match texto_de x with
  | Some t => t
  | None => []
  end.

(** The conversion of a decimal text with a comma:
    [float(t.replace(',', '.'))], [ValueError] caught and turned into
    [None]. *)
Definition float_o_none (t : str) : json :=
  match Py.float (replace_char 0x2C%N 0x2E%N t) with
  | Some f => JFloat f
  | None => JNull
  end.

(** The four-field location dictionary of [bq], [es], [pt], [pu]. *)
Definition localizacion (bq es pt pu : option Element) : json :=
  JDict [("bloque", text_if_present bq);
         ("escalera", text_if_present es);
         ("planta", text_if_present pt);
         ("puerta", text_if_present pu)].

(** "Referencia catastral" of [parse_inmueble_completo]. *)
Definition referencia_completa (bi : Element) (inmueble : dict) : dict :=
  match find bi ".//rc" with
  | Some rc =>
      let pc1 := find rc "pc1" in
      let pc2 := find rc "pc2" in
      let car := find rc "car" in
      let cc1 := find rc "cc1" in
      let cc2 := find rc "cc2" in
      let ref_completa :=
        match pc1, pc2 with
        | Some pc1, Some pc2 =>
            (((text_or_empty pc1 ++ text_or_empty pc2)
                ++ sufijo car) ++ sufijo cc1) ++ sufijo cc2
        | _, _ => []
        end in
      dict_set "referencia_catastral" (JStr ref_completa) inmueble
  | None => inmueble
  end.

(** "Tipo de bien". *)
Definition tipo_de_bien (bi : Element) (inmueble : dict) : dict :=
  match find bi ".//cn" with
  | Some cn => dict_set "tipo" (json_of_text (text cn)) inmueble
  | None => inmueble
  end.

(** "Domicilio tributario", the same in both extractors. *)
Definition domicilio_tributario (bi : Element) (inmueble : dict) : dict :=
  match find bi ".//dt" with
  | Some dt =>
      let np := find dt ".//np" in
      let nm := find dt ".//nm" in
      let nv := find dt ".//nv" in
      let tv := find dt ".//tv" in
      let pnp := find dt ".//pnp" in
      let direccion_partes :=
        (match texto_de tv with Some t => [t] | None => [] end)
          ++ (match texto_de nv with Some t => [t] | None => [] end)
          ++ (match texto_de pnp with Some t => [t] | None => [] end) in
      let inmueble :=
        dict_set "direccion"
          (if truthy direccion_partes
           then JStr (join (u " ") direccion_partes) else JNull) inmueble in
      let inmueble := dict_set "provincia" (text_if_present np) inmueble in
      let inmueble := dict_set "municipio" (text_if_present nm) inmueble in
      let bq := find dt ".//bq" in
      let es := find dt ".//es" in
      let pt := find dt ".//pt" in
      let pu := find dt ".//pu" in
      if existsb (fun x => match texto_de x with Some _ => true | None => false end)
           [bq; es; pt; pu]
      then dict_set "localizacion_interna" (localizacion bq es pt pu) inmueble
      else inmueble
  | None => inmueble
  end.

(** "Domicilio tributario no estructurado". *)
Definition domicilio_no_estructurado (bi : Element) (inmueble : dict) : dict :=
  match texto_de (find bi ".//ldt") with
  | Some t => dict_set "domicilio_completo" (JStr t) inmueble
  | None => inmueble
  end.

(** "Datos económicos": the only place where the extractor can raise, on
    the [int] of the age. *)
Definition datos_economicos (bi : Element) (inmueble : dict) : resultado dict :=
  match find bi ".//debi" with
  | Some debi =>
      let luso := find debi "luso" in
      let sfc := find debi "sfc" in
      let cpt := find debi "cpt" in
      let ant := find debi "ant" in
      let inmueble := dict_set "uso" (text_if_present luso) inmueble in
      let inmueble :=
        match texto_de sfc with
        | Some t => dict_set "superficie_m2" (float_o_none t) inmueble
        | None => inmueble
        end in
      let inmueble :=
        match texto_de cpt with
        | Some t => dict_set "coef_participacion" (float_o_none t) inmueble
        | None => inmueble
        end in
      match texto_de ant with
      | Some t =>
          match Py.int t with
          | Some n => Ok (dict_set "antiguedad" (JInt n) inmueble)
          | None => Raise (ValueError t)
          end
      | None => Ok (dict_set "antiguedad" JNull inmueble)
      end
  | None => Ok inmueble
  end.

(** One construction unit of "Unidades constructivas". *)
Definition unidad_constructiva (cons : Element) : dict :=
  let unidad : dict := [] in
  let lcd := find cons ".//lcd" in
  let stl := find cons ".//stl" in
  let dtip := find cons ".//dtip" in
  let unidad :=
    match lcd with
    | Some lcd => dict_set "uso" (json_of_text (text lcd)) unidad
    | None => unidad
    end in
  let unidad :=
    match texto_de stl with
    | Some t => dict_set "superficie_m2" (float_o_none t) unidad
    | None => unidad
    end in
  let unidad :=
    match dtip with
    | Some dtip => dict_set "tipologia" (json_of_text (text dtip)) unidad
    | None => unidad
    end in
  match find cons ".//loint" with
  | Some loint =>
      dict_set "localizacion"
        (localizacion (find loint "bq") (find loint "es")
           (find loint "pt") (find loint "pu")) unidad
  | None => unidad
  end.

Definition unidades_constructivas (bi : Element) (inmueble : dict) : dict :=
  match find bi ".//lcons" with
  | Some lcons =>
      let unidades :=
        filter truthy (map unidad_constructiva (findall lcons ".//cons")) in
      if truthy unidades
      then dict_set "unidades_constructivas" (JList (map JDict unidades)) inmueble
      else inmueble
  | None => inmueble
  end.

(** One sub-parcel of "Subparcelas". *)
Definition subparcela_de (spr : Element) : dict :=
  let subparcela : dict := [] in
  let cspr := find spr "cspr" in
  let ccc := find spr ".//ccc" in
  let dcc := find spr ".//dcc" in
  let ip := find spr ".//ip" in
  let ssp := find spr ".//ssp" in
  let subparcela :=
    match cspr with
    | Some cspr => dict_set "codigo" (json_of_text (text cspr)) subparcela
    | None => subparcela
    end in
  let subparcela :=
    match ccc with
    | Some ccc => dict_set "calificacion" (json_of_text (text ccc)) subparcela
    | None => subparcela
    end in
  let subparcela :=
    match dcc with
    | Some dcc => dict_set "cultivo" (json_of_text (text dcc)) subparcela
    | None => subparcela
    end in
  let subparcela :=
    match ip with
    | Some ip => dict_set "intensidad_productiva" (json_of_text (text ip)) subparcela
    | None => subparcela
    end in
  match texto_de ssp with
  | Some t => dict_set "superficie_m2" (float_o_none t) subparcela
  | None => subparcela
  end.

Definition subparcelas (bi : Element) (inmueble : dict) : dict :=
  match find bi ".//lspr" with
  | Some lspr =>
      let subparcelas :=
        filter truthy (map subparcela_de (findall lspr ".//spr")) in
      if truthy subparcelas
      then dict_set "subparcelas" (JList (map JDict subparcelas)) inmueble
      else inmueble
  | None => inmueble
  end.

(** [parse_inmueble_completo]: the blocks of the function in their order,
    each one updating the dictionary [inmueble]. *)
Definition parse_inmueble_completo (bi : Element) : resultado dict :=
  let inmueble : dict := [] in
  let inmueble := referencia_completa bi inmueble in
  let inmueble := tipo_de_bien bi inmueble in
  let inmueble := domicilio_tributario bi inmueble in
  let inmueble := domicilio_no_estructurado bi inmueble in
  match datos_economicos bi inmueble with
  | Ok inmueble =>
      let inmueble := unidades_constructivas bi inmueble in
      let inmueble := subparcelas bi inmueble in
      Ok inmueble
  | Raise e => Raise e
  end.

(** "Referencia catastral" of [parse_inmueble_listado]: no control
    characters. *)
Definition referencia_listado (rcdnp : Element) (inmueble : dict) : dict :=
  match find rcdnp ".//rc" with
  | Some rc =>
      let pc1 := find rc "pc1" in
      let pc2 := find rc "pc2" in
      let car := find rc "car" in
      let ref_completa :=
        match pc1, pc2 with
        | Some pc1, Some pc2 =>
            (text_or_empty pc1 ++ text_or_empty pc2) ++ sufijo car
        | _, _ => []
        end in
      dict_set "referencia_catastral" (JStr ref_completa) inmueble
  | None => inmueble
  end.

(** [parse_inmueble_listado]. *)
Definition parse_inmueble_listado (rcdnp : Element) : dict :=
  let inmueble : dict := [] in
  let inmueble := referencia_listado rcdnp inmueble in
  domicilio_tributario rcdnp inmueble.

(** ** [parse_candidatos] *)

Definition parse_candidatos (root : Element) (tipo : string) : list dict :=
  if String.eqb tipo "provincias" then
    flat_map (fun prov =>
                match find prov "cpine", find prov "np" with
                | Some cpine, Some np =>
                    [[("codigo_ine", json_of_text (text cpine));
                      ("nombre", json_of_text (text np))]]
                | _, _ => []
                end)
      (findall root ".//prov")
  else if String.eqb tipo "municipios" then
    flat_map (fun muni =>
                let nm := find muni "nm" in
                let cmc := find muni ".//cmc" in
                let cm := find muni ".//cm" in
                match nm with
                | Some nm =>
                    let candidato : dict := [("nombre", json_of_text (text nm))] in
                    let candidato :=
                      match cmc with
                      | Some cmc =>
                          dict_set "codigo_catastro" (json_of_text (text cmc)) candidato
                      | None => candidato
                      end in
                    let candidato :=
                      match cm with
                      | Some cm => dict_set "codigo_ine" (json_of_text (text cm)) candidato
                      | None => candidato
                      end in
                    [candidato]
                | None => []
                end)
      (findall root ".//muni")
  else if String.eqb tipo "vias" then
    flat_map (fun calle =>
                let tv := find calle ".//tv" in
                let nv := find calle ".//nv" in
                let cv := find calle ".//cv" in
                match nv with
                | Some nv =>
                    let candidato : dict :=
                      [("nombre", json_of_text (text nv));
                       ("tipo", text_if_present tv)] in
                    let candidato :=
                      match cv with
                      | Some cv => dict_set "codigo" (json_of_text (text cv)) candidato
                      | None => candidato
                      end in
                    [candidato]
                | None => []
                end)
      (findall root ".//calle")
  else if String.eqb tipo "numeros" then
    flat_map (fun nump =>
                let pnp := find nump ".//pnp" in
                let pc1 := find nump ".//pc1" in
                let pc2 := find nump ".//pc2" in
                match pnp with
                | Some pnp =>
                    let candidato : dict := [("numero", json_of_text (text pnp))] in
                    let candidato :=
                      match pc1, pc2 with
                      | Some pc1, Some pc2 =>
                          dict_set "referencia_catastral"
                            (JStr (text_or_empty pc1 ++ text_or_empty pc2)) candidato
                      | _, _ => candidato
                      end in
                    [candidato]
                | None => []
                end)
      (findall root ".//nump")
  else [].

(** ** The service *)

Definition BASE_URL : string :=
  "http://ovc.catastro.meh.es/OVCServWeb/OVCWcfCallejero".
Definition CALLEJERO_URL : string :=
  String.append BASE_URL "/COVCCallejero.svc/rest".
Definition CODIGOS_URL : string :=
  String.append BASE_URL "/COVCCallejeroCodigos.svc/rest".

(** The request parameters: a dictionary whose values are texts, [None]
    where the caller gave none. *)
Definition Params := list (string * option str).

Record Peticion : Type := { url : string; params : Params }.

(** The truth value of an optional text argument, and [x or default]. *)
Definition dado (x : option str) : bool :=
  match x with
  | Some (_ :: _) => true
  | _ => false
  end.

Definition o_bien (x : option str) (default : str) : str :=
  match x with
  | Some (c :: r) => c :: r
  | _ => default
  end.

(** [if x: params[k] = x]. *)
Definition si_dado (k : string) (x : option str) (params : Params) : Params :=
  if dado x then dict_set k x params else params.

(** An entry of [numeros_disponibles]. *)
Record Candidato : Type := { numero : Z; referencia : str }.

(** "Extraer números disponibles": the loop over the [nump] entries of the
    enumeration. An entry is kept when [pnp], [pc1] and [pc2] are there, the
    text of [pnp] is an integer and that integer is true, that is, not 0; a
    [ValueError] skips the entry. *)
Definition extraer_numeros (consulta_root : Element) : list Candidato :=
  flat_map (fun nump =>
              let pnp := find nump ".//pnp" in
              let pc1 := find nump ".//pc1" in
              let pc2 := find nump ".//pc2" in
              match pnp, pc1, pc2 with
              | Some pnp, Some pc1, Some pc2 =>
                  match texto_de (Some pnp) with
                  | Some t =>
                      match Py.int t with
                      | Some num_val =>
                          if num_val =? 0 then []
                          else [{| numero := num_val;
                                   referencia := text_or_empty pc1 ++ text_or_empty pc2 |}]
                      | None => []
                      end
                  | None => []
                  end
              | _, _, _ => []
              end)
    (findall consulta_root ".//nump").

(** [numeros_disponibles.sort(key=lambda x: abs(x["numero"] - numero_buscado))]. *)
Definition ordenar_por_diferencia (numero_buscado : Z) (l : list Candidato)
  : list Candidato :=
  sort_by (fun x => Z.abs (numero x - numero_buscado)) l.

(** [[parse_inmueble_listado(r) for r in lrcdnp.findall(".//rcdnp")]]. *)
Definition listado (lrcdnp : Element) : list dict :=
  map parse_inmueble_listado (findall lrcdnp ".//rcdnp").

Definition len_json {A : Type} (l : list A) : json := JInt (Z.of_nat (List.length l)).

Section Servicio.

(** The outside world and one round trip to the service: [client.get],
    [raise_for_status], the removal of the three namespace declarations
    and [ET.fromstring]. The answer is the root of the parsed document,
    or the exception that one of these steps raised. *)
Variable Mundo : Type.
Variable http_get : Peticion -> Mundo -> resultado Element * Mundo.

(** [str(e)] for an exception that the interpreter raised. *)
Variable mensaje_interprete : excepcion -> str.

Definition str_exc (e : excepcion) : str :=
  match e with
  | HTTPError m | ParseError m | OtraExcepcion m => m
  | _ => mensaje_interprete e
  end.

(** The state of a call: the world and the requests sent so far. *)
Record Estado : Type := { mundo : Mundo; enviadas : list Peticion }.

Definition M (A : Type) : Type := Estado -> resultado A * Estado.

Definition ret {A : Type} (a : A) : M A := fun st => (Ok a, st).

Definition lift {A : Type} (r : resultado A) : M A := fun st => (r, st).

Definition bind {A B : Type} (m : M A) (k : A -> M B) : M B :=
  fun st =>
    match m st with
    | (Ok a, st') => k a st'
    | (Raise e, st') => (Raise e, st')
    end.

Notation "x <- m ;; k" := (bind m (fun x => k))
  (at level 61, m at next level, right associativity).

(** [try: ... except Exception as e: return handler(e)]. *)
Definition intentar (m : M json) (handler : excepcion -> json)
  : Estado -> json * Estado :=
  fun st =>
    match m st with
    | (Ok j, st') => (j, st')
    | (Raise e, st') => (handler e, st')
    end.

Definition consultar (url : string) (params : Params) : M Element :=
  fun st =>
    let pet := {| url := url; params := params |} in
    let (r, w) := http_get pet (mundo st) in
    (r, {| mundo := w; enviadas := enviadas st ++ [pet] |}).

(** *** [buscar_inmueble_inteligente] *)

(** "Parsear respuesta exitosa" of step 1: the value returned, or [None]
    when neither a full record nor a listing is there and control falls
    through. *)
Definition respuesta_exacta (numero_buscado : Z) (root : Element)
  : option (resultado json) :=
  match match find root ".//bico" with
        | Some bico => find bico ".//bi"
        | None => None
        end with
  | Some bi =>
      Some match parse_inmueble_completo bi with
           | Ok inmueble =>
               Ok (JDict [("tipo_respuesta", JStr (u "inmueble_completo"));
                          ("numero_buscado", JInt numero_buscado);
                          ("numero_encontrado", JInt numero_buscado);
                          ("coincidencia", JStr (u "exacta"));
                          ("inmueble", JDict inmueble)])
           | Raise e => Raise e
           end
  | None =>
      match find root ".//lrcdnp" with
      | Some lrcdnp =>
          let inmuebles := listado lrcdnp in
          Some (Ok (JDict [("tipo_respuesta", JStr (u "listado_inmuebles"));
                           ("numero_buscado", JInt numero_buscado);
                           ("numero_encontrado", JInt numero_buscado);
                           ("coincidencia", JStr (u "exacta"));
                           ("total", len_json inmuebles);
                           ("inmuebles", JList (map JDict inmuebles))]))
      | None => None
      end
  end.

Definition mensaje_cercano (numero_buscado : Z) (numero_cercano : Candidato) : str :=
  u "El número " ++ str_of_int numero_buscado
    ++ u " no existe. Se encontró el número más cercano: "
    ++ str_of_int (numero numero_cercano).

(** "Parsear resultado" of step 2, on the answer for the nearest number.
    [numeros_disponibles] is the list as [sort] left it. *)
Definition respuesta_cercana (numero_buscado : Z) (numero_cercano : Candidato)
  (numeros_disponibles : list Candidato) (root_cercano : Element)
  : option (resultado json) :=
  match match find root_cercano ".//bico" with
        | Some bico => find bico ".//bi"
        | None => None
        end with
  | Some bi =>
      Some match parse_inmueble_completo bi with
           | Ok inmueble =>
               Ok (JDict [("tipo_respuesta", JStr (u "inmueble_completo"));
                          ("numero_buscado", JInt numero_buscado);
                          ("numero_encontrado", JInt (numero numero_cercano));
                          ("coincidencia", JStr (u "cercano"));
                          ("diferencia",
                           JInt (Z.abs (numero_buscado - numero numero_cercano)));
                          ("mensaje", JStr (mensaje_cercano numero_buscado numero_cercano));
                          ("otros_numeros_disponibles",
                           JList (map (fun n => JInt (numero n))
                                    (firstn 5 numeros_disponibles)));
                          ("inmueble", JDict inmueble)])
           | Raise e => Raise e
           end
  | None =>
      match find root_cercano ".//lrcdnp" with
      | Some lrcdnp =>
          let inmuebles := listado lrcdnp in
          Some (Ok (JDict [("tipo_respuesta", JStr (u "listado_inmuebles"));
                           ("numero_buscado", JInt numero_buscado);
                           ("numero_encontrado", JInt (numero numero_cercano));
                           ("coincidencia", JStr (u "cercano"));
                           ("diferencia",
                            JInt (Z.abs (numero_buscado - numero numero_cercano)));
                           ("mensaje", JStr (mensaje_cercano numero_buscado numero_cercano));
                           ("otros_numeros_disponibles",
                            JList (map (fun n => JInt (numero n))
                                     (firstn 5 numeros_disponibles)));
                           ("total", len_json inmuebles);
                           ("inmuebles", JList (map JDict inmuebles))]))
      | None => None
      end
  end.

(** [v.upper()] for a value of [error_info]: [None] has no [upper]. *)
Definition upper_de (v : json) : resultado str :=
  match v with
  | JStr s => Ok (upper s)
  | _ => Raise (AttributeError "upper")
  end.

(** The test of step 2 on the upper-cased description. *)
Definition numero_no_existe (descripcion_upper : str) : bool :=
  str_in (u "NUMERO NO EXISTE") descripcion_upper
  || str_in (u "NÚMERO NO EXISTE") descripcion_upper.

Definition sin_numeros_cercanos (numero_buscado : Z)
  (tipo_via : option str) (nombre_via municipio : str) : json :=
  JDict [("error", JBool true);
         ("mensaje",
          JStr (u "No se encontró el número " ++ str_of_int numero_buscado
                  ++ u " ni números cercanos en " ++ o_bien tipo_via (u "CL")
                  ++ u " " ++ nombre_via ++ u ", " ++ municipio));
         ("sugerencia",
          JStr (u "Prueba con una búsqueda por referencia catastral o verifica la dirección"))].

(** The body of the [try] block, after [numero] has been read. *)
Definition busqueda (provincia municipio nombre_via : str) (numero_buscado : Z)
  (tipo_via escalera planta puerta : option str) : M json :=
  (* PASO 1 *)
  let params : Params :=
    [("Provincia", Some provincia); ("Municipio", Some municipio);
     ("NombreVia", Some nombre_via);
     ("Numero", Some (str_of_int numero_buscado))] in
  let params := si_dado "TipoVia" tipo_via params in
  let params := si_dado "Escalera" escalera params in
  let params := si_dado "Planta" planta params in
  let params := si_dado "Puerta" puerta params in
  let url := String.append CALLEJERO_URL "/Consulta_DNPLOC" in
  root <- consultar url params ;;
  let error_info := parse_xml_error root in
  match match error_info with
        | None => respuesta_exacta numero_buscado root
        | Some _ => None
        end with
  | Some respuesta => lift respuesta
  | None =>
      (* PASO 2 *)
      match error_info with
      | None => lift (Raise (AttributeError "get"))
      | Some error_info =>
          descripcion_upper <-
            lift (upper_de (match dict_get "descripcion" error_info with
                            | Some v => v
                            | None => JStr []
                            end)) ;;
          if numero_no_existe descripcion_upper then
            let consulta_params : Params :=
              [("Provincia", Some provincia); ("Municipio", Some municipio);
               ("NombreVia", Some nombre_via);
               ("Numero", Some (str_of_int numero_buscado))] in
            let consulta_params := si_dado "TipoVia" tipo_via consulta_params in
            let consulta_url := String.append CALLEJERO_URL "/ConsultaNumero" in
            consulta_root <- consultar consulta_url consulta_params ;;
            let numeros_disponibles := extraer_numeros consulta_root in
            if truthy numeros_disponibles then
              let numeros_disponibles :=
                ordenar_por_diferencia numero_buscado numeros_disponibles in
              match numeros_disponibles with
              | numero_cercano :: _ =>
                  let params_cercano : Params :=
                    [("Provincia", Some provincia); ("Municipio", Some municipio);
                     ("NombreVia", Some nombre_via);
                     ("Numero", Some (str_of_int (numero numero_cercano)))] in
                  let params_cercano := si_dado "TipoVia" tipo_via params_cercano in
                  root_cercano <- consultar url params_cercano ;;
                  match respuesta_cercana numero_buscado numero_cercano
                          numeros_disponibles root_cercano with
                  | Some respuesta => lift respuesta
                  | None =>
                      ret (sin_numeros_cercanos numero_buscado tipo_via
                             nombre_via municipio)
                  end
              | [] => lift (Raise (OtraExcepcion (u "list index out of range")))
              end
            else
              ret (sin_numeros_cercanos numero_buscado tipo_via nombre_via municipio)
          else ret (JDict error_info)
      end
  end.

Definition buscar_inmueble_inteligente
  (provincia municipio nombre_via numero : str)
  (tipo_via escalera planta puerta : option str)
  : Estado -> json * Estado :=
  match Py.int numero with
  | None =>
      fun st =>
        (JDict [("error", JBool true);
                ("mensaje",
                 JStr (u "El número '" ++ numero
                         ++ u "' no es válido. Debe ser un número entero."))],
         st)
  | Some numero_buscado =>
      intentar
        (busqueda provincia municipio nombre_via numero_buscado
           tipo_via escalera planta puerta)
        (fun e => JDict [("error", JBool true);
                         ("tipo", JStr (u "error_inesperado"));
                         ("mensaje", JStr (str_exc e))])
  end.

(** *** [consulta_datos_catastro] *)

(** The first block of the function: the request to send, or the value
    returned at once when neither a reference nor a province code is given
    and the province or the municipality is missing. *)
Definition preparar_consulta
  (provincia municipio tipo_via nombre_via numero bloque escalera planta
     puerta codigo_provincia codigo_municipio codigo_via
     referencia_catastral : option str)
  : json + Peticion :=
  if dado referencia_catastral then
    let params : Params := [("RefCat", referencia_catastral)] in
    let params := si_dado "Provincia" provincia params in
    let params := si_dado "Municipio" municipio params in
    inr {| url := String.append CALLEJERO_URL "/Consulta_DNPRC";
           params := params |}
  else if dado codigo_provincia then
    let params : Params :=
      [("CodigoProvincia", codigo_provincia); ("Numero", numero)] in
    let params := si_dado "CodigoMunicipio" codigo_municipio params in
    let params := si_dado "CodigoVia" codigo_via params in
    let params := si_dado "Bloque" bloque params in
    let params := si_dado "Escalera" escalera params in
    let params := si_dado "Planta" planta params in
    let params := si_dado "Puerta" puerta params in
    inr {| url := String.append CODIGOS_URL "/Consulta_DNPLOC_Codigos";
           params := params |}
  else
    if negb (dado provincia) || negb (dado municipio) then
      inl (JDict [("error", JBool true);
                  ("mensaje",
                   JStr (u "Debe proporcionar provincia y municipio, o usar referencia_catastral"))])
    else
      let params : Params :=
        [("Provincia", provincia); ("Municipio", municipio)] in
      let params := si_dado "Numero" numero params in
      let params := si_dado "TipoVia" tipo_via params in
      let params := si_dado "NombreVia" nombre_via params in
      let params := si_dado "Bloque" bloque params in
      let params := si_dado "Escalera" escalera params in
      let params := si_dado "Planta" planta params in
      let params := si_dado "Puerta" puerta params in
      inr {| url := String.append CALLEJERO_URL "/Consulta_DNPLOC";
             params := params |}.

(** [error_info[clave] = candidatos] under [if candidatos]. *)
Definition adjuntar (clave : string) (candidatos : list dict) (error_info : dict)
  : dict :=
  if truthy candidatos
  then dict_set clave (JList (map JDict candidatos)) error_info
  else error_info.

(** "Buscar candidatos según el tipo de error": the chain of tests on the
    upper-cased description, the first that holds deciding the
    candidates attached. *)
Definition buscar_candidatos (root : Element) (error_info : dict)
  : resultado dict :=
  match upper_de (match dict_get "descripcion" error_info with
                  | Some v => v
                  | None => JNull
                  end) with
  | Ok descripcion_upper =>
      if str_in (u "PROVINCIA NO EXISTE") descripcion_upper then
        Ok (adjuntar "candidatos_provincias"
              (parse_candidatos root "provincias") error_info)
      else if str_in (u "MUNICIPIO NO EXISTE") descripcion_upper then
        Ok (adjuntar "candidatos_municipios"
              (parse_candidatos root "municipios") error_info)
      else if str_in (u "VIA NO EXISTE") descripcion_upper
              || str_in (u "VÃA NO EXISTE") descripcion_upper then
        Ok (adjuntar "candidatos_vias" (parse_candidatos root "vias") error_info)
      else if str_in (u "NUMERO NO EXISTE") descripcion_upper
              || str_in (u "NÃšMERO NO EXISTE") descripcion_upper then
        let candidatos := parse_candidatos root "numeros" in
        if truthy candidatos
        then Ok (dict_set "candidatos_numeros" (JList (map JDict candidatos))
                   error_info)
        else Ok (dict_set "sugerencia"
                   (JStr (u "El número especificado no existe. Intenta buscar sin especificar el número para ver qué números hay disponibles en esa vía."))
                   error_info)
      else Ok error_info
  | Raise e => Raise e
  end.

(** "Parsear respuesta exitosa". *)
Definition respuesta_consulta (root : Element) : resultado json :=
  let resultado : resultado dict :=
    match find root ".//bico" with
    | Some bico =>
        match find bico ".//bi" with
        | Some bi =>
            match parse_inmueble_completo bi with
            | Ok inmueble =>
                Ok [("tipo_respuesta", JStr (u "inmueble_completo"));
                    ("inmueble", JDict inmueble)]
            | Raise e => Raise e
            end
        | None => Ok []
        end
    | None =>
        match find root ".//lrcdnp" with
        | Some lrcdnp =>
            let inmuebles := listado lrcdnp in
            Ok [("tipo_respuesta", JStr (u "listado_inmuebles"));
                ("total", len_json inmuebles);
                ("inmuebles", JList (map JDict inmuebles))]
        | None => Ok []
        end
    end in
  match resultado with
  | Ok resultado =>
      if truthy resultado then Ok (JDict resultado)
      else Ok (JDict [("error", JBool false);
                      ("mensaje",
                       JStr (u "No se encontraron resultados para los parámetros proporcionados"))])
  | Raise e => Raise e
  end.

(** The three [except] clauses. *)
Definition error_de_consulta (e : excepcion) : json :=
  match e with
  | HTTPError _ =>
      JDict [("error", JBool true); ("tipo", JStr (u "http_error"));
             ("mensaje", JStr (str_exc e))]
  | ParseError _ =>
      JDict [("error", JBool true); ("tipo", JStr (u "parse_error"));
             ("mensaje", JStr (u "Error parseando respuesta XML: " ++ str_exc e))]
  | _ =>
      JDict [("error", JBool true); ("tipo", JStr (u "error_inesperado"));
             ("mensaje", JStr (str_exc e))]
  end.

Definition consulta_datos_catastro
  (provincia municipio tipo_via nombre_via numero bloque escalera planta
     puerta codigo_provincia codigo_municipio codigo_via
     referencia_catastral : option str)
  : Estado -> json * Estado :=
  match preparar_consulta provincia municipio tipo_via nombre_via numero
          bloque escalera planta puerta codigo_provincia codigo_municipio
          codigo_via referencia_catastral with
  | inl rechazo => fun st => (rechazo, st)
  | inr pet =>
      intentar
        (root <- consultar (url pet) (params pet) ;;
         match parse_xml_error root with
         | Some error_info =>
             error_info <- lift (buscar_candidatos root error_info) ;;
             ret (JDict error_info)
         | None => lift (respuesta_consulta root)
         end)
        error_de_consulta
  end.

End Servicio.

Arguments mundo {Mundo} _.
Arguments enviadas {Mundo} _.
Arguments buscar_inmueble_inteligente {Mundo} http_get mensaje_interprete.
Arguments consulta_datos_catastro {Mundo} http_get mensaje_interprete.
Arguments ret {Mundo A} a.
Arguments lift {Mundo A} r.
Arguments bind {Mundo A B} m k.
Arguments intentar {Mundo} m handler.
Arguments consultar {Mundo} http_get url params.

(** *** [listar_numeros_via] *)

Section Listado.

Variable Mundo : Type.
Variable http_get : Peticion -> Mundo -> resultado Element * Mundo.
Variable mensaje_interprete : excepcion -> str.

(** "Extraer información de vías": the loop over the [calle] elements. A
    street is listed when its code [cv] and its name [nv] are found. *)
Definition extraer_vias (root : Element) : list dict :=
  flat_map (fun calle =>
              let cv := find calle ".//cv" in
              let tv := find calle ".//tv" in
              let nv := find calle ".//nv" in
              match cv, nv with
              | Some cv, Some nv =>
                  [[("codigo_via", json_of_text (text cv));
                    ("tipo", text_if_present tv);
                    ("nombre", json_of_text (text nv))]]
              | _, _ => []
              end)
    (findall root ".//calle").

Definition listar_numeros_via (provincia municipio : str)
  (tipo_via nombre_via : option str) : Estado Mundo -> json * Estado Mundo :=
  intentar
    (let url := String.append CALLEJERO_URL "/ConsultaVia" in
     let params : Params :=
       [("Provincia", Some provincia); ("Municipio", Some municipio)] in
     let params := si_dado "TipoVia" tipo_via params in
     let params := si_dado "NombreVia" nombre_via params in
     bind (consultar http_get url params)
       (fun root =>
          match parse_xml_error root with
          | Some error_info => ret (JDict error_info)
          | None =>
              let vias := extraer_vias root in
              ret (JDict [("tipo_respuesta", JStr (u "lista_vias"));
                          ("total", len_json vias);
                          ("vias", JList (map JDict vias));
                          ("sugerencia",
                           JStr (u "Usa el codigo_via de la vía deseada para buscar inmuebles con más precisión"))])
          end))
    (fun e => JDict [("error", JBool true);
                     ("mensaje", JStr (str_exc mensaje_interprete e))]).

End Listado.

Arguments listar_numeros_via {Mundo} http_get mensaje_interprete.

(** ** Sample documents and a sample service *)

Module Ejemplo.

Definition hoja (t : string) (s : string) : Element := Elem t (Some (u s)) [].
Definition nodo (t : string) (cs : list Element) : Element := Elem t None cs.

(** An error answer with the given description. *)
Definition doc_error (des : string) : Element :=
  nodo "consulta_dnp"
    [nodo "control" [hoja "cuerr" "1"];
     nodo "lerr" [nodo "err" [hoja "cod" "43"; hoja "des" des]]].

Definition nump (n pc1 pc2 : string) : Element :=
  nodo "nump" [nodo "pc" [hoja "pc1" pc1; hoja "pc2" pc2];
               nodo "num" [hoja "pnp" n]].

(** An error answer that also lists the street MAYOR and the number 7. *)
Definition doc_error_con_candidatos (des : string) : Element :=
  nodo "consulta_dnp"
    [nodo "lerr" [nodo "err" [hoja "cod" "43"; hoja "des" des]];
     nodo "callejero" [nodo "calle" [nodo "dir" [hoja "tv" "CL"; hoja "nv" "MAYOR"]]];
     nodo "numerero" [nodo "nump" [nodo "num" [hoja "pnp" "7"]]]].

(** The enumeration of a street with the numbers 1, 20 and 9, in this
    order. *)
Definition doc_numeros : Element :=
  nodo "consulta_numerero"
    [nodo "numerero"
       [nump "1" "0000001" "VK0001S"; nump "20" "0000020" "VK0020S";
        nump "9" "0000009" "VK0009S"]].

(** An enumeration with a number 0, an entry without [pc2], an entry whose
    number is no integer, and one regular entry. *)
Definition doc_numeros_mixtos : Element :=
  nodo "consulta_numerero"
    [nodo "numerero"
       [nump "0" "0000000" "VK0000S";
        nodo "nump" [nodo "pc" [hoja "pc1" "0000005"]; nodo "num" [hoja "pnp" "5"]];
        nump "S/N" "0000006" "VK0006S";
        nump "7" "0000007" "VK0007S"]].

(** A full record of one property. *)
Definition bi_completo : Element :=
  nodo "bi"
    [nodo "idbi"
       [hoja "cn" "UR";
        nodo "rc" [hoja "pc1" "1234567"; hoja "pc2" "89"]];
     nodo "dt"
       [hoja "np" "MADRID"; hoja "nm" "MADRID";
        nodo "locs" [nodo "lous" [nodo "lourb"
          [nodo "dir" [hoja "tv" "CL"; hoja "nv" "MAYOR"; hoja "pnp" "9"];
           nodo "loint" [hoja "pt" "02"; hoja "pu" "A"]]]]];
     hoja "ldt" "CL MAYOR 9 Pl:02 Pt:A 28013 MADRID (MADRID)";
     nodo "debi"
       [hoja "luso" "Residencial"; hoja "sfc" "45,5"; hoja "cpt" "abc";
        hoja "ant" "1950"]].

Definition doc_inmueble : Element :=
  nodo "consulta_dnp" [nodo "bico" [bi_completo]].

(** A record whose address block has a street name only. *)
Definition bi_solo_via : Element :=
  nodo "bi" [nodo "dt" [hoja "nv" "MAYOR"]].

(** A service that knows the numbers 1, 20 and 9 of one street: the
    enumeration answers with them, a lookup of another number answers
    "EL NUMERO NO EXISTE". The world has no state. *)
Definition param (k : string) (p : Peticion) : option str :=
  match dict_get k (params p) with
  | Some v => v
  | None => None
  end.

Definition servicio (p : Peticion) (w : unit) : resultado Element * unit :=
  if String.eqb (url p) (String.append CALLEJERO_URL "/ConsultaNumero")
  then (Ok doc_numeros, w)
  else
    match param "Numero" p with
    | Some n =>
        if str_eqb n (u "1") || str_eqb n (u "20") || str_eqb n (u "9")
        then (Ok doc_inmueble, w)
        else (Ok (doc_error "EL NUMERO NO EXISTE"), w)
    | None => (Ok (doc_error "EL NUMERO NO EXISTE"), w)
    end.

(** A service that answers every request with the same document. *)
Definition servicio_fijo (doc : Element) (p : Peticion) (w : unit)
  : resultado Element * unit := (Ok doc, w).

Definition sin_mensaje (e : excepcion) : str := [].

(** A record whose reference has its five parts. *)
Definition bi_cinco_partes : Element :=
  nodo "bi"
    [nodo "idbi"
       [hoja "cn" "UR";
        nodo "rc" [hoja "pc1" "1234567"; hoja "pc2" "89"; hoja "car" "0001";
                   hoja "cc1" "A"; hoja "cc2" "B"]]].

(** The dictionary that the full-record extractor returns for
    [bi_completo]. *)
Definition inmueble_completo : dict :=
  Eval vm_compute in
    match parse_inmueble_completo bi_completo with
    | Ok inmueble => inmueble
    | Raise _ => []
    end.

(** The dictionary that it returns for [bi_cinco_partes]. *)
Definition inmueble_cinco_partes : dict :=
  Eval vm_compute in
    match parse_inmueble_completo bi_cinco_partes with
    | Ok inmueble => inmueble
    | Raise _ => []
    end.

Definition inicio : Estado unit := {| mundo := tt; enviadas := [] |}.

(** The smart search for number 10 of the sample street, which the sample
    service does not know: its result and its final state. *)
Definition resultado_10 : json * Estado unit :=
  Eval vm_compute in
    buscar_inmueble_inteligente servicio sin_mensaje
      (u "MADRID") (u "MADRID") (u "MAYOR") (u "10") (Some (u "CL"))
      None None None inicio.

(** The smart search for number 9, which the sample service knows. *)
Definition resultado_9 : json * Estado unit :=
  Eval vm_compute in
    buscar_inmueble_inteligente servicio sin_mensaje
      (u "MADRID") (u "MADRID") (u "MAYOR") (u "9") (Some (u "CL"))
      None (Some (u "02")) None inicio.

(** The smart search against a service that knows no such street. *)
Definition resultado_sin_via : json * Estado unit :=
  Eval vm_compute in
    buscar_inmueble_inteligente
      (servicio_fijo (doc_error_con_candidatos "LA VIA NO EXISTE")) sin_mensaje
      (u "MADRID") (u "MADRID") (u "MAYOR") (u "9") (Some (u "CL"))
      None None None inicio.

(** A full record whose build year is no integer, and its answer. *)
Definition bi_sin_anio : Element :=
  nodo "bi"
    [nodo "idbi" [hoja "cn" "UR"];
     nodo "debi" [hoja "luso" "Residencial"; hoja "ant" "s. XIX"]].

Definition doc_sin_anio : Element :=
  nodo "consulta_dnp" [nodo "bico" [bi_sin_anio]].

(** An error answer whose description element is empty. *)
Definition doc_error_sin_texto : Element :=
  nodo "consulta_dnp"
    [nodo "lerr" [nodo "err" [hoja "cod" "12"; nodo "des" []]]].

(** An answer with a [bico] element that has no record, and a listing. *)
Definition doc_bico_vacio : Element :=
  nodo "consulta_dnp"
    [nodo "bico" [];
     nodo "lrcdnp"
       [nodo "rcdnp" [nodo "rc" [hoja "pc1" "1234567"; hoja "pc2" "89"]]]].

(** A list of streets: one with code and name, one without code. *)
Definition doc_vias : Element :=
  nodo "consulta_callejero"
    [nodo "callejero"
       [nodo "calle" [nodo "dir" [hoja "cv" "1234"; hoja "tv" "CL"; hoja "nv" "MAYOR"]];
        nodo "calle" [nodo "dir" [hoja "tv" "PZ"; hoja "nv" "MAYOR"]]]].

End Ejemplo.

(** ** Vocabulary of the statements *)

(** The keys that each block of the extractors can write. *)
Definition claves_referencia : list string := ["referencia_catastral"].
Definition claves_tipo : list string := ["tipo"].
Definition claves_domicilio : list string :=
  ["direccion"; "provincia"; "municipio"; "localizacion_interna"].
Definition claves_no_estructurado : list string := ["domicilio_completo"].
Definition claves_economicos : list string :=
  ["uso"; "superficie_m2"; "coef_participacion"; "antiguedad"].
Definition claves_unidades : list string := ["unidades_constructivas"].
Definition claves_subparcelas : list string := ["subparcelas"].

(** In the words of the specification: the optional fields of a full
    record in its data model are the internal location, the full address
    text, the area, the participation coefficient and the build year. *)
Definition campos_opcionales : list string :=
  ["localizacion_interna"; "domicilio_completo"; "superficie_m2";
   "coef_participacion"; "antiguedad"].

(** The keys that the extractor can write with the value [None]. *)
Definition campos_anulables : list string :=
  ["tipo"; "direccion"; "provincia"; "municipio"; "uso"; "superficie_m2";
   "coef_participacion"; "antiguedad"].

Definition todas_las_claves : list string :=
  claves_referencia ++ claves_tipo ++ claves_domicilio
    ++ claves_no_estructurado ++ claves_economicos ++ claves_unidades
    ++ claves_subparcelas.

(** The address text of a [dt] block. *)
Definition direccion_de (dt : Element) : json :=
  let partes :=
    (match texto_de (find dt ".//tv") with Some t => [t] | None => [] end)
      ++ (match texto_de (find dt ".//nv") with Some t => [t] | None => [] end)
      ++ (match texto_de (find dt ".//pnp") with Some t => [t] | None => [] end) in
  if truthy partes then JStr (join (u " ") partes) else JNull.

Definition tiene_localizacion (dt : Element) : bool :=
  existsb (fun x => match texto_de x with Some _ => true | None => false end)
    [find dt ".//bq"; find dt ".//es"; find dt ".//pt"; find dt ".//pu"].

(** The lists of units and of sub-parcels that are written. *)
Definition unidades_de (lcons : Element) : list dict :=
  filter truthy (map unidad_constructiva (findall lcons ".//cons")).

Definition subparcelas_de (lspr : Element) : list dict :=
  filter truthy (map subparcela_de (findall lspr ".//spr")).

(** In the words of the specification: what a part of the reference
    contributes, its text, and nothing when the part or its text is
    missing. *)
Definition texto_presente (x : option Element) : str :=
  match x with
  | Some e =>
      match text e with
      | Some s => s
      | None => []
      end
  | None => []
  end.

(** In the words of the specification: a number argument that parses as
    a non-negative integer. *)
Definition entero_no_negativo (s : str) : bool :=
  match Py.int s with
  | Some n => 0 <=? n
  | None => false
  end.

(** The value of a key of a result. *)
Definition campo (k : string) (j : json) : option json :=
  match j with
  | JDict d => dict_get k d
  | _ => None
  end.

(** The endpoints. *)
Definition URL_DNPRC : string := String.append CALLEJERO_URL "/Consulta_DNPRC".
Definition URL_DNPLOC_Codigos : string :=
  String.append CODIGOS_URL "/Consulta_DNPLOC_Codigos".
Definition URL_DNPLOC : string := String.append CALLEJERO_URL "/Consulta_DNPLOC".

Definition error_de_validacion : json :=
  JDict [("error", JBool true);
         ("mensaje",
          JStr (u "Debe proporcionar provincia y municipio, o usar referencia_catastral"))].

Definition URL_ConsultaNumero : string :=
  String.append CALLEJERO_URL "/ConsultaNumero".

(** In the words of the specification: numbers taken from the candidates
    in the order of the enumeration, that is, [otros] is a sub-list of
    [enumerados]. *)
Fixpoint subsecuencia (otros enumerados : list Z) : bool :=
  match otros, enumerados with
  | [], _ => true
  | _ :: _, [] => false
  | x :: otros', y :: enumerados' =>
      if x =? y then subsecuencia otros' enumerados'
      else subsecuencia otros enumerados'
  end.

Definition es_cercano (j : json) : Prop :=
  campo "coincidencia" j = Some (JStr (u "cercano")).

(** The three requests of the smart search: the lookup of the number
    asked for, the enumeration, and the lookup of the number selected. *)
Definition peticion_directa (provincia municipio nombre_via : str)
  (numero_buscado : Z) (tipo_via escalera planta puerta : option str)
  : Peticion :=
  {| url := URL_DNPLOC;
     params :=
       si_dado "Puerta" puerta
         (si_dado "Planta" planta
            (si_dado "Escalera" escalera
               (si_dado "TipoVia" tipo_via
                  [("Provincia", Some provincia); ("Municipio", Some municipio);
                   ("NombreVia", Some nombre_via);
                   ("Numero", Some (str_of_int numero_buscado))]))) |}.

Definition peticion_numeros (provincia municipio nombre_via : str)
  (numero_buscado : Z) (tipo_via : option str) : Peticion :=
  {| url := URL_ConsultaNumero;
     params :=
       si_dado "TipoVia" tipo_via
         [("Provincia", Some provincia); ("Municipio", Some municipio);
          ("NombreVia", Some nombre_via);
          ("Numero", Some (str_of_int numero_buscado))] |}.

Definition peticion_cercano (provincia municipio nombre_via : str)
  (numero_cercano : Z) (tipo_via : option str) : Peticion :=
  {| url := URL_DNPLOC;
     params :=
       si_dado "TipoVia" tipo_via
         [("Provincia", Some provincia); ("Municipio", Some municipio);
          ("NombreVia", Some nombre_via);
          ("Numero", Some (str_of_int numero_cercano))] |}.

(** The state after one more request. *)
Definition tras_peticion {Mundo : Type} (st : Estado Mundo) (pet : Peticion)
  (w : Mundo) : Estado Mundo :=
  {| mundo := w; enviadas := enviadas st ++ [pet] |}.

(** The result of the smart search for an exception caught. *)
Definition error_inesperado (mensaje_interprete : excepcion -> str)
  (e : excepcion) : json :=
  JDict [("error", JBool true); ("tipo", JStr (u "error_inesperado"));
         ("mensaje", JStr (str_exc mensaje_interprete e))].

Definition es_exacta (j : json) : Prop :=
  campo "coincidencia" j = Some (JStr (u "exacta")).

(** A result with its discriminant: either the key [error] with a truth
    value and no [tipo_respuesta], or a [tipo_respuesta] and no [error]. *)
Definition discriminado (j : json) : Prop :=
  (exists b, campo "error" j = Some (JBool b) /\ campo "tipo_respuesta" j = None)
  \/ (exists t, campo "tipo_respuesta" j = Some (JStr t) /\ campo "error" j = None).

Definition URL_ConsultaVia : string := String.append CALLEJERO_URL "/ConsultaVia".

Definition sin_resultados : json :=
  JDict [("error", JBool false);
         ("mensaje",
          JStr (u "No se encontraron resultados para los parámetros proporcionados"))].

(** The keys of a service error, and those that [consulta_datos_catastro]
    may add to it. *)
Definition claves_error : list string := ["error"; "codigo"; "descripcion"].
Definition claves_candidatos : list string :=
  ["candidatos_provincias"; "candidatos_municipios"; "candidatos_vias";
   "candidatos_numeros"; "sugerencia"].

(** The keys of a listing entry. *)
Definition claves_listado : list string := claves_referencia ++ claves_domicilio.

(** The decimal digits of [Decimal.uint], as values and as characters. *)
Fixpoint digitos (d : Decimal.uint) : list Z :=
  match d with
  | Decimal.Nil => []
  | Decimal.D0 d => 0 :: digitos d
  | Decimal.D1 d => 1 :: digitos d
  | Decimal.D2 d => 2 :: digitos d
  | Decimal.D3 d => 3 :: digitos d
  | Decimal.D4 d => 4 :: digitos d
  | Decimal.D5 d => 5 :: digitos d
  | Decimal.D6 d => 6 :: digitos d
  | Decimal.D7 d => 7 :: digitos d
  | Decimal.D8 d => 8 :: digitos d
  | Decimal.D9 d => 9 :: digitos d
  end.

Definition cifras (d : Decimal.uint) : str :=
  map (fun k => (0x30 + Z.to_N k)%N) (digitos d).

(** The request of [listar_numeros_via]. *)
Definition peticion_vias (provincia municipio : str)
  (tipo_via nombre_via : option str) : Peticion :=
  {| url := URL_ConsultaVia;
     params :=
       si_dado "NombreVia" nombre_via
         (si_dado "TipoVia" tipo_via
            [("Provincia", Some provincia); ("Municipio", Some municipio)]) |}.

(** A street entry with a code and a name. *)
Definition con_codigo_y_nombre (calle : Element) : bool :=
  match find calle ".//cv", find calle ".//nv" with
  | Some _, Some _ => true
  | _, _ => false
  end.

(** The keys of a street of [listar_numeros_via], of a construction unit
    and of a sub-parcel. *)
Definition claves_via : list string := ["codigo_via"; "tipo"; "nombre"].
Definition claves_unidad : list string :=
  ["uso"; "superficie_m2"; "tipologia"; "localizacion"].
Definition claves_subparcela : list string :=
  ["codigo"; "calificacion"; "cultivo"; "intensidad_productiva";
   "superficie_m2"].

(** [l] is [m] with some of its entries left out. *)
Inductive sublista {A : Type} : list A -> list A -> Prop :=
| sublista_nil : sublista [] []
| sublista_salta (x : A) (l m : list A) : sublista l m -> sublista l (x :: m)
| sublista_toma (x : A) (l m : list A) : sublista l m -> sublista (x :: l) (x :: m).

(** The entries of [l] before the first [k]. *)
Fixpoint antes (k : string) (l : list string) : list string :=
  match l with
  | [] => []
  | x :: r => if String.eqb k x then [] else x :: antes k r
  end.

Fixpoint prefijo (l m : list string) : bool :=
  match l, m with
  | [], _ => true
  | x :: l', y :: m' => String.eqb x y && prefijo l' m'
  | _ :: _, [] => false
  end.

(** The number that a candidate of [parse_candidatos] carries as text. *)
Definition numero_de_candidato (d : dict) : option Z :=
  match dict_get "numero" d with
  | Some (JStr t) => Py.int t
  | _ => None
  end.

(** * Properties *)

(** ** The stable sort *)

Section SortFacts.
Context {A : Type} (key : A -> Z).

Lemma insert_In (x y : A) (l : list A) :
  In y (insert key x l) <-> y = x \/ In y l.
Proof.
  induction l as [|z l IH]; simpl.
  - intuition auto.
  - destruct (key x <=? key z); simpl; rewrite ?IH; intuition auto.
Qed.

Lemma sort_by_In (y : A) (l : list A) : In y (sort_by key l) <-> In y l.
Proof.
  induction l as [|x l IH]; simpl; [tauto|].
  rewrite insert_In, IH. intuition auto.
Qed.

Lemma sort_by_nil_iff (l : list A) : sort_by key l = [] <-> l = [].
Proof.
  split; [|intros ->; reflexivity].
  destruct l as [|x l]; [reflexivity|]. simpl.
  destruct (sort_by key l) as [|y s]; simpl; [discriminate|].
  destruct (key x <=? key y); discriminate.
Qed.

Lemma insert_ascending (x : A) (l : list A) :
  ascending key l -> ascending key (insert key x l).
Proof.
  induction l as [|z l IH]; simpl.
  - intros _. split; [intros y []|exact I].
  - intros [Hz Hl]. destruct (key x <=? key z) eqn:E.
    + apply Z.leb_le in E. simpl. split; [|split; assumption].
      intros y [<-|Hy]; [assumption|]. specialize (Hz y Hy). lia.
    + apply Z.leb_gt in E. simpl. split; [|apply IH; assumption].
      intros y Hy. apply insert_In in Hy as [->|Hy]; [lia|auto].
Qed.

Lemma sort_by_ascending (l : list A) : ascending key (sort_by key l).
Proof.
  induction l as [|x l IH]; simpl; [exact I|].
  apply insert_ascending, IH.
Qed.

(** Stability: the elements of any one key keep their order. *)
Lemma insert_stable (k : Z) (x : A) (l : list A) :
  ascending key l ->
  filter (fun y => key y =? k) (insert key x l)
  = filter (fun y => key y =? k) (x :: l).
Proof.
  induction l as [|z l IH]; [reflexivity|].
  intros [Hz Hl]. cbn [insert].
  destruct (key x <=? key z) eqn:E; [reflexivity|].
  apply Z.leb_gt in E.
  cbn [filter]. rewrite (IH Hl). cbn [filter].
  destruct (key x =? k) eqn:Ex, (key z =? k) eqn:Ez; try reflexivity.
  apply Z.eqb_eq in Ex, Ez. lia.
Qed.

Lemma sort_by_stable (k : Z) (l : list A) :
  filter (fun y => key y =? k) (sort_by key l)
  = filter (fun y => key y =? k) l.
Proof.
  induction l as [|x l IH]; [reflexivity|].
  cbn [sort_by fold_right].
  rewrite insert_stable by apply sort_by_ascending.
  cbn [filter]. fold (sort_by key l). rewrite IH. reflexivity.
Qed.

Lemma hd_insert (x : A) (l : list A) :
  hd_error (insert key x l)
  = Some match l with
         | [] => x
         | y :: _ => if key x <=? key y then x else y
         end.
Proof.
  destruct l as [|y l]; simpl; [reflexivity|].
  destruct (key x <=? key y); reflexivity.
Qed.

(** The head of the sorted list is the first element of the original
    list, in its order, whose key is the least. *)
Lemma sort_by_head (l : list A) :
  l <> [] ->
  exists l1 sel l2,
    l = l1 ++ sel :: l2
    /\ hd_error (sort_by key l) = Some sel
    /\ (forall y, In y l1 -> key sel < key y)
    /\ (forall y, In y l2 -> key sel <= key y).
Proof.
  induction l as [|x l IH]; [congruence|]. intros _.
  cbn [sort_by fold_right]. fold (sort_by key l). rewrite hd_insert.
  destruct l as [|x' l'].
  - exists [], x, []. simpl. repeat split; intros y [].
  - destruct IH as (l1 & sel & l2 & Hl & Hhd & H1 & H2); [discriminate|].
    destruct (sort_by key (x' :: l')) as [|s rest]; [discriminate|].
    injection Hhd as ->.
    destruct (key x <=? key sel) eqn:E.
    + apply Z.leb_le in E.
      exists [], x, (x' :: l'). repeat split; [intros y []|].
      intros y Hy. rewrite Hl in Hy.
      apply in_app_or in Hy as [Hy|[<-|Hy]];
        [specialize (H1 y Hy)|..|specialize (H2 y Hy)]; lia.
    + apply Z.leb_gt in E.
      exists (x :: l1), sel, l2. rewrite Hl. repeat split; [|assumption].
      intros y [<-|Hy]; [lia|auto].
Qed.

Lemma sort_by_head_min (l : list A) (sel : A) :
  hd_error (sort_by key l) = Some sel ->
  In sel l /\ forall y, In y l -> key sel <= key y.
Proof.
  intros Hhd.
  assert (Hne : l <> []) by (intros ->; discriminate).
  destruct (sort_by_head l Hne) as (l1 & s & l2 & Hl & Hs & H1 & H2).
  rewrite Hs in Hhd. injection Hhd as ->. split.
  - rewrite Hl. apply in_or_app. right. left. reflexivity.
  - intros y Hy. rewrite Hl in Hy.
    apply in_app_or in Hy as [Hy|[<-|Hy]];
      [specialize (H1 y Hy)|..|specialize (H2 y Hy)]; lia.
Qed.

End SortFacts.

(** ** The linear scan of [buscar_numero_cercano] *)

Lemma scan_invariant (t : Z) (l : list Z) (d m : Z) :
  d = Z.abs (t - m) ->
  let r := fold_left (paso_cercano t) l (d, m) in
  fst r = Z.abs (t - snd r)
  /\ (snd r = m \/ In (snd r) l)
  /\ fst r <= d
  /\ forall x, In x l -> fst r <= Z.abs (t - x).
Proof.
  revert d m. induction l as [|x l IH]; intros d m Hd; cbn zeta.
  - simpl. split; [assumption|]. split; [left; reflexivity|].
    split; [lia|]. intros x [].
  - cbn [fold_left].
    replace (paso_cercano t (d, m) x)
      with (if Z.abs (t - x) <? d then (Z.abs (t - x), x) else (d, m))
      by reflexivity.
    destruct (Z.abs (t - x) <? d) eqn:E.
    + apply Z.ltb_lt in E.
      destruct (IH (Z.abs (t - x)) x eq_refl) as (H1 & H2 & H3 & H4).
      repeat split; [assumption| |lia|].
      * right. destruct H2 as [->|H2]; [left; reflexivity|right; assumption].
      * intros y [<-|Hy]; [assumption|auto].
    + apply Z.ltb_ge in E.
      destruct (IH d m Hd) as (H1 & H2 & H3 & H4).
      repeat split; [assumption| |lia|].
      * destruct H2 as [->|H2]; [left; reflexivity|right; right; assumption].
      * intros y [<-|Hy]; [lia|auto].
Qed.

Lemma buscar_numero_cercano_unfold (t : Z) (l : list Z) :
  l <> [] ->
  exists mejor resto,
    sorted l = mejor :: resto
    /\ buscar_numero_cercano t l
       = Some (snd (fold_left (paso_cercano t) (mejor :: resto)
                      (Z.abs (t - mejor), mejor))).
Proof.
  intros Hne. unfold buscar_numero_cercano.
  destruct l as [|x l]; [congruence|].
  destruct (sorted (x :: l)) as [|mejor resto] eqn:E.
  - apply sort_by_nil_iff in E. discriminate.
  - exists mejor, resto. split; reflexivity.
Qed.

Lemma buscar_numero_cercano_spec (t : Z) (l : list Z) :
  l <> [] ->
  exists m,
    buscar_numero_cercano t l = Some m
    /\ In m l
    /\ forall x, In x l -> Z.abs (t - m) <= Z.abs (t - x).
Proof.
  intros Hne.
  destruct (buscar_numero_cercano_unfold t l Hne) as (mejor & resto & Hs & ->).
  destruct (scan_invariant t (mejor :: resto) (Z.abs (t - mejor)) mejor eq_refl)
    as (H1 & H2 & _ & H4).
  eexists. split; [reflexivity|]. split.
  - apply (sort_by_In (fun x => x)). fold (sorted l). rewrite Hs.
    destruct H2 as [->|H2]; [left; reflexivity|assumption].
  - intros x Hx. rewrite <- H1. apply H4. rewrite <- Hs.
    apply (sort_by_In (fun x => x)). assumption.
Qed.

(** ** The nearest number *)

Lemma seleccion_spec (t : Z) (candidatos : list Candidato) :
  candidatos <> [] ->
  exists c,
    hd_error (ordenar_por_diferencia t candidatos) = Some c
    /\ In c candidatos
    /\ forall x, In x candidatos ->
                 Z.abs (numero c - t) <= Z.abs (numero x - t).
Proof.
  intros Hne. unfold ordenar_por_diferencia.
  destruct (sort_by_head (fun x => Z.abs (numero x - t)) candidatos Hne)
    as (l1 & sel & l2 & _ & Hhd & _).
  exists sel. split; [assumption|].
  apply (sort_by_head_min (fun x => Z.abs (numero x - t))). assumption.
Qed.

(** C1. For every non-empty list of integers and every target, the
    selection of the nearest number yields one value (it is a function of
    its arguments), that value is an element of the list, and when the
    target is in the list the value is the target, at difference 0. This
    holds of [buscar_numero_cercano] and of the selection that the smart
    search makes among its candidates, the head of the list sorted by
    difference. *)
Theorem C1_nearest_member_and_exact
  (numero_buscado : Z) (numeros : list Z) (candidatos : list Candidato)
  (Hn : numeros <> []) (Hc : candidatos <> []) :
  (exists m,
      buscar_numero_cercano numero_buscado numeros = Some m
      /\ In m numeros
      /\ (In numero_buscado numeros ->
          m = numero_buscado /\ Z.abs (numero_buscado - m) = 0))
  /\ (exists c,
         hd_error (ordenar_por_diferencia numero_buscado candidatos) = Some c
         /\ In c candidatos
         /\ (In numero_buscado (map numero candidatos) ->
             numero c = numero_buscado
             /\ Z.abs (numero_buscado - numero c) = 0)).
Proof.
  split.
  - destruct (buscar_numero_cercano_spec numero_buscado numeros Hn)
      as (m & Hm & Hin & Hmin).
    exists m. split; [assumption|]. split; [assumption|].
    intros Ht. specialize (Hmin numero_buscado Ht). lia.
  - destruct (seleccion_spec numero_buscado candidatos Hc)
      as (c & Hhd & Hin & Hmin).
    exists c. split; [assumption|]. split; [assumption|].
    intros Ht. apply in_map_iff in Ht as (x & Hx & Hxin).
    specialize (Hmin x Hxin). lia.
Qed.

(** C2. Among the candidates the smart search selects the first one, in
    the order of the enumeration, whose distance to the requested number
    is the least: every candidate before it is strictly farther, every
    candidate after it is at least as far. The sort is stable: the
    candidates at any one distance keep their order. *)
Theorem C2_tie_break_first_in_enumeration
  (numero_buscado : Z) (candidatos : list Candidato)
  (Hc : candidatos <> []) :
  (exists antes numero_cercano despues,
      candidatos = antes ++ numero_cercano :: despues
      /\ hd_error (ordenar_por_diferencia numero_buscado candidatos)
         = Some numero_cercano
      /\ (forall c, In c antes ->
                    Z.abs (numero numero_cercano - numero_buscado)
                    < Z.abs (numero c - numero_buscado))
      /\ (forall c, In c despues ->
                    Z.abs (numero numero_cercano - numero_buscado)
                    <= Z.abs (numero c - numero_buscado)))
  /\ (forall d,
         filter (fun c => Z.abs (numero c - numero_buscado) =? d)
           (ordenar_por_diferencia numero_buscado candidatos)
         = filter (fun c => Z.abs (numero c - numero_buscado) =? d) candidatos).
Proof.
  split.
  - exact (sort_by_head (fun x => Z.abs (numero x - numero_buscado)) candidatos Hc).
  - intros d.
    exact (sort_by_stable (fun x => Z.abs (numero x - numero_buscado)) d candidatos).
Qed.

(** The example of the specification: target 10 and the candidates 8 and 12,
    both at distance 2. The enumeration order decides; [buscar_numero_cercano],
    which sorts the numbers first, answers 8 for either order. *)
Example tie_break_8_12 :
  let c8 := {| numero := 8; referencia := [] |} in
  let c12 := {| numero := 12; referencia := [] |} in
  hd_error (ordenar_por_diferencia 10 [c8; c12]) = Some c8
  /\ hd_error (ordenar_por_diferencia 10 [c12; c8]) = Some c12
  /\ buscar_numero_cercano 10 [8; 12] = Some 8
  /\ buscar_numero_cercano 10 [12; 8] = Some 8.
Proof. repeat split. Qed.

(** ** The candidates of the fallback *)

Lemma int_empty : Py.int [] = None.
Proof. reflexivity. Qed.

(** C10. An entry of the enumeration is a candidate exactly when its
    elements [pnp], [pc1] and [pc2] are found, the text of [pnp] reads as an
    integer and that integer is not 0; its reference is the two parts put
    together. So the number selected as nearest is never 0 and always comes
    from an entry with both reference parts. *)
Theorem C10_candidate_filter (consulta_root : Element) :
  (forall c,
      In c (extraer_numeros consulta_root) <->
      exists nump pnp pc1 pc2 t,
        In nump (findall consulta_root ".//nump")
        /\ find nump ".//pnp" = Some pnp
        /\ find nump ".//pc1" = Some pc1
        /\ find nump ".//pc2" = Some pc2
        /\ text pnp = Some t
        /\ Py.int t = Some (numero c)
        /\ numero c <> 0
        /\ referencia c = text_or_empty pc1 ++ text_or_empty pc2)
  /\ (forall numero_buscado numero_cercano,
         hd_error (ordenar_por_diferencia numero_buscado
                     (extraer_numeros consulta_root)) = Some numero_cercano ->
         numero numero_cercano <> 0
         /\ In numero_cercano (extraer_numeros consulta_root)).
Proof.
  assert (Hiff : forall c,
      In c (extraer_numeros consulta_root) <->
      exists nump pnp pc1 pc2 t,
        In nump (findall consulta_root ".//nump")
        /\ find nump ".//pnp" = Some pnp
        /\ find nump ".//pc1" = Some pc1
        /\ find nump ".//pc2" = Some pc2
        /\ text pnp = Some t
        /\ Py.int t = Some (numero c)
        /\ numero c <> 0
        /\ referencia c = text_or_empty pc1 ++ text_or_empty pc2).
  { intros c. unfold extraer_numeros. rewrite in_flat_map. split.
    - intros (nump & Hin & Hc). revert Hc. cbv beta zeta.
      destruct (find nump ".//pnp") as [pnp|] eqn:Epnp; [|intros []].
      destruct (find nump ".//pc1") as [pc1|] eqn:Epc1; [|intros []].
      destruct (find nump ".//pc2") as [pc2|] eqn:Epc2; [|intros []].
      unfold texto_de.
      destruct (text pnp) as [[|a t]|] eqn:Et; try (intros []).
      destruct (Py.int (a :: t)) as [n|] eqn:En; [|intros []].
      destruct (n =? 0) eqn:E0; [intros []|].
      intros [<-|[]]. apply Z.eqb_neq in E0.
      exists nump, pnp, pc1, pc2, (a :: t). simpl. repeat split; assumption.
    - intros (nump & pnp & pc1 & pc2 & t & Hin & Epnp & Epc1 & Epc2 & Et & En & E0 & Er).
      exists nump. split; [assumption|]. cbv beta zeta.
      rewrite Epnp, Epc1, Epc2. unfold texto_de. rewrite Et.
      destruct t as [|a t]; [rewrite int_empty in En; discriminate|].
      rewrite En. apply Z.eqb_neq in E0. rewrite E0.
      left. destruct c as [n r]. simpl in *. rewrite Er. reflexivity. }
  split; [exact Hiff|].
  intros t sel Hhd.
  apply (sort_by_head_min (fun x => Z.abs (numero x - t))) in Hhd as [Hin _].
  split; [|assumption].
  apply Hiff in Hin as (? & ? & ? & ? & ? & _ & _ & _ & _ & _ & _ & H0 & _).
  exact H0.
Qed.

Example candidatos_de_enumeracion_mixta :
  extraer_numeros Ejemplo.doc_numeros_mixtos
  = [{| numero := 7; referencia := u "0000007VK0007S" |}]
  /\ map numero (extraer_numeros Ejemplo.doc_numeros) = [1; 20; 9].
Proof. split; vm_compute; reflexivity. Qed.

(** ** Dictionaries *)

Lemma dict_get_set {V : Type} (k k' : string) (v : V) (d : list (string * V)) :
  dict_get k (dict_set k' v d)
  = if String.eqb k k' then Some v else dict_get k d.
Proof.
  induction d as [|[k0 v0] r IH]; simpl.
  - reflexivity.
  - destruct (String.eqb_spec k' k0) as [->|Hne]; simpl.
    + destruct (String.eqb k k0); reflexivity.
    + rewrite IH.
      destruct (String.eqb_spec k k0) as [->|Hne']; [|reflexivity].
      destruct (String.eqb_spec k0 k') as [E|_]; [congruence|reflexivity].
Qed.

Lemma dict_get_set_other {V : Type} (k k' : string) (v : V) (d : list (string * V)) :
  k <> k' -> dict_get k (dict_set k' v d) = dict_get k d.
Proof.
  intros Hne. rewrite dict_get_set.
  destruct (String.eqb_spec k k'); [contradiction|reflexivity].
Qed.

Lemma dict_get_set_same {V : Type} (k : string) (v : V) (d : list (string * V)) :
  dict_get k (dict_set k v d) = Some v.
Proof. rewrite dict_get_set, String.eqb_refl. reflexivity. Qed.

(** A key outside a list of literal keys differs from each of them. *)
Ltac otra_clave H :=
  let E := fresh in
  intros E; first [discriminate E | apply H; rewrite E; simpl; tauto].

(** Reduce [dict_get k] through the [dict_set]s of an unfolded block, for a
    key [k] that hypothesis [H] keeps out of the block's keys. *)
Ltac saltar H :=
  repeat (rewrite dict_get_set_other by (otra_clave H)).

(** ** What each block of the extractors writes *)

Lemma referencia_completa_frame (bi : Element) (d : dict) (k : string) :
  ~ In k claves_referencia ->
  dict_get k (referencia_completa bi d) = dict_get k d.
Proof.
  intros H. unfold referencia_completa. cbv zeta.
  destruct (find bi ".//rc"); [|reflexivity]. saltar H. reflexivity.
Qed.

Lemma referencia_listado_frame (bi : Element) (d : dict) (k : string) :
  ~ In k claves_referencia ->
  dict_get k (referencia_listado bi d) = dict_get k d.
Proof.
  intros H. unfold referencia_listado. cbv zeta.
  destruct (find bi ".//rc"); [|reflexivity]. saltar H. reflexivity.
Qed.

Lemma tipo_de_bien_frame (bi : Element) (d : dict) (k : string) :
  ~ In k claves_tipo -> dict_get k (tipo_de_bien bi d) = dict_get k d.
Proof.
  intros H. unfold tipo_de_bien.
  destruct (find bi ".//cn"); [|reflexivity]. saltar H. reflexivity.
Qed.

Lemma domicilio_tributario_frame (bi : Element) (d : dict) (k : string) :
  ~ In k claves_domicilio ->
  dict_get k (domicilio_tributario bi d) = dict_get k d.
Proof.
  intros H. unfold domicilio_tributario. cbv zeta.
  destruct (find bi ".//dt"); [|reflexivity].
  match goal with |- context [if ?b then _ else _] => destruct b end;
    saltar H; reflexivity.
Qed.

Lemma domicilio_no_estructurado_frame (bi : Element) (d : dict) (k : string) :
  ~ In k claves_no_estructurado ->
  dict_get k (domicilio_no_estructurado bi d) = dict_get k d.
Proof.
  intros H. unfold domicilio_no_estructurado.
  destruct (texto_de (find bi ".//ldt")); [|reflexivity]. saltar H. reflexivity.
Qed.

Lemma datos_economicos_frame (bi : Element) (d d' : dict) (k : string) :
  datos_economicos bi d = Ok d' ->
  ~ In k claves_economicos -> dict_get k d' = dict_get k d.
Proof.
  intros Hok H. revert Hok. unfold datos_economicos. cbv zeta.
  destruct (find bi ".//debi") as [debi|];
    [|intros [= <-]; reflexivity].
  destruct (texto_de (find debi "sfc")), (texto_de (find debi "cpt")),
    (texto_de (find debi "ant")) as [t|];
    try destruct (Py.int t); intros [= <-]; saltar H; reflexivity.
Qed.

Lemma unidades_constructivas_frame (bi : Element) (d : dict) (k : string) :
  ~ In k claves_unidades ->
  dict_get k (unidades_constructivas bi d) = dict_get k d.
Proof.
  intros H. unfold unidades_constructivas. cbv zeta.
  destruct (find bi ".//lcons"); [|reflexivity].
  match goal with |- context [if ?b then _ else _] => destruct b end;
    saltar H; reflexivity.
Qed.

Lemma subparcelas_frame (bi : Element) (d : dict) (k : string) :
  ~ In k claves_subparcelas ->
  dict_get k (subparcelas bi d) = dict_get k d.
Proof.
  intros H. unfold subparcelas. cbv zeta.
  destruct (find bi ".//lspr"); [|reflexivity].
  match goal with |- context [if ?b then _ else _] => destruct b end;
    saltar H; reflexivity.
Qed.

(** The dictionary of a full record, block by block. *)
Lemma parse_inmueble_completo_Ok (bi : Element) (inmueble : dict) :
  parse_inmueble_completo bi = Ok inmueble ->
  exists d,
    datos_economicos bi
      (domicilio_no_estructurado bi
         (domicilio_tributario bi
            (tipo_de_bien bi (referencia_completa bi [])))) = Ok d
    /\ inmueble = subparcelas bi (unidades_constructivas bi d).
Proof.
  unfold parse_inmueble_completo. cbv zeta.
  destruct (datos_economicos _ _) as [d|e]; [|discriminate].
  intros [= <-]. exists d. split; reflexivity.
Qed.

Ltac no_en_lista := cbv; intuition discriminate.

Ltac enmarcar :=
  repeat first
    [ rewrite subparcelas_frame by no_en_lista
    | rewrite unidades_constructivas_frame by no_en_lista
    | rewrite domicilio_no_estructurado_frame by no_en_lista
    | rewrite domicilio_tributario_frame by no_en_lista
    | rewrite tipo_de_bien_frame by no_en_lista
    | rewrite referencia_completa_frame by no_en_lista
    | rewrite referencia_listado_frame by no_en_lista ].

(** Split a successful extraction into the dictionary [d] after the
    economic data and the two list blocks. *)
Ltac partir Hok d Hd :=
  apply parse_inmueble_completo_Ok in Hok as (d & Hd & ->).

Lemma completo_referencia (bi : Element) (inmueble : dict) :
  parse_inmueble_completo bi = Ok inmueble ->
  dict_get "referencia_catastral" inmueble
  = dict_get "referencia_catastral" (referencia_completa bi []).
Proof.
  intros Hok. partir Hok d Hd. enmarcar.
  rewrite (datos_economicos_frame _ _ _ _ Hd) by no_en_lista.
  enmarcar. reflexivity.
Qed.

Lemma completo_tipo (bi : Element) (inmueble : dict) :
  parse_inmueble_completo bi = Ok inmueble ->
  dict_get "tipo" inmueble
  = match find bi ".//cn" with
    | Some cn => Some (json_of_text (text cn))
    | None => None
    end.
Proof.
  intros Hok. partir Hok d Hd. enmarcar.
  rewrite (datos_economicos_frame _ _ _ _ Hd) by no_en_lista.
  enmarcar. unfold tipo_de_bien.
  destruct (find bi ".//cn").
  - apply dict_get_set_same.
  - enmarcar. reflexivity.
Qed.

Lemma domicilio_tributario_get (bi : Element) (d : dict) (k : string) :
  In k claves_domicilio ->
  dict_get k (domicilio_tributario bi d)
  = match find bi ".//dt" with
    | Some dt =>
        if String.eqb k "direccion" then Some (direccion_de dt)
        else if String.eqb k "provincia"
             then Some (text_if_present (find dt ".//np"))
        else if String.eqb k "municipio"
             then Some (text_if_present (find dt ".//nm"))
        else if tiene_localizacion dt
             then Some (localizacion (find dt ".//bq") (find dt ".//es")
                          (find dt ".//pt") (find dt ".//pu"))
             else dict_get k d
    | None => dict_get k d
    end.
Proof.
  intros Hk. unfold domicilio_tributario. cbv zeta.
  destruct (find bi ".//dt") as [dt|]; [|reflexivity].
  fold (direccion_de dt). fold (tiene_localizacion dt).
  destruct Hk as [<-|[<-|[<-|[<-|[]]]]];
    destruct (tiene_localizacion dt); rewrite ?dict_get_set; reflexivity.
Qed.

Lemma completo_domicilio (bi : Element) (inmueble : dict) (k : string) :
  In k claves_domicilio ->
  parse_inmueble_completo bi = Ok inmueble ->
  dict_get k inmueble = dict_get k (domicilio_tributario bi []).
Proof.
  intros Hk Hok. partir Hok d Hd.
  destruct Hk as [<-|[<-|[<-|[<-|[]]]]]; enmarcar;
    rewrite (datos_economicos_frame _ _ _ _ Hd) by no_en_lista;
    enmarcar; rewrite !domicilio_tributario_get by (cbv; tauto);
    destruct (find bi ".//dt"); cbn [String.eqb Ascii.eqb Bool.eqb];
    try destruct (tiene_localizacion _); enmarcar; reflexivity.
Qed.

Lemma completo_no_estructurado (bi : Element) (inmueble : dict) :
  parse_inmueble_completo bi = Ok inmueble ->
  dict_get "domicilio_completo" inmueble
  = match texto_de (find bi ".//ldt") with
    | Some t => Some (JStr t)
    | None => None
    end.
Proof.
  intros Hok. partir Hok d Hd. enmarcar.
  rewrite (datos_economicos_frame _ _ _ _ Hd) by no_en_lista.
  unfold domicilio_no_estructurado.
  destruct (texto_de (find bi ".//ldt")).
  - apply dict_get_set_same.
  - enmarcar. reflexivity.
Qed.

Lemma datos_economicos_sin_debi (bi : Element) (d : dict) :
  find bi ".//debi" = None -> datos_economicos bi d = Ok d.
Proof. intros H. unfold datos_economicos. rewrite H. reflexivity. Qed.

(** The economic data never fail on the decimal fields: the one exception
    is the [ValueError] of [int] on the text of [ant]. *)
Lemma datos_economicos_cases (bi debi : Element) (d : dict) :
  find bi ".//debi" = Some debi ->
  let d1 := dict_set "uso" (text_if_present (find debi "luso")) d in
  let d2 := match texto_de (find debi "sfc") with
            | Some t => dict_set "superficie_m2" (float_o_none t) d1
            | None => d1
            end in
  let d3 := match texto_de (find debi "cpt") with
            | Some t => dict_set "coef_participacion" (float_o_none t) d2
            | None => d2
            end in
  datos_economicos bi d
  = match texto_de (find debi "ant") with
    | Some t =>
        match Py.int t with
        | Some n => Ok (dict_set "antiguedad" (JInt n) d3)
        | None => Raise (ValueError t)
        end
    | None => Ok (dict_set "antiguedad" JNull d3)
    end.
Proof. intros H. unfold datos_economicos. rewrite H. reflexivity. Qed.

Lemma datos_economicos_get (bi debi : Element) (d d' : dict) :
  find bi ".//debi" = Some debi ->
  datos_economicos bi d = Ok d' ->
  dict_get "uso" d' = Some (text_if_present (find debi "luso"))
  /\ dict_get "superficie_m2" d'
     = match texto_de (find debi "sfc") with
       | Some t => Some (float_o_none t)
       | None => dict_get "superficie_m2" d
       end
  /\ dict_get "coef_participacion" d'
     = match texto_de (find debi "cpt") with
       | Some t => Some (float_o_none t)
       | None => dict_get "coef_participacion" d
       end
  /\ dict_get "antiguedad" d'
     = match texto_de (find debi "ant") with
       | Some t =>
           match Py.int t with
           | Some n => Some (JInt n)
           | None => None
           end
       | None => Some JNull
       end.
Proof.
  intros Hdebi. rewrite (datos_economicos_cases bi debi d Hdebi). cbv zeta.
  destruct (texto_de (find debi "sfc")), (texto_de (find debi "cpt")),
    (texto_de (find debi "ant")) as [t|];
    try destruct (Py.int t); intros [= <-];
    rewrite ?dict_get_set; cbn [String.eqb Ascii.eqb Bool.eqb];
    repeat split; reflexivity.
Qed.

Lemma antes_de_economicos (bi : Element) (k : string) :
  In k claves_economicos ->
  dict_get k
    (domicilio_no_estructurado bi
       (domicilio_tributario bi
          (tipo_de_bien bi (referencia_completa bi [])))) = None.
Proof.
  intros [<-|[<-|[<-|[<-|[]]]]]; enmarcar; reflexivity.
Qed.

Lemma completo_economicos (bi debi : Element) (inmueble : dict) :
  find bi ".//debi" = Some debi ->
  parse_inmueble_completo bi = Ok inmueble ->
  dict_get "uso" inmueble = Some (text_if_present (find debi "luso"))
  /\ dict_get "superficie_m2" inmueble
     = match texto_de (find debi "sfc") with
       | Some t => Some (float_o_none t)
       | None => None
       end
  /\ dict_get "coef_participacion" inmueble
     = match texto_de (find debi "cpt") with
       | Some t => Some (float_o_none t)
       | None => None
       end
  /\ dict_get "antiguedad" inmueble
     = match texto_de (find debi "ant") with
       | Some t =>
           match Py.int t with
           | Some n => Some (JInt n)
           | None => None
           end
       | None => Some JNull
       end.
Proof.
  intros Hdebi Hok. partir Hok d Hd. enmarcar.
  destruct (datos_economicos_get bi debi _ d Hdebi Hd) as (H1 & H2 & H3 & H4).
  rewrite !antes_de_economicos in * by (cbv; tauto).
  repeat split; assumption.
Qed.

Lemma completo_sin_debi (bi : Element) (inmueble : dict) (k : string) :
  find bi ".//debi" = None ->
  In k claves_economicos ->
  parse_inmueble_completo bi = Ok inmueble ->
  dict_get k inmueble = None.
Proof.
  intros Hdebi Hk Hok. partir Hok d Hd.
  rewrite datos_economicos_sin_debi in Hd by assumption.
  injection Hd as <-.
  destruct Hk as [<-|[<-|[<-|[<-|[]]]]]; enmarcar; reflexivity.
Qed.

Lemma completo_unidades (bi : Element) (inmueble : dict) :
  parse_inmueble_completo bi = Ok inmueble ->
  dict_get "unidades_constructivas" inmueble
  = match find bi ".//lcons" with
    | Some lcons =>
        if truthy (unidades_de lcons)
        then Some (JList (map JDict (unidades_de lcons)))
        else None
    | None => None
    end.
Proof.
  intros Hok. partir Hok d Hd. enmarcar.
  assert (Hd0 : dict_get "unidades_constructivas" d = None).
  { rewrite (datos_economicos_frame _ _ _ _ Hd) by no_en_lista.
    enmarcar. reflexivity. }
  unfold unidades_constructivas. cbv zeta.
  destruct (find bi ".//lcons") as [lcons|]; [|assumption].
  fold (unidades_de lcons). unfold dict.
  match goal with |- context [if ?b then _ else _] => destruct b end;
    [|assumption].
  apply dict_get_set_same.
Qed.

Lemma completo_subparcelas (bi : Element) (inmueble : dict) :
  parse_inmueble_completo bi = Ok inmueble ->
  dict_get "subparcelas" inmueble
  = match find bi ".//lspr" with
    | Some lspr =>
        if truthy (subparcelas_de lspr)
        then Some (JList (map JDict (subparcelas_de lspr)))
        else None
    | None => None
    end.
Proof.
  intros Hok. partir Hok d Hd.
  assert (Hd0 : dict_get "subparcelas" (unidades_constructivas bi d) = None).
  { enmarcar. rewrite (datos_economicos_frame _ _ _ _ Hd) by no_en_lista.
    enmarcar. reflexivity. }
  unfold subparcelas. cbv zeta.
  destruct (find bi ".//lspr") as [lspr|]; [|assumption].
  fold (subparcelas_de lspr). unfold dict.
  match goal with |- context [if ?b then _ else _] => destruct b end;
    [|assumption].
  apply dict_get_set_same.
Qed.

(** ** The cadastral reference *)

Lemma sufijo_texto_presente (x : option Element) :
  sufijo x = texto_presente x.
Proof.
  unfold sufijo, texto_de, texto_presente.
  destruct x as [e|]; [|reflexivity]. destruct (text e) as [[|c r]|]; reflexivity.
Qed.

Lemma text_or_empty_texto_presente (e : Element) :
  text_or_empty e = texto_presente (Some e).
Proof. reflexivity. Qed.

(** C6. The full-record extractor puts the reference together from the
    texts of [pc1], [pc2] and then of the optional [car], [cc1] and [cc2],
    in this order, a part that is missing or has no text giving nothing.
    With the five parts and their texts the reference is the five texts
    one after the other: "1234567", "89", "0001", "A", "B" give
    "1234567890001AB". With [pc1] = "1234567", [pc2] = "89" and none of the
    optional parts the reference is "123456789". When [pc1] or [pc2] is
    missing the reference is the empty text, whatever the other parts are.
    The listing extractor does the same with [pc1], [pc2] and [car]. *)
Theorem C6_reference_assembly (bi rc : Element) (inmueble : dict)
  (Hrc : find bi ".//rc" = Some rc)
  (Hok : parse_inmueble_completo bi = Ok inmueble) :
  (forall pc1 pc2,
      find rc "pc1" = Some pc1 -> find rc "pc2" = Some pc2 ->
      dict_get "referencia_catastral" inmueble
      = Some (JStr (texto_presente (Some pc1) ++ texto_presente (Some pc2)
                      ++ texto_presente (find rc "car")
                      ++ texto_presente (find rc "cc1")
                      ++ texto_presente (find rc "cc2"))))
  /\ (forall pc1 pc2 car cc1 cc2 t1 t2 t3 t4 t5,
         find rc "pc1" = Some pc1 -> find rc "pc2" = Some pc2 ->
         find rc "car" = Some car -> find rc "cc1" = Some cc1 ->
         find rc "cc2" = Some cc2 ->
         text pc1 = Some t1 -> text pc2 = Some t2 -> text car = Some t3 ->
         text cc1 = Some t4 -> text cc2 = Some t5 ->
         dict_get "referencia_catastral" inmueble
         = Some (JStr (t1 ++ t2 ++ t3 ++ t4 ++ t5)))
  /\ (forall pc1 pc2 car cc1 cc2,
         find rc "pc1" = Some pc1 -> find rc "pc2" = Some pc2 ->
         find rc "car" = Some car -> find rc "cc1" = Some cc1 ->
         find rc "cc2" = Some cc2 ->
         text pc1 = Some (u "1234567") -> text pc2 = Some (u "89") ->
         text car = Some (u "0001") -> text cc1 = Some (u "A") ->
         text cc2 = Some (u "B") ->
         dict_get "referencia_catastral" inmueble
         = Some (JStr (u "1234567890001AB")))
  /\ (forall pc1 pc2,
         find rc "pc1" = Some pc1 -> find rc "pc2" = Some pc2 ->
         text pc1 = Some (u "1234567") -> text pc2 = Some (u "89") ->
         find rc "car" = None -> find rc "cc1" = None -> find rc "cc2" = None ->
         dict_get "referencia_catastral" inmueble = Some (JStr (u "123456789")))
  /\ (find rc "pc1" = None \/ find rc "pc2" = None ->
      dict_get "referencia_catastral" inmueble = Some (JStr []))
  /\ (forall pc1 pc2,
         find rc "pc1" = Some pc1 -> find rc "pc2" = Some pc2 ->
         dict_get "referencia_catastral" (parse_inmueble_listado bi)
         = Some (JStr (texto_presente (Some pc1) ++ texto_presente (Some pc2)
                         ++ texto_presente (find rc "car"))))
  /\ (forall pc1 pc2 car t1 t2 t3,
         find rc "pc1" = Some pc1 -> find rc "pc2" = Some pc2 ->
         find rc "car" = Some car ->
         text pc1 = Some t1 -> text pc2 = Some t2 -> text car = Some t3 ->
         dict_get "referencia_catastral" (parse_inmueble_listado bi)
         = Some (JStr (t1 ++ t2 ++ t3)))
  /\ (find rc "pc1" = None \/ find rc "pc2" = None ->
      dict_get "referencia_catastral" (parse_inmueble_listado bi)
      = Some (JStr [])).
Proof.
  rewrite (completo_referencia bi inmueble Hok).
  unfold parse_inmueble_listado. cbv zeta. enmarcar.
  unfold referencia_completa, referencia_listado. rewrite Hrc. cbv zeta.
  rewrite !dict_get_set_same. rewrite !sufijo_texto_presente.
  assert (Hcinco : forall pc1 pc2 car cc1 cc2 t1 t2 t3 t4 t5,
             find rc "pc1" = Some pc1 -> find rc "pc2" = Some pc2 ->
             find rc "car" = Some car -> find rc "cc1" = Some cc1 ->
             find rc "cc2" = Some cc2 ->
             text pc1 = Some t1 -> text pc2 = Some t2 -> text car = Some t3 ->
             text cc1 = Some t4 -> text cc2 = Some t5 ->
             Some (JStr match find rc "pc1", find rc "pc2" with
                        | Some pc1, Some pc2 =>
                            (((text_or_empty pc1 ++ text_or_empty pc2)
                                ++ texto_presente (find rc "car"))
                               ++ texto_presente (find rc "cc1"))
                              ++ texto_presente (find rc "cc2")
                        | _, _ => []
                        end)
             = Some (JStr (t1 ++ t2 ++ t3 ++ t4 ++ t5))).
  { intros pc1 pc2 car cc1 cc2 t1 t2 t3 t4 t5 -> -> -> -> -> H1 H2 H3 H4 H5.
    unfold text_or_empty, texto_presente. rewrite H1, H2, H3, H4, H5.
    rewrite <- !app_assoc. reflexivity. }
  split; [|split; [|split; [|split; [|split; [|split; [|split]]]]]].
  - intros pc1 pc2 -> ->. rewrite !text_or_empty_texto_presente.
    rewrite <- !app_assoc. reflexivity.
  - exact Hcinco.
  - intros pc1 pc2 car cc1 cc2 E1 E2 E3 E4 E5 H1 H2 H3 H4 H5.
    exact (Hcinco _ _ _ _ _ _ _ _ _ _ E1 E2 E3 E4 E5 H1 H2 H3 H4 H5).
  - intros pc1 pc2 -> -> H1 H2 -> -> ->.
    unfold text_or_empty. rewrite H1, H2. reflexivity.
  - intros [->| ->]; [reflexivity|]. destruct (find rc "pc1"); reflexivity.
  - intros pc1 pc2 -> ->. rewrite !text_or_empty_texto_presente.
    rewrite <- !app_assoc. reflexivity.
  - intros pc1 pc2 car t1 t2 t3 -> -> -> H1 H2 H3.
    unfold text_or_empty, texto_presente. rewrite H1, H2, H3.
    rewrite <- !app_assoc. reflexivity.
  - intros [->| ->]; [reflexivity|]. destruct (find rc "pc1"); reflexivity.
Qed.

(** The record of the sample document has the reference of the
    specification's example, and the record with the five parts has the
    five texts one after the other. *)
Lemma C6_reference_assembly_witness :
  find Ejemplo.bi_completo ".//rc"
  = Some (Ejemplo.nodo "rc" [Ejemplo.hoja "pc1" "1234567"; Ejemplo.hoja "pc2" "89"])
  /\ parse_inmueble_completo Ejemplo.bi_completo = Ok Ejemplo.inmueble_completo
  /\ dict_get "referencia_catastral" Ejemplo.inmueble_completo
     = Some (JStr (u "123456789"))
  /\ parse_inmueble_completo Ejemplo.bi_cinco_partes
     = Ok Ejemplo.inmueble_cinco_partes
  /\ dict_get "referencia_catastral" Ejemplo.inmueble_cinco_partes
     = Some (JStr (u "1234567890001AB")).
Proof.
  split; [reflexivity|]. split; [reflexivity|].
  split; [|split; [reflexivity|]].
  - refine (proj1 (proj2 (proj2 (proj2
              (C6_reference_assembly Ejemplo.bi_completo _
                 Ejemplo.inmueble_completo eq_refl eq_refl))))
              (Ejemplo.hoja "pc1" "1234567") (Ejemplo.hoja "pc2" "89")
              eq_refl eq_refl eq_refl eq_refl eq_refl eq_refl eq_refl).
  - refine (proj1 (proj2 (proj2
              (C6_reference_assembly Ejemplo.bi_cinco_partes _
                 Ejemplo.inmueble_cinco_partes eq_refl eq_refl)))
              (Ejemplo.hoja "pc1" "1234567") (Ejemplo.hoja "pc2" "89")
              (Ejemplo.hoja "car" "0001") (Ejemplo.hoja "cc1" "A")
              (Ejemplo.hoja "cc2" "B")
              eq_refl eq_refl eq_refl eq_refl eq_refl
              eq_refl eq_refl eq_refl eq_refl eq_refl).
Defined.

(** ** Decimal fields *)

Lemma unidad_superficie (cons : Element) (t : str) :
  texto_de (find cons ".//stl") = Some t ->
  dict_get "superficie_m2" (unidad_constructiva cons) = Some (float_o_none t).
Proof.
  intros H. unfold unidad_constructiva. cbv zeta. rewrite H.
  destruct (find cons ".//lcd"), (find cons ".//dtip"), (find cons ".//loint");
    rewrite ?dict_get_set; reflexivity.
Qed.

Lemma subparcela_superficie (spr : Element) (t : str) :
  texto_de (find spr ".//ssp") = Some t ->
  dict_get "superficie_m2" (subparcela_de spr) = Some (float_o_none t).
Proof.
  intros H. unfold subparcela_de. cbv zeta. rewrite H.
  apply dict_get_set_same.
Qed.

(** C7. The conversion of a decimal field replaces the comma by a point
    and reads a binary64 value: "45,5" gives 45.5 (exactly 91/2); a text
    that is no number, such as "abc", gives [None], and no exception
    leaves the conversion. In the full record the fields [superficie_m2]
    and [coef_participacion] hold that result whenever their element has a
    text, as do the areas of the construction units and of the
    sub-parcels, and the only exception the extractor can raise comes from
    the integer field [ant]. *)
Theorem C7_decimal_normalization :
  float_o_none (u "45,5") = JFloat (S754_finite false 6403555720167424 (-47))
  /\ valor (S754_finite false 6403555720167424 (-47)) = Some (91 # 2)%Q
  /\ float_o_none (u "abc") = JNull
  /\ (forall bi debi,
         find bi ".//debi" = Some debi ->
         (forall inmueble,
             parse_inmueble_completo bi = Ok inmueble ->
             (forall t, texto_de (find debi "sfc") = Some t ->
                        dict_get "superficie_m2" inmueble = Some (float_o_none t))
             /\ (forall t, texto_de (find debi "cpt") = Some t ->
                           dict_get "coef_participacion" inmueble
                           = Some (float_o_none t)))
         /\ (forall e,
                parse_inmueble_completo bi = Raise e ->
                exists t, texto_de (find debi "ant") = Some t
                          /\ Py.int t = None /\ e = ValueError t))
  /\ (forall bi, find bi ".//debi" = None ->
                 exists inmueble, parse_inmueble_completo bi = Ok inmueble)
  /\ (forall cons t,
         texto_de (find cons ".//stl") = Some t ->
         dict_get "superficie_m2" (unidad_constructiva cons)
         = Some (float_o_none t))
  /\ (forall spr t,
         texto_de (find spr ".//ssp") = Some t ->
         dict_get "superficie_m2" (subparcela_de spr) = Some (float_o_none t)).
Proof.
  split; [vm_compute; reflexivity|].
  split; [vm_compute; reflexivity|].
  split; [vm_compute; reflexivity|].
  split; [|split; [|split]].
  - intros bi debi Hdebi. split.
    + intros inmueble Hok.
      destruct (completo_economicos bi debi inmueble Hdebi Hok)
        as (_ & Hs & Hc & _).
      split; intros t Ht; [rewrite Hs|rewrite Hc]; rewrite Ht; reflexivity.
    + intros e. unfold parse_inmueble_completo. cbv zeta.
      rewrite (datos_economicos_cases bi debi _ Hdebi). cbv zeta.
      destruct (texto_de (find debi "ant")) as [t|]; [|discriminate].
      destruct (Py.int t) eqn:Et; [discriminate|].
      intros [= <-]. exists t. repeat split; assumption.
  - intros bi Hdebi. unfold parse_inmueble_completo. cbv zeta.
    rewrite datos_economicos_sin_debi by assumption. eexists. reflexivity.
  - exact unidad_superficie.
  - exact subparcela_superficie.
Qed.

(** ** The fields of a full record *)

Ltac fuera H := let Hc := fresh in intros Hc; apply H; cbv in Hc |- *; tauto.

Lemma completo_otras_claves (bi : Element) (inmueble : dict) (k : string) :
  parse_inmueble_completo bi = Ok inmueble ->
  ~ In k todas_las_claves -> dict_get k inmueble = None.
Proof.
  intros Hok H. partir Hok d Hd.
  rewrite subparcelas_frame by fuera H.
  rewrite unidades_constructivas_frame by fuera H.
  rewrite (datos_economicos_frame _ _ _ _ Hd) by fuera H.
  rewrite domicilio_no_estructurado_frame by fuera H.
  rewrite domicilio_tributario_frame by fuera H.
  rewrite tipo_de_bien_frame by fuera H.
  rewrite referencia_completa_frame by fuera H.
  reflexivity.
Qed.

(** With an address block that has a street name and nothing else, the
    extractor writes the province and the municipality with the value
    [None], although neither is an optional field of the data model. *)
Lemma C9_null_fields_counterexample :
  parse_inmueble_completo Ejemplo.bi_solo_via
  = Ok [("direccion", JStr (u "MAYOR")); ("provincia", JNull);
        ("municipio", JNull)]
  /\ find Ejemplo.bi_solo_via ".//np" = None
  /\ ~ In "provincia" campos_opcionales
  /\ ~ (forall bi inmueble k,
           parse_inmueble_completo bi = Ok inmueble ->
           dict_get k inmueble = Some JNull -> In k campos_opcionales).
Proof.
  split; [reflexivity|]. split; [reflexivity|].
  assert (Hno : ~ In "provincia" campos_opcionales) by no_en_lista.
  split; [exact Hno|].
  intros H. apply Hno.
  exact (H Ejemplo.bi_solo_via _ "provincia" eq_refl eq_refl).
Qed.

Lemma completo_referencia_valor (bi : Element) (inmueble : dict) :
  parse_inmueble_completo bi = Ok inmueble ->
  match find bi ".//rc" with
  | Some _ => exists s, dict_get "referencia_catastral" inmueble = Some (JStr s)
  | None => dict_get "referencia_catastral" inmueble = None
  end.
Proof.
  intros Hok. rewrite (completo_referencia bi inmueble Hok).
  unfold referencia_completa. cbv zeta.
  destruct (find bi ".//rc"); [|reflexivity].
  eexists. apply dict_get_set_same.
Qed.

Lemma completo_domicilio_valor (bi : Element) (inmueble : dict) :
  parse_inmueble_completo bi = Ok inmueble ->
  match find bi ".//dt" with
  | Some dt =>
      dict_get "direccion" inmueble = Some (direccion_de dt)
      /\ dict_get "provincia" inmueble = Some (text_if_present (find dt ".//np"))
      /\ dict_get "municipio" inmueble = Some (text_if_present (find dt ".//nm"))
      /\ dict_get "localizacion_interna" inmueble
         = (if tiene_localizacion dt
            then Some (localizacion (find dt ".//bq") (find dt ".//es")
                         (find dt ".//pt") (find dt ".//pu"))
            else None)
  | None => forall k, In k claves_domicilio -> dict_get k inmueble = None
  end.
Proof.
  intros Hok.
  assert (H : forall k, In k claves_domicilio ->
                        dict_get k inmueble = dict_get k (domicilio_tributario bi [])).
  { intros k Hk. apply completo_domicilio; assumption. }
  destruct (find bi ".//dt") as [dt|] eqn:Edt.
  - rewrite !H by (cbv; tauto).
    rewrite !domicilio_tributario_get by (cbv; tauto). rewrite Edt.
    cbn [String.eqb Ascii.eqb Bool.eqb].
    destruct (tiene_localizacion dt); repeat split; reflexivity.
  - intros k Hk. rewrite (H k Hk), domicilio_tributario_get by assumption.
    rewrite Edt. reflexivity.
Qed.

(** C9, as the extractor has it. Every populated field of a full record is
    kept under its key with its value, and the key of an absent block is
    left out. Within a block that is present, however, some keys are always
    written: [direccion], [provincia] and [municipio] of the address block
    and [uso] and [antiguedad] of the economic block carry [None] when
    their element is missing. No key outside [tipo], [direccion],
    [provincia], [municipio], [uso], [superficie_m2], [coef_participacion]
    and [antiguedad] ever carries [None]. *)
Theorem C9_record_fields (bi : Element) (inmueble : dict)
  (Hok : parse_inmueble_completo bi = Ok inmueble) :
  match find bi ".//rc" with
  | Some _ => exists s, dict_get "referencia_catastral" inmueble = Some (JStr s)
  | None => dict_get "referencia_catastral" inmueble = None
  end
  /\ dict_get "tipo" inmueble
     = match find bi ".//cn" with
       | Some cn => Some (json_of_text (text cn))
       | None => None
       end
  /\ match find bi ".//dt" with
     | Some dt =>
         dict_get "direccion" inmueble = Some (direccion_de dt)
         /\ dict_get "provincia" inmueble
            = Some (text_if_present (find dt ".//np"))
         /\ dict_get "municipio" inmueble
            = Some (text_if_present (find dt ".//nm"))
         /\ dict_get "localizacion_interna" inmueble
            = (if tiene_localizacion dt
               then Some (localizacion (find dt ".//bq") (find dt ".//es")
                            (find dt ".//pt") (find dt ".//pu"))
               else None)
     | None => forall k, In k claves_domicilio -> dict_get k inmueble = None
     end
  /\ dict_get "domicilio_completo" inmueble
     = match texto_de (find bi ".//ldt") with
       | Some t => Some (JStr t)
       | None => None
       end
  /\ match find bi ".//debi" with
     | Some debi =>
         dict_get "uso" inmueble = Some (text_if_present (find debi "luso"))
         /\ dict_get "superficie_m2" inmueble
            = match texto_de (find debi "sfc") with
              | Some t => Some (float_o_none t)
              | None => None
              end
         /\ dict_get "coef_participacion" inmueble
            = match texto_de (find debi "cpt") with
              | Some t => Some (float_o_none t)
              | None => None
              end
         /\ dict_get "antiguedad" inmueble
            = match texto_de (find debi "ant") with
              | Some t =>
                  match Py.int t with
                  | Some n => Some (JInt n)
                  | None => None
                  end
              | None => Some JNull
              end
     | None => forall k, In k claves_economicos -> dict_get k inmueble = None
     end
  /\ dict_get "unidades_constructivas" inmueble
     = match find bi ".//lcons" with
       | Some lcons =>
           if truthy (unidades_de lcons)
           then Some (JList (map JDict (unidades_de lcons)))
           else None
       | None => None
       end
  /\ dict_get "subparcelas" inmueble
     = match find bi ".//lspr" with
       | Some lspr =>
           if truthy (subparcelas_de lspr)
           then Some (JList (map JDict (subparcelas_de lspr)))
           else None
       | None => None
       end
  /\ (forall k, dict_get k inmueble = Some JNull -> In k campos_anulables).
Proof.
  pose proof (completo_referencia_valor bi inmueble Hok) as Hrc.
  pose proof (completo_tipo bi inmueble Hok) as Hcn.
  pose proof (completo_domicilio_valor bi inmueble Hok) as Hdt.
  pose proof (completo_no_estructurado bi inmueble Hok) as Hldt.
  pose proof (completo_unidades bi inmueble Hok) as Hlcons.
  pose proof (completo_subparcelas bi inmueble Hok) as Hlspr.
  assert (Hdebi :
    match find bi ".//debi" with
    | Some debi =>
        dict_get "uso" inmueble = Some (text_if_present (find debi "luso"))
        /\ dict_get "superficie_m2" inmueble
           = match texto_de (find debi "sfc") with
             | Some t => Some (float_o_none t)
             | None => None
             end
        /\ dict_get "coef_participacion" inmueble
           = match texto_de (find debi "cpt") with
             | Some t => Some (float_o_none t)
             | None => None
             end
        /\ dict_get "antiguedad" inmueble
           = match texto_de (find debi "ant") with
             | Some t =>
                 match Py.int t with
                 | Some n => Some (JInt n)
                 | None => None
                 end
             | None => Some JNull
             end
    | None => forall k, In k claves_economicos -> dict_get k inmueble = None
    end).
  { destruct (find bi ".//debi") as [debi|] eqn:E.
    - exact (completo_economicos bi debi inmueble E Hok).
    - intros k Hk. apply (completo_sin_debi bi inmueble k E Hk Hok). }
  repeat (split; [assumption|]).
  intros k Hk.
  destruct (in_dec string_dec k todas_las_claves) as [Hin|Hout];
    [|rewrite (completo_otras_claves bi inmueble k Hok Hout) in Hk; discriminate].
  cbv in Hin.
  repeat match type of Hin with
         | _ \/ _ => destruct Hin as [<-|Hin]
         | False => destruct Hin
         end;
    try (cbv; tauto); exfalso.
  - destruct (find bi ".//rc"); [destruct Hrc as [s Hs]|]; congruence.
  - destruct (find bi ".//dt") as [dt|].
    + destruct Hdt as (_ & _ & _ & Hl). rewrite Hl in Hk.
      destruct (tiene_localizacion dt); discriminate.
    + rewrite Hdt in Hk by (cbv; tauto). discriminate.
  - rewrite Hldt in Hk. destruct (texto_de (find bi ".//ldt")); discriminate.
  - rewrite Hlcons in Hk. destruct (find bi ".//lcons"); [|discriminate].
    match type of Hk with context [if ?b then _ else _] => destruct b end;
      discriminate.
  - rewrite Hlspr in Hk. destruct (find bi ".//lspr"); [|discriminate].
    match type of Hk with context [if ?b then _ else _] => destruct b end;
      discriminate.
Qed.

Lemma C9_record_fields_witness :
  parse_inmueble_completo Ejemplo.bi_completo = Ok Ejemplo.inmueble_completo
  /\ dict_get "tipo" Ejemplo.inmueble_completo = Some (JStr (u "UR"))
  /\ forall k, dict_get k Ejemplo.inmueble_completo = Some JNull ->
               In k campos_anulables.
Proof.
  split; [reflexivity|].
  pose proof (C9_record_fields Ejemplo.bi_completo Ejemplo.inmueble_completo
                eq_refl) as H.
  split; [exact (proj1 (proj2 H))|].
  exact (proj2 (proj2 (proj2 (proj2 (proj2 (proj2 (proj2 H))))))).
Defined.

(** ** The smart search: the number argument *)

Section Busqueda.
Context {Mundo : Type}.
Variable http_get : Peticion -> Mundo -> resultado Element * Mundo.
Variable mensaje_interprete : excepcion -> str.

(** C3, as the code has it. When the number argument does not read as an
    integer, the smart search returns its validation error at once: the
    state is the one it started from, so no request has been sent. A
    negative integer is accepted. *)
Theorem C3_invalid_number_no_request
  (provincia municipio nombre_via numero : str)
  (tipo_via escalera planta puerta : option str) (st : Estado Mundo)
  (Hint : Py.int numero = None) :
  buscar_inmueble_inteligente http_get mensaje_interprete
    provincia municipio nombre_via numero tipo_via escalera planta puerta st
  = (JDict [("error", JBool true);
            ("mensaje",
             JStr (u "El número '" ++ numero
                     ++ u "' no es válido. Debe ser un número entero."))],
     st).
Proof.
  unfold buscar_inmueble_inteligente. rewrite Hint. reflexivity.
Qed.

End Busqueda.

Lemma C3_invalid_number_no_request_witness :
  Py.int (u "abc") = None
  /\ enviadas
       (snd (buscar_inmueble_inteligente Ejemplo.servicio Ejemplo.sin_mensaje
               (u "MADRID") (u "MADRID") (u "MAYOR") (u "abc")
               (Some (u "CL")) None None None Ejemplo.inicio)) = [].
Proof.
  split; [reflexivity|].
  rewrite (C3_invalid_number_no_request Ejemplo.servicio Ejemplo.sin_mensaje
             (u "MADRID") (u "MADRID") (u "MAYOR") (u "abc")
             (Some (u "CL")) None None None Ejemplo.inicio eq_refl).
  reflexivity.
Defined.

(** The text "-5" does not read as a non-negative integer, yet the smart
    search accepts it and sends its requests: three of them with the
    sample service. *)
Lemma C3_negative_number_counterexample :
  entero_no_negativo (u "-5") = false
  /\ List.length
       (enviadas
          (snd (buscar_inmueble_inteligente Ejemplo.servicio
                  Ejemplo.sin_mensaje (u "MADRID") (u "MADRID") (u "MAYOR")
                  (u "-5") (Some (u "CL")) None None None Ejemplo.inicio)))
     = 3%nat
  /\ ~ (forall (Mundo : Type) http_get mensaje_interprete
               provincia municipio nombre_via numero
               tipo_via escalera planta puerta (st : Estado Mundo),
           entero_no_negativo numero = false ->
           enviadas
             (snd (buscar_inmueble_inteligente http_get
                     mensaje_interprete provincia municipio nombre_via numero
                     tipo_via escalera planta puerta st))
           = enviadas st).
Proof.
  split; [reflexivity|]. split; [vm_compute; reflexivity|].
  intros H.
  specialize (H unit Ejemplo.servicio Ejemplo.sin_mensaje
                (u "MADRID") (u "MADRID") (u "MAYOR") (u "-5")
                (Some (u "CL")) None None None Ejemplo.inicio eq_refl).
  apply (f_equal (@List.length Peticion)) in H.
  vm_compute in H. discriminate.
Qed.

(** ** The query router *)

Section Consulta.
Context {Mundo : Type}.
Variable http_get : Peticion -> Mundo -> resultado Element * Mundo.
Variable mensaje_interprete : excepcion -> str.

(** Once the request is prepared, exactly that request is sent. *)
Lemma consulta_envia_una
  (provincia municipio tipo_via nombre_via numero bloque escalera planta
     puerta codigo_provincia codigo_municipio codigo_via
     referencia_catastral : option str) (st : Estado Mundo) (pet : Peticion) :
  preparar_consulta provincia municipio tipo_via nombre_via numero bloque
    escalera planta puerta codigo_provincia codigo_municipio codigo_via
    referencia_catastral = inr pet ->
  enviadas
    (snd (consulta_datos_catastro http_get mensaje_interprete
            provincia municipio tipo_via nombre_via numero bloque escalera
            planta puerta codigo_provincia codigo_municipio codigo_via
            referencia_catastral st))
  = enviadas st ++ [pet].
Proof.
  intros Hp. unfold consulta_datos_catastro. rewrite Hp.
  unfold intentar, bind, consultar, lift, ret.
  destruct pet as [url0 params0]. cbn [url params].
  destruct (http_get _ (mundo st)) as [[root|e] w]; [|reflexivity].
  destruct (parse_xml_error root) as [error_info|].
  - destruct (buscar_candidatos root error_info); reflexivity.
  - destruct (respuesta_consulta root); reflexivity.
Qed.

(** C4. The router takes one path per call. A cadastral reference, when
    given, decides for the reference lookup; otherwise a province code
    decides for the lookup by codes; otherwise the lookup by names is
    taken, which needs a province and a municipality: without one of
    them the call returns a validation error and its state is unchanged,
    no request having been sent. On each of the three paths exactly one
    request is sent, to the endpoint of the path. *)
Theorem C4_router_priority
  (provincia municipio tipo_via nombre_via numero bloque escalera planta
     puerta codigo_provincia codigo_municipio codigo_via
     referencia_catastral : option str) (st : Estado Mundo) :
  let r :=
    consulta_datos_catastro http_get mensaje_interprete
      provincia municipio tipo_via nombre_via numero bloque escalera
      planta puerta codigo_provincia codigo_municipio codigo_via
      referencia_catastral st in
  (dado referencia_catastral = true ->
   exists pet,
     enviadas (snd r) = enviadas st ++ [pet]
     /\ url pet = URL_DNPRC
     /\ dict_get "RefCat" (params pet) = Some referencia_catastral)
  /\ (dado referencia_catastral = false ->
      dado codigo_provincia = true ->
      exists pet,
        enviadas (snd r) = enviadas st ++ [pet]
        /\ url pet = URL_DNPLOC_Codigos
        /\ dict_get "CodigoProvincia" (params pet) = Some codigo_provincia
        /\ dict_get "RefCat" (params pet) = None)
  /\ (dado referencia_catastral = false ->
      dado codigo_provincia = false ->
      dado provincia = true -> dado municipio = true ->
      exists pet,
        enviadas (snd r) = enviadas st ++ [pet]
        /\ url pet = URL_DNPLOC
        /\ dict_get "Provincia" (params pet) = Some provincia
        /\ dict_get "Municipio" (params pet) = Some municipio
        /\ dict_get "RefCat" (params pet) = None
        /\ dict_get "CodigoProvincia" (params pet) = None)
  /\ (dado referencia_catastral = false ->
      dado codigo_provincia = false ->
      dado provincia = false \/ dado municipio = false ->
      r = (error_de_validacion, st)).
Proof.
  cbv zeta.
  assert (Hsi : forall k k' x (p : Params),
             k <> k' -> dict_get k (si_dado k' x p) = dict_get k p).
  { intros k k' x p Hne. unfold si_dado.
    destruct (dado x); [apply dict_get_set_other; assumption|reflexivity]. }
  split; [|split; [|split]].
  - intros Href. eexists. split; [|split].
    + apply consulta_envia_una. unfold preparar_consulta. rewrite Href.
      reflexivity.
    + reflexivity.
    + cbn [params]. rewrite !Hsi by discriminate. reflexivity.
  - intros Href Hcod. eexists. split; [|split; [|split]].
    + apply consulta_envia_una. unfold preparar_consulta.
      rewrite Href, Hcod. reflexivity.
    + reflexivity.
    + cbn [params]. rewrite !Hsi by discriminate. reflexivity.
    + cbn [params]. rewrite !Hsi by discriminate. reflexivity.
  - intros Href Hcod Hprov Hmun. eexists.
    split; [|split; [|split; [|split; [|split]]]].
    + apply consulta_envia_una. unfold preparar_consulta.
      rewrite Href, Hcod, Hprov, Hmun. reflexivity.
    + reflexivity.
    + cbn [params]. rewrite !Hsi by discriminate. reflexivity.
    + cbn [params]. rewrite !Hsi by discriminate. reflexivity.
    + cbn [params]. rewrite !Hsi by discriminate. reflexivity.
    + cbn [params]. rewrite !Hsi by discriminate. reflexivity.
  - intros Href Hcod Hfalta. unfold consulta_datos_catastro, preparar_consulta.
    rewrite Href, Hcod.
    destruct Hfalta as [-> | ->]; [reflexivity|].
    rewrite orb_true_r. reflexivity.
Qed.

End Consulta.

(** The four cases of the router with a service that always answers with
    the sample record: the endpoints of the requests sent. *)
Example rutas_de_consulta :
  map url
    (enviadas
       (snd (consulta_datos_catastro (Ejemplo.servicio_fijo Ejemplo.doc_inmueble)
               Ejemplo.sin_mensaje (Some (u "MADRID")) (Some (u "MADRID"))
               None None None None None None None (Some (u "28")) None None
               (Some (u "1234567VK4713S0001AB")) Ejemplo.inicio)))
  = [URL_DNPRC]
  /\ map url
       (enviadas
          (snd (consulta_datos_catastro (Ejemplo.servicio_fijo Ejemplo.doc_inmueble)
                  Ejemplo.sin_mensaje (Some (u "MADRID")) (Some (u "MADRID"))
                  None None None None None None None (Some (u "28")) None None
                  None Ejemplo.inicio)))
     = [URL_DNPLOC_Codigos]
  /\ map url
       (enviadas
          (snd (consulta_datos_catastro (Ejemplo.servicio_fijo Ejemplo.doc_inmueble)
                  Ejemplo.sin_mensaje (Some (u "MADRID")) (Some (u "MADRID"))
                  None None None None None None None None None None
                  None Ejemplo.inicio)))
     = [URL_DNPLOC]
  /\ consulta_datos_catastro (Ejemplo.servicio_fijo Ejemplo.doc_inmueble)
       Ejemplo.sin_mensaje (Some (u "MADRID")) (Some [])
       None None None None None None None None None None
       None Ejemplo.inicio
     = (error_de_validacion, Ejemplo.inicio).
Proof. repeat split; vm_compute; reflexivity. Qed.

(** ** The nearest-number fallback of the smart search *)

Lemma respuesta_exacta_no_cercano (n : Z) (root : Element) (j : json) :
  respuesta_exacta n root = Some (Ok j) -> ~ es_cercano j.
Proof.
  unfold respuesta_exacta, es_cercano.
  destruct (match find root ".//bico" with
            | Some bico => find bico ".//bi"
            | None => None
            end) as [bi|].
  - destruct (parse_inmueble_completo bi); [|discriminate].
    intros [= <-] H. vm_compute in H. discriminate.
  - destruct (find root ".//lrcdnp"); [|discriminate].
    intros [= <-] H. vm_compute in H. discriminate.
Qed.

Lemma respuesta_cercana_campos (nb : Z) (nc : Candidato)
  (nd : list Candidato) (root : Element) (j : json) :
  respuesta_cercana nb nc nd root = Some (Ok j) ->
  campo "numero_buscado" j = Some (JInt nb)
  /\ campo "numero_encontrado" j = Some (JInt (numero nc))
  /\ campo "diferencia" j = Some (JInt (Z.abs (nb - numero nc)))
  /\ campo "otros_numeros_disponibles" j
     = Some (JList (map (fun n => JInt (numero n)) (firstn 5 nd))).
Proof.
  unfold respuesta_cercana.
  destruct (match find root ".//bico" with
            | Some bico => find bico ".//bi"
            | None => None
            end) as [bi|].
  - destruct (parse_inmueble_completo bi); [|discriminate].
    intros [= <-]. repeat split.
  - destruct (find root ".//lrcdnp"); [|discriminate].
    intros [= <-]. repeat split.
Qed.

Lemma parse_xml_error_claves (root : Element) (error_info : dict) :
  parse_xml_error root = Some error_info ->
  keys error_info = ["error"; "codigo"; "descripcion"].
Proof.
  unfold parse_xml_error.
  destruct (find root ".//lerr/err"); [|discriminate].
  intros [= <-]. reflexivity.
Qed.

Lemma dict_get_fuera {V : Type} (k : string) (d : list (string * V)) :
  ~ In k (map fst d) -> dict_get k d = None.
Proof.
  induction d as [|[k' v] r IH]; simpl; [reflexivity|].
  intros H. destruct (String.eqb_spec k k') as [->|_].
  - exfalso. apply H. left. reflexivity.
  - apply IH. intros Hin. apply H. right. assumption.
Qed.

Lemma error_info_no_cercano (root : Element) (error_info : dict) :
  parse_xml_error root = Some error_info -> ~ es_cercano (JDict error_info).
Proof.
  intros H. apply parse_xml_error_claves in H. unfold es_cercano, campo.
  rewrite dict_get_fuera; [discriminate|].
  unfold keys in H. rewrite H. no_en_lista.
Qed.

Section Fallback.
Context {Mundo : Type}.
Variable http_get : Peticion -> Mundo -> resultado Element * Mundo.
Variable mensaje_interprete : excepcion -> str.

(** C5, as the code has it. A result of the smart search that reports a
    nearest match comes from three requests: the lookup, the enumeration
    and the lookup of the number selected. It reports the number asked
    for, the number selected, which is the head of the candidates sorted
    by distance, the absolute difference of the two, and the numbers of
    the first five candidates of that sorted list, nearest first. The
    list was sorted in place: the selected number itself comes first and
    the order of the enumeration survives only among equal distances. *)
Theorem C5_fallback_result
  (provincia municipio nombre_via numero_texto : str)
  (tipo_via escalera planta puerta : option str)
  (st st' : Estado Mundo) (j : json)
  (Hrun : buscar_inmueble_inteligente http_get mensaje_interprete
            provincia municipio nombre_via numero_texto tipo_via escalera
            planta puerta st = (j, st'))
  (Hcercano : es_cercano j) :
  exists numero_buscado p1 p2 p3 consulta_root numero_cercano resto,
    Py.int numero_texto = Some numero_buscado
    /\ enviadas st' = enviadas st ++ [p1; p2; p3]
    /\ url p1 = URL_DNPLOC /\ url p2 = URL_ConsultaNumero
    /\ url p3 = URL_DNPLOC
    /\ fst (http_get p2 (snd (http_get p1 (mundo st)))) = Ok consulta_root
    /\ ordenar_por_diferencia numero_buscado (extraer_numeros consulta_root)
       = numero_cercano :: resto
    /\ dict_get "Numero" (params p3)
       = Some (Some (str_of_int (numero numero_cercano)))
    /\ campo "numero_buscado" j = Some (JInt numero_buscado)
    /\ campo "numero_encontrado" j = Some (JInt (numero numero_cercano))
    /\ campo "diferencia" j
       = Some (JInt (Z.abs (numero_buscado - numero numero_cercano)))
    /\ campo "otros_numeros_disponibles" j
       = Some (JList (map (fun n => JInt (numero n))
                        (firstn 5 (numero_cercano :: resto)))).
Proof.
  revert Hrun. unfold buscar_inmueble_inteligente.
  destruct (Py.int numero_texto) as [numero_buscado|];
    [|intros [= <- _]; vm_compute in Hcercano; discriminate].
  unfold intentar, busqueda, bind, consultar, lift, ret. cbv zeta.
  cbn [mundo enviadas].
  match goal with
  | |- context [http_get ?p (mundo st)] => set (p1 := p)
  end.
  destruct (http_get p1 (mundo st)) as [[root|e] w1] eqn:E1;
    [|intros [= <- _]; vm_compute in Hcercano; discriminate].
  destruct (parse_xml_error root) as [error_info|] eqn:Eerr.
  2:{ destruct (respuesta_exacta numero_buscado root) as [[j0|e]|] eqn:Eex.
      - intros [= <- _].
        destruct (respuesta_exacta_no_cercano _ _ _ Eex Hcercano).
      - intros [= <- _]. vm_compute in Hcercano. discriminate.
      - intros [= <- _]. vm_compute in Hcercano. discriminate. }
  destruct (upper_de _) as [descripcion_upper|e];
    [|intros [= <- _]; vm_compute in Hcercano; discriminate].
  destruct (numero_no_existe descripcion_upper).
  2:{ intros [= <- _].
      destruct (error_info_no_cercano _ _ Eerr Hcercano). }
  cbn [mundo enviadas].
  match goal with
  | |- context [http_get ?p w1] => set (p2 := p)
  end.
  destruct (http_get p2 w1) as [[consulta_root|e] w2] eqn:E2;
    [|intros [= <- _]; vm_compute in Hcercano; discriminate].
  destruct (truthy (extraer_numeros consulta_root)).
  2:{ intros [= <- _]. unfold es_cercano in Hcercano.
      cbn in Hcercano. discriminate. }
  destruct (ordenar_por_diferencia numero_buscado
              (extraer_numeros consulta_root))
    as [|numero_cercano resto] eqn:Eord;
    [intros [= <- _]; vm_compute in Hcercano; discriminate|].
  cbn [mundo enviadas].
  match goal with
  | |- context [http_get ?p w2] => set (p3 := p)
  end.
  destruct (http_get p3 w2) as [[root_cercano|e] w3] eqn:E3;
    [|intros [= <- _]; vm_compute in Hcercano; discriminate].
  destruct (respuesta_cercana numero_buscado numero_cercano
              (numero_cercano :: resto) root_cercano)
    as [[j0|e]|] eqn:Ecer.
  - intros [= <- <-].
    destruct (respuesta_cercana_campos _ _ _ _ _ Ecer) as (H1 & H2 & H3 & H4).
    exists numero_buscado, p1, p2, p3, consulta_root, numero_cercano, resto.
    split; [reflexivity|].
    split; [cbn [enviadas]; rewrite <- !app_assoc; reflexivity|].
    split; [reflexivity|]. split; [reflexivity|]. split; [reflexivity|].
    split; [rewrite E1; cbn [snd]; rewrite E2; reflexivity|].
    split; [exact Eord|].
    split.
    { subst p3. cbn [params]. unfold si_dado.
      destruct (dado tipo_via);
        rewrite ?dict_get_set; reflexivity. }
    repeat split; assumption.
  - intros [= <- _]. vm_compute in Hcercano. discriminate.
  - intros [= <- _]. unfold es_cercano in Hcercano.
    cbn in Hcercano. discriminate.
Qed.

End Fallback.

Lemma C5_fallback_result_witness :
  buscar_inmueble_inteligente Ejemplo.servicio Ejemplo.sin_mensaje
    (u "MADRID") (u "MADRID") (u "MAYOR") (u "10") (Some (u "CL"))
    None None None Ejemplo.inicio = Ejemplo.resultado_10
  /\ es_cercano (fst Ejemplo.resultado_10)
  /\ exists numero_buscado p1 p2 p3 consulta_root numero_cercano resto,
      Py.int (u "10") = Some numero_buscado
      /\ enviadas (snd Ejemplo.resultado_10)
         = enviadas Ejemplo.inicio ++ [p1; p2; p3]
      /\ url p1 = URL_DNPLOC /\ url p2 = URL_ConsultaNumero
      /\ url p3 = URL_DNPLOC
      /\ fst (Ejemplo.servicio p2
                (snd (Ejemplo.servicio p1 (mundo Ejemplo.inicio))))
         = Ok consulta_root
      /\ ordenar_por_diferencia numero_buscado (extraer_numeros consulta_root)
         = numero_cercano :: resto
      /\ dict_get "Numero" (params p3)
         = Some (Some (str_of_int (numero numero_cercano)))
      /\ campo "numero_buscado" (fst Ejemplo.resultado_10)
         = Some (JInt numero_buscado)
      /\ campo "numero_encontrado" (fst Ejemplo.resultado_10)
         = Some (JInt (numero numero_cercano))
      /\ campo "diferencia" (fst Ejemplo.resultado_10)
         = Some (JInt (Z.abs (numero_buscado - numero numero_cercano)))
      /\ campo "otros_numeros_disponibles" (fst Ejemplo.resultado_10)
         = Some (JList (map (fun n => JInt (numero n))
                          (firstn 5 (numero_cercano :: resto)))).
Proof.
  split; [vm_compute; reflexivity|]. split; [vm_compute; reflexivity|].
  apply (C5_fallback_result Ejemplo.servicio Ejemplo.sin_mensaje
           (u "MADRID") (u "MADRID") (u "MAYOR") (u "10") (Some (u "CL"))
           None None None Ejemplo.inicio (snd Ejemplo.resultado_10)
           (fst Ejemplo.resultado_10)).
  - vm_compute. reflexivity.
  - vm_compute. reflexivity.
Defined.

(** The sample street is enumerated as 1, 20, 9. For the request of number
    10 the result lists 9, 1, 20: the candidates as sorted by distance, the
    selected number 9 first. This is not the order of the enumeration. *)
Lemma C5_enumeration_order_counterexample :
  buscar_inmueble_inteligente Ejemplo.servicio Ejemplo.sin_mensaje
    (u "MADRID") (u "MADRID") (u "MAYOR") (u "10") (Some (u "CL"))
    None None None Ejemplo.inicio = Ejemplo.resultado_10
  /\ es_cercano (fst Ejemplo.resultado_10)
  /\ map numero (extraer_numeros Ejemplo.doc_numeros) = [1; 20; 9]
  /\ campo "numero_encontrado" (fst Ejemplo.resultado_10) = Some (JInt 9)
  /\ campo "otros_numeros_disponibles" (fst Ejemplo.resultado_10)
     = Some (JList [JInt 9; JInt 1; JInt 20])
  /\ subsecuencia [9; 1; 20] [1; 20; 9] = false.
Proof. repeat split; vm_compute; reflexivity. Qed.

Lemma C1_nearest_member_and_exact_witness :
  [3; 5; 9; 12] <> []
  /\ [{| numero := 3; referencia := [] |}; {| numero := 9; referencia := [] |}] <> []
  /\ (exists m,
         buscar_numero_cercano 9 [3; 5; 9; 12] = Some m
         /\ In m [3; 5; 9; 12]
         /\ (In 9 [3; 5; 9; 12] -> m = 9 /\ Z.abs (9 - m) = 0))
  /\ (exists c,
         hd_error (ordenar_por_diferencia 9
                     [{| numero := 3; referencia := [] |};
                      {| numero := 9; referencia := [] |}]) = Some c
         /\ In c [{| numero := 3; referencia := [] |};
                  {| numero := 9; referencia := [] |}]
         /\ (In 9 (map numero [{| numero := 3; referencia := [] |};
                               {| numero := 9; referencia := [] |}]) ->
             numero c = 9 /\ Z.abs (9 - numero c) = 0)).
Proof.
  split; [discriminate|]. split; [discriminate|].
  apply (C1_nearest_member_and_exact 9 [3; 5; 9; 12]
           [{| numero := 3; referencia := [] |};
            {| numero := 9; referencia := [] |}]); discriminate.
Defined.

Lemma C2_tie_break_first_in_enumeration_witness :
  [{| numero := 8; referencia := [] |}; {| numero := 12; referencia := [] |}] <> []
  /\ (exists antes numero_cercano despues,
         [{| numero := 8; referencia := [] |};
          {| numero := 12; referencia := [] |}]
         = antes ++ numero_cercano :: despues
         /\ hd_error (ordenar_por_diferencia 10
                        [{| numero := 8; referencia := [] |};
                         {| numero := 12; referencia := [] |}])
            = Some numero_cercano
         /\ (forall c, In c antes ->
                       Z.abs (numero numero_cercano - 10) < Z.abs (numero c - 10))
         /\ (forall c, In c despues ->
                       Z.abs (numero numero_cercano - 10) <= Z.abs (numero c - 10))).
Proof.
  split; [discriminate|].
  apply (C2_tie_break_first_in_enumeration 10
           [{| numero := 8; referencia := [] |};
            {| numero := 12; referencia := [] |}]).
  discriminate.
Defined.

(** ** The error classifier *)

Lemma upper_cp_sin_s_caron (c : codepoint) : ~ In 0x161%N (upper_cp c).
Proof.
  destruct (N.eq_dec c 0x161) as [->|Hne].
  - vm_compute. intuition discriminate.
  - unfold upper_cp.
    repeat match goal with
           | |- context [if ?b then _ else _] => destruct b eqn:?
           end;
      cbn [In]; intros H;
      repeat match goal with
             | H : _ \/ _ |- _ => destruct H
             | H : False |- _ => destruct H
             end;
      try discriminate; try congruence;
      repeat match goal with
             | H : (_ && _)%bool = true |- _ => apply andb_prop in H as [? ?]
             | H : (_ <=? _)%N = true |- _ => apply N.leb_le in H
             end;
      try lia.
    all: match goal with
         | H : (?x - 1)%N = _ |- _ => assert (x = 0x162%N) by lia; subst x
         end; discriminate.
Qed.

(** An upper-cased text has no small s with caron (U+0161). *)
Lemma upper_sin_s_caron (d : str) : ~ In 0x161%N (upper d).
Proof.
  unfold upper. intros H. apply in_flat_map in H as (c & _ & Hc).
  exact (upper_cp_sin_s_caron c Hc).
Qed.

Lemma startswith_In (p s : str) (c : codepoint) :
  startswith p s = true -> In c p -> In c s.
Proof.
  revert s. induction p as [|a p IH]; intros s H Hin; [destruct Hin|].
  destruct s as [|b s]; [discriminate|]. simpl in H.
  apply andb_prop in H as [Hab Hps]. apply N.eqb_eq in Hab. subst b.
  destruct Hin as [->|Hin]; [left; reflexivity|right; apply IH; assumption].
Qed.

Lemma str_in_In (needle hay : str) (c : codepoint) :
  str_in needle hay = true -> In c needle -> In c hay.
Proof.
  induction hay as [|b hay IH]; simpl; intros H Hin.
  - rewrite orb_false_r in H. exact (startswith_In needle [] c H Hin).
  - apply orb_prop in H as [H|H].
    + exact (startswith_In needle (b :: hay) c H Hin).
    + right. apply IH; assumption.
Qed.

(** C8, where the code departs from it. The classifier of
    [consulta_datos_catastro] looks for the phrases in the upper-cased
    description, so the match is blind to case, and the street phrase is
    matched in its second spelling too. The second spelling of the number
    phrase, "NÃšMERO NO EXISTE", has a small letter (U+0161), which no
    upper-cased text has: it matches no description at all. A service error
    with that very description gets neither candidates nor a suggestion,
    where the plain spelling gets them. The smart search tests the plain
    spelling and "NÚMERO NO EXISTE", not the mis-decoded one. *)
Theorem C8_second_number_spelling_never_matches :
  (forall d, str_in (u "NÃšMERO NO EXISTE") (upper d) = false)
  /\ fst (consulta_datos_catastro
            (Ejemplo.servicio_fijo
               (Ejemplo.doc_error_con_candidatos "NÃšMERO NO EXISTE"))
            Ejemplo.sin_mensaje (Some (u "MADRID")) (Some (u "MADRID"))
            (Some (u "CL")) (Some (u "MAYOR")) (Some (u "10"))
            None None None None None None None None Ejemplo.inicio)
     = JDict [("error", JBool true); ("codigo", JStr (u "43"));
              ("descripcion", JStr (u "NÃšMERO NO EXISTE"))]
  /\ fst (consulta_datos_catastro
            (Ejemplo.servicio_fijo
               (Ejemplo.doc_error_con_candidatos "el numero no existe"))
            Ejemplo.sin_mensaje (Some (u "MADRID")) (Some (u "MADRID"))
            (Some (u "CL")) (Some (u "MAYOR")) (Some (u "10"))
            None None None None None None None None Ejemplo.inicio)
     = JDict [("error", JBool true); ("codigo", JStr (u "43"));
              ("descripcion", JStr (u "el numero no existe"));
              ("candidatos_numeros", JList [JDict [("numero", JStr (u "7"))]])]
  /\ fst (consulta_datos_catastro
            (Ejemplo.servicio_fijo
               (Ejemplo.doc_error_con_candidatos "VÃA NO EXISTE"))
            Ejemplo.sin_mensaje (Some (u "MADRID")) (Some (u "MADRID"))
            (Some (u "CL")) (Some (u "MAYOR")) (Some (u "10"))
            None None None None None None None None Ejemplo.inicio)
     = JDict [("error", JBool true); ("codigo", JStr (u "43"));
              ("descripcion", JStr (u "VÃA NO EXISTE"));
              ("candidatos_vias",
               JList [JDict [("nombre", JStr (u "MAYOR"));
                             ("tipo", JStr (u "CL"))]])]
  /\ numero_no_existe (upper (u "NÃšMERO NO EXISTE")) = false
  /\ numero_no_existe (upper (u "El número no existe")) = true.
Proof.
  split.
  - intros d. destruct (str_in _ (upper d)) eqn:E; [|reflexivity].
    exfalso. apply (upper_sin_s_caron d).
    apply (str_in_In _ _ _ E). vm_compute. tauto.
  - repeat split; vm_compute; reflexivity.
Qed.

(** * Further properties of the code *)

(** ** [buscar_numero_cercano]: which number it returns *)

Lemma scan_primero (t : Z) (l : list Z) (d m : Z) :
  ascending (fun x => x) l ->
  (forall x, In x l -> m <= x) ->
  let r := fold_left (paso_cercano t) l (d, m) in
  fst r <= d
  /\ (fst r = d -> snd r = m)
  /\ (forall y, In y l -> Z.abs (t - y) = fst r -> snd r <= y).
Proof.
  revert d m. induction l as [|x l IH]; intros d m Hasc Hm; cbv zeta.
  - simpl. split; [lia|]. split; [reflexivity|]. intros y [].
  - destruct Hasc as [Hx Hasc]. cbn [fold_left].
    replace (paso_cercano t (d, m) x)
      with (if Z.abs (t - x) <? d then (Z.abs (t - x), x) else (d, m))
      by reflexivity.
    destruct (Z.abs (t - x) <? d) eqn:E.
    + apply Z.ltb_lt in E.
      destruct (IH (Z.abs (t - x)) x Hasc Hx) as (H1 & H2 & H3).
      split; [lia|]. split; [lia|].
      intros y [<-|Hy] Hty; [|auto].
      rewrite H2 by (symmetry; assumption). lia.
    + apply Z.ltb_ge in E.
      assert (Hm' : forall y, In y l -> m <= y).
      { intros y Hy. specialize (Hx y Hy). specialize (Hm x (or_introl eq_refl)).
        simpl in Hx. lia. }
      destruct (IH d m Hasc Hm') as (H1 & H2 & H3).
      split; [assumption|]. split; [assumption|].
      intros y [<-|Hy] Hty; [|auto].
      assert (Hd : fst (fold_left (paso_cercano t) l (d, m)) = d) by lia.
      rewrite (H2 Hd). apply Hm. left. reflexivity.
Qed.

Lemma buscar_numero_cercano_primero (t : Z) (l : list Z) (m : Z) :
  buscar_numero_cercano t l = Some m ->
  In m l
  /\ forall x, In x l ->
               Z.abs (t - m) <= Z.abs (t - x)
               /\ (Z.abs (t - x) = Z.abs (t - m) -> m <= x).
Proof.
  intros Hm.
  assert (Hne : l <> []) by (intros ->; discriminate).
  destruct (buscar_numero_cercano_spec t l Hne) as (m' & Hm' & Hin & Hmin).
  rewrite Hm in Hm'. injection Hm' as <-.
  split; [assumption|]. intros x Hx. split; [auto|].
  destruct (buscar_numero_cercano_unfold t l Hne) as (mejor & resto & Hs & Hb).
  rewrite Hm in Hb.
  remember (fold_left (paso_cercano t) (mejor :: resto)
              (Z.abs (t - mejor), mejor)) as r eqn:Er.
  assert (Hr : m = snd r) by congruence. clear Hb.
  assert (Hasc : ascending (fun x => x) (mejor :: resto)).
  { rewrite <- Hs. apply sort_by_ascending. }
  assert (Hmej : forall y, In y (mejor :: resto) -> mejor <= y).
  { intros y [<-|Hy]; [lia|]. destruct Hasc as [H _]. apply (H y Hy). }
  pose proof (scan_primero t (mejor :: resto) (Z.abs (t - mejor)) mejor
                Hasc Hmej) as H3.
  pose proof (scan_invariant t (mejor :: resto) (Z.abs (t - mejor)) mejor
                eq_refl) as H1.
  cbv zeta in H3, H1. rewrite <- Er in H3, H1.
  destruct H3 as (_ & _ & H3). destruct H1 as (H1 & _).
  intros Hxe. rewrite Hr. apply H3.
  - rewrite <- Hs. apply (sort_by_In (fun x => x)). assumption.
  - rewrite H1, <- Hr. assumption.
Qed.

(** X1. [buscar_numero_cercano] answers [None] exactly on the empty list.
    Otherwise its answer is the member of the list nearest to the target
    and, among the members at that distance, the least one; so the answer
    does not depend on the order of the list. *)
Theorem buscar_numero_cercano_caracterizacion (t : Z) (l : list Z) :
  (buscar_numero_cercano t l = None <-> l = [])
  /\ (forall m,
         buscar_numero_cercano t l = Some m <->
         In m l
         /\ forall x, In x l ->
                      Z.abs (t - m) <= Z.abs (t - x)
                      /\ (Z.abs (t - x) = Z.abs (t - m) -> m <= x))
  /\ (forall l', Permutation l l' ->
                 buscar_numero_cercano t l' = buscar_numero_cercano t l).
Proof.
  assert (Hiff : forall l m,
             buscar_numero_cercano t l = Some m <->
             In m l
             /\ forall x, In x l ->
                          Z.abs (t - m) <= Z.abs (t - x)
                          /\ (Z.abs (t - x) = Z.abs (t - m) -> m <= x)).
  { intros l0 m. split; [apply buscar_numero_cercano_primero|].
    intros [Hin Hmin].
    assert (Hne : l0 <> []) by (intros ->; destruct Hin).
    destruct (buscar_numero_cercano_spec t l0 Hne) as (m' & Hm' & _).
    rewrite Hm'. f_equal.
    destruct (buscar_numero_cercano_primero t l0 m' Hm') as [Hin' Hmin'].
    destruct (Hmin m' Hin') as [Ha Hb]. destruct (Hmin' m Hin) as [Hc Hd].
    assert (Z.abs (t - m) = Z.abs (t - m')) by lia.
    assert (m <= m') by (apply Hb; lia).
    assert (m' <= m) by (apply Hd; lia). lia. }
  assert (Hnone : forall l, buscar_numero_cercano t l = None <-> l = []).
  { intros l0. split; [|intros ->; reflexivity].
    intros H. destruct l0 as [|x l0]; [reflexivity|].
    destruct (buscar_numero_cercano_spec t (x :: l0)) as (m & Hm & _);
      [discriminate|congruence]. }
  split; [apply Hnone|]. split; [apply Hiff|].
  intros l' Hp.
  destruct (buscar_numero_cercano t l) as [m|] eqn:E.
  - apply Hiff. apply Hiff in E as [Hin Hmin]. split.
    + apply (Permutation_in _ Hp Hin).
    + intros x Hx. apply Hmin. apply (Permutation_in _ (Permutation_sym Hp) Hx).
  - apply Hnone. apply Hnone in E. subst l.
    apply Permutation_nil. assumption.
Qed.

(** X2. On the numbers of a list of candidates, [buscar_numero_cercano]
    and the selection of the smart search pick numbers at the same distance
    from the target; where several candidates tie, the former picks the
    least number, the latter the first of the enumeration. *)
Theorem seleccion_y_buscar_numero_cercano
  (t : Z) (candidatos : list Candidato) (c : Candidato) (m : Z)
  (Hc : hd_error (ordenar_por_diferencia t candidatos) = Some c)
  (Hm : buscar_numero_cercano t (map numero candidatos) = Some m) :
  Z.abs (numero c - t) = Z.abs (t - m) /\ m <= numero c.
Proof.
  apply (sort_by_head_min (fun x => Z.abs (numero x - t))) in Hc as [Hin Hmin].
  apply buscar_numero_cercano_primero in Hm as [Hmin' Hle].
  apply in_map_iff in Hmin' as (x & Hx & Hxin). specialize (Hmin x Hxin).
  destruct (Hle (numero c) (in_map numero _ _ Hin)) as [Ha Hb].
  assert (Z.abs (numero c - t) = Z.abs (t - m)) by lia.
  split; [assumption|]. apply Hb. lia.
Qed.

Lemma seleccion_y_buscar_numero_cercano_witness :
  hd_error (ordenar_por_diferencia 10
              [{| numero := 12; referencia := [] |};
               {| numero := 8; referencia := [] |}])
  = Some {| numero := 12; referencia := [] |}
  /\ buscar_numero_cercano 10 [12; 8] = Some 8
  /\ Z.abs (12 - 10) = Z.abs (10 - 8) /\ 8 <= 12.
Proof.
  split; [reflexivity|]. split; [reflexivity|].
  exact (seleccion_y_buscar_numero_cercano 10
           [{| numero := 12; referencia := [] |};
            {| numero := 8; referencia := [] |}]
           {| numero := 12; referencia := [] |} 8 eq_refl eq_refl).
Defined.

(** ** The candidates after the sort *)

Section SortPermutation.
Context {A : Type} (key : A -> Z).

Lemma insert_Permutation (x : A) (l : list A) :
  Permutation (insert key x l) (x :: l).
Proof.
  induction l as [|y l IH]; simpl; [apply Permutation_refl|].
  destruct (key x <=? key y); [apply Permutation_refl|].
  apply perm_trans with (y :: x :: l); [apply perm_skip, IH|apply perm_swap].
Qed.

Lemma sort_by_Permutation (l : list A) : Permutation (sort_by key l) l.
Proof.
  induction l as [|x l IH]; simpl; [apply perm_nil|].
  apply perm_trans with (x :: sort_by key l);
    [apply insert_Permutation|apply perm_skip, IH].
Qed.

Lemma ascending_app (l1 l2 : list A) :
  ascending key (l1 ++ l2) ->
  forall x y, In x l1 -> In y l2 -> key x <= key y.
Proof.
  induction l1 as [|a l1 IH]; simpl; intros H x y Hx Hy; [destruct Hx|].
  destruct H as [Ha H]. destruct Hx as [<-|Hx].
  - apply Ha. apply in_or_app. right. assumption.
  - apply (IH H x y Hx Hy).
Qed.

End SortPermutation.

(** X3. The sort of the fallback loses and adds no candidate, and the five
    numbers it reports afterwards are five nearest ones: every candidate
    that is not reported is at least as far from the requested number as
    every candidate that is. *)
Theorem otros_numeros_son_los_mas_cercanos
  (numero_buscado : Z) (candidatos : list Candidato) :
  Permutation (ordenar_por_diferencia numero_buscado candidatos) candidatos
  /\ (forall x y,
         In x (firstn 5 (ordenar_por_diferencia numero_buscado candidatos)) ->
         In y (skipn 5 (ordenar_por_diferencia numero_buscado candidatos)) ->
         Z.abs (numero x - numero_buscado) <= Z.abs (numero y - numero_buscado))
  /\ List.length (firstn 5 (ordenar_por_diferencia numero_buscado candidatos))
     = Nat.min 5 (List.length candidatos).
Proof.
  unfold ordenar_por_diferencia.
  set (key := fun x : Candidato => Z.abs (numero x - numero_buscado)).
  pose proof (sort_by_Permutation key candidatos) as Hp.
  split; [exact Hp|]. split.
  - intros x y Hx Hy.
    apply (ascending_app key (firstn 5 (sort_by key candidatos))
             (skipn 5 (sort_by key candidatos))); try assumption.
    rewrite firstn_skipn. apply sort_by_ascending.
  - rewrite length_firstn, (Permutation_length Hp). reflexivity.
Qed.

(** ** Integers and their decimal text *)

Lemma digit_value_cifra (k : Z) :
  0 <= k <= 9 -> digit_value (0x30 + Z.to_N k)%N = Some k.
Proof.
  intros H.
  assert (Hk : k = 0 \/ k = 1 \/ k = 2 \/ k = 3 \/ k = 4 \/ k = 5 \/ k = 6
               \/ k = 7 \/ k = 8 \/ k = 9) by lia.
  repeat destruct Hk as [->|Hk]; try subst k; reflexivity.
Qed.

Lemma digitos_rango (d : Decimal.uint) : Forall (fun k => 0 <= k <= 9) (digitos d).
Proof. induction d; simpl; constructor; (lia || assumption). Qed.

Lemma digitpart_rest_digits (ds : list Z) :
  Forall (fun k => 0 <= k <= 9) ds ->
  digitpart_rest (map (fun k => (0x30 + Z.to_N k)%N) ds) = (ds, []).
Proof.
  induction 1 as [|k ds Hk _ IH]; [reflexivity|].
  cbn [map digitpart_rest]. rewrite (digit_value_cifra k Hk), IH. reflexivity.
Qed.

Lemma str_of_uint_cifras (d : Decimal.uint) :
  map N_of_ascii (list_ascii_of_string (NilEmpty.string_of_uint d)) = cifras d.
Proof. induction d; simpl; [reflexivity|..]; rewrite IHd; reflexivity. Qed.

Lemma Z_of_digits_acc (d a : Decimal.uint) :
  fold_left (fun acc k => 10 * acc + k) (digitos d)
    (Z.of_N (DecimalPos.Unsigned.of_lu a))
  = Z.of_N (DecimalPos.Unsigned.of_lu (Decimal.revapp d a)).
Proof.
  revert a. induction d; intros a; cbn [digitos fold_left Decimal.revapp];
    [reflexivity|..];
    rewrite <- IHd; f_equal; cbn [DecimalPos.Unsigned.of_lu];
    rewrite ?N2Z.inj_add, ?N2Z.inj_mul;
    change (Z.of_N 10) with 10; try change (Z.of_N 1) with 1;
    try change (Z.of_N 2) with 2; try change (Z.of_N 3) with 3;
    try change (Z.of_N 4) with 4; try change (Z.of_N 5) with 5;
    try change (Z.of_N 6) with 6; try change (Z.of_N 7) with 7;
    try change (Z.of_N 8) with 8; try change (Z.of_N 9) with 9;
    generalize (Z.of_N (DecimalPos.Unsigned.of_lu a)); intros z; lia.
Qed.

Lemma Z_of_digits_uint (d : Decimal.uint) :
  Z_of_digits (digitos d) = Z.of_N (Pos.of_uint d).
Proof.
  rewrite DecimalPos.Unsigned.of_uint_alt. unfold Z_of_digits, Decimal.rev.
  exact (Z_of_digits_acc d Decimal.Nil).
Qed.

Lemma lstrip_sin_espacios (s : str) :
  Forall (fun c => isspace c = false) s -> lstrip s = s.
Proof. destruct 1 as [|c s Hc _]; simpl; [|rewrite Hc]; reflexivity. Qed.

Lemma strip_sin_espacios (s : str) :
  Forall (fun c => isspace c = false) s -> strip s = s.
Proof.
  intros H. unfold strip. rewrite (lstrip_sin_espacios s H).
  rewrite lstrip_sin_espacios; [apply rev_involutive|].
  apply Forall_rev. assumption.
Qed.

Lemma cifras_sin_espacios (d : Decimal.uint) :
  Forall (fun c => isspace c = false) (cifras d).
Proof.
  unfold cifras. apply Forall_map.
  eapply Forall_impl; [|apply digitos_rango].
  intros k Hk. cbv beta in Hk |- *.
  assert (Hk' : k = 0 \/ k = 1 \/ k = 2 \/ k = 3 \/ k = 4 \/ k = 5 \/ k = 6
                \/ k = 7 \/ k = 8 \/ k = 9) by lia.
  repeat destruct Hk' as [->|Hk']; try subst k; reflexivity.
Qed.

(** The text of the decimal numeral [d], which has a digit, reads back as
    the number of [d], with the sign given. *)
Lemma int_de_cifras (neg : bool) (d : Decimal.uint) :
  d <> Decimal.Nil ->
  (List.length (cifras d) <= int_max_str_digits)%nat ->
  Py.int ((if neg then [0x2D%N] else []) ++ cifras d)
  = Some (if neg then - Z.of_N (Pos.of_uint d) else Z.of_N (Pos.of_uint d)).
Proof.
  intros Hnil Hlen. unfold Py.int.
  rewrite strip_sin_espacios.
  2:{ apply Forall_app. split; [|apply cifras_sin_espacios].
      destruct neg; repeat constructor. }
  assert (Hsign : sign ((if neg then [0x2D%N] else []) ++ cifras d)
                  = (neg, cifras d)).
  { destruct neg; [reflexivity|]. cbn [app].
    destruct d; try contradiction; reflexivity. }
  rewrite Hsign.
  assert (Hdp : digitpart (cifras d) = Some (digitos d, [])).
  { unfold digitpart, cifras.
    rewrite <- (digitpart_rest_digits (digitos d) (digitos_rango d)).
    destruct d; try contradiction; reflexivity. }
  rewrite Hdp.
  assert (Hl : List.length (digitos d) = List.length (cifras d))
    by (unfold cifras; rewrite length_map; reflexivity).
  rewrite Hl. apply Nat.leb_le in Hlen. rewrite Hlen.
  rewrite Z_of_digits_uint. reflexivity.
Qed.

Lemma string_of_uint_no_nil (d : Decimal.uint) :
  d <> Decimal.Nil ->
  NilZero.string_of_uint d = NilEmpty.string_of_uint d.
Proof. destruct d; [contradiction|..]; reflexivity. Qed.

Lemma str_of_int_pos (p : positive) :
  str_of_int (Zpos p) = cifras (Pos.to_uint p).
Proof.
  unfold str_of_int. cbn [Z.to_int NilZero.string_of_int].
  rewrite string_of_uint_no_nil by apply DecimalPos.Unsigned.to_uint_nonnil.
  apply str_of_uint_cifras.
Qed.

Lemma str_of_int_neg (p : positive) :
  str_of_int (Zneg p) = 0x2D%N :: cifras (Pos.to_uint p).
Proof.
  unfold str_of_int. cbn [Z.to_int NilZero.string_of_int].
  rewrite string_of_uint_no_nil by apply DecimalPos.Unsigned.to_uint_nonnil.
  cbn [list_ascii_of_string map]. rewrite str_of_uint_cifras. reflexivity.
Qed.

(** X4. [int(str(n))] is [n] for every integer [n] whose decimal text is
    within the digit bound of [int]: the number that the smart search
    sends, the text of an integer it has read, reads back as that
    integer. *)
Theorem int_str_round_trip (n : Z)
  (Hlen : (List.length (str_of_int (Z.abs n)) <= int_max_str_digits)%nat) :
  Py.int (str_of_int n) = Some n.
Proof.
  destruct n as [|p|p]; [reflexivity|..]; cbn [Z.abs] in Hlen;
    rewrite str_of_int_pos in Hlen.
  - rewrite str_of_int_pos.
    pose proof (int_de_cifras false (Pos.to_uint p)
                  (DecimalPos.Unsigned.to_uint_nonnil p) Hlen) as H.
    cbn [app] in H. rewrite H, DecimalPos.Unsigned.of_to. reflexivity.
  - rewrite str_of_int_neg.
    pose proof (int_de_cifras true (Pos.to_uint p)
                  (DecimalPos.Unsigned.to_uint_nonnil p) Hlen) as H.
    cbn [app] in H. rewrite H, DecimalPos.Unsigned.of_to. reflexivity.
Qed.

Lemma int_str_round_trip_witness :
  (List.length (str_of_int (Z.abs (-2024))) <= int_max_str_digits)%nat
  /\ Py.int (str_of_int (-2024)) = Some (-2024).
Proof.
  assert (H : (List.length (str_of_int (Z.abs (-2024))) <= int_max_str_digits)%nat).
  { apply Nat.leb_le. vm_compute. reflexivity. }
  split; [exact H|]. exact (int_str_round_trip (-2024) H).
Defined.

(** ** The runs of the smart search *)

Lemma si_dado_get (k k' : string) (x : option str) (p : Params) :
  dict_get k (si_dado k' x p)
  = if String.eqb k k' && dado x then Some x else dict_get k p.
Proof.
  unfold si_dado. destruct (dado x); rewrite ?dict_get_set;
    destruct (String.eqb k k'); reflexivity.
Qed.

Lemma respuesta_exacta_campos (n : Z) (root : Element) (j : json) :
  respuesta_exacta n root = Some (Ok j) ->
  es_exacta j
  /\ campo "numero_buscado" j = Some (JInt n)
  /\ campo "numero_encontrado" j = Some (JInt n)
  /\ campo "diferencia" j = None
  /\ campo "otros_numeros_disponibles" j = None
  /\ campo "error" j = None
  /\ exists t, campo "tipo_respuesta" j = Some (JStr t).
Proof.
  unfold respuesta_exacta, es_exacta.
  destruct (match find root ".//bico" with
            | Some bico => find bico ".//bi"
            | None => None
            end) as [bi|].
  - destruct (parse_inmueble_completo bi); [|discriminate].
    intros [= <-]. repeat split. eexists. reflexivity.
  - destruct (find root ".//lrcdnp"); [|discriminate].
    intros [= <-]. repeat split. eexists. reflexivity.
Qed.

Lemma respuesta_cercana_discriminante (nb : Z) (nc : Candidato)
  (nd : list Candidato) (root : Element) (j : json) :
  respuesta_cercana nb nc nd root = Some (Ok j) ->
  es_cercano j /\ campo "error" j = None
  /\ exists t, campo "tipo_respuesta" j = Some (JStr t).
Proof.
  unfold respuesta_cercana, es_cercano.
  destruct (match find root ".//bico" with
            | Some bico => find bico ".//bi"
            | None => None
            end) as [bi|].
  - destruct (parse_inmueble_completo bi); [|discriminate].
    intros [= <-]. repeat split. eexists. reflexivity.
  - destruct (find root ".//lrcdnp"); [|discriminate].
    intros [= <-]. repeat split. eexists. reflexivity.
Qed.

Lemma parse_xml_error_campos (root : Element) (error_info : dict) :
  parse_xml_error root = Some error_info ->
  dict_get "error" error_info = Some (JBool true)
  /\ (exists c, dict_get "codigo" error_info = Some c)
  /\ (exists d, dict_get "descripcion" error_info = Some d
                /\ (d = JNull \/ exists t, d = JStr t))
  /\ forall k, ~ In k claves_error -> dict_get k error_info = None.
Proof.
  intros H. pose proof (parse_xml_error_claves root error_info H) as Hk.
  revert H. unfold parse_xml_error.
  destruct (find root ".//lerr/err") as [err|]; [|discriminate].
  intros [= <-]. split; [reflexivity|]. split; [eexists; reflexivity|]. split.
  - eexists. split; [reflexivity|].
    destruct (find err "des") as [des|]; [|right; eexists; reflexivity].
    unfold json_of_text. destruct (text des);
      [right; eexists; reflexivity|left; reflexivity].
  - intros k Hno. apply dict_get_fuera. exact Hno.
Qed.

Lemma extraer_numeros_no_cero (root : Element) (c : Candidato) :
  In c (extraer_numeros root) -> numero c <> 0.
Proof.
  unfold extraer_numeros. rewrite in_flat_map. intros (nump & _ & Hc).
  revert Hc. cbv beta zeta.
  destruct (find nump ".//pnp") as [pnp|]; [|intros []].
  destruct (find nump ".//pc1"); [|intros []].
  destruct (find nump ".//pc2"); [|intros []].
  destruct (texto_de (Some pnp)) as [t|]; [|intros []].
  destruct (Py.int t) as [n|]; [|intros []].
  destruct (n =? 0) eqn:E; [intros []|].
  intros [<-|[]]. apply Z.eqb_neq. exact E.
Qed.

(** The case analysis of one run of the smart search: the number read,
    each round trip and each test on its answer. *)
Ltac casos_busqueda http_get :=
  unfold buscar_inmueble_inteligente, intentar, busqueda, bind, consultar,
    lift, ret;
  cbv zeta;
  repeat (cbn [fst snd mundo enviadas];
          match goal with
          | |- context [match Py.int ?x with _ => _ end] =>
              destruct (Py.int x) eqn:?
          | |- context [http_get ?p ?w] =>
              destruct (http_get p w) as [[?|?] ?] eqn:?
          | |- context [match parse_xml_error ?r with _ => _ end] =>
              destruct (parse_xml_error r) eqn:?
          | |- context [match respuesta_exacta ?n ?r with _ => _ end] =>
              destruct (respuesta_exacta n r) as [[?|?]|] eqn:?
          | |- context [match upper_de ?v with _ => _ end] =>
              destruct (upper_de v) eqn:?
          | |- context [if numero_no_existe ?d then _ else _] =>
              destruct (numero_no_existe d) eqn:?
          | |- context [if truthy ?l then _ else _] => destruct (truthy l) eqn:?
          | |- context [match ordenar_por_diferencia ?n ?l with _ => _ end] =>
              destruct (ordenar_por_diferencia n l) eqn:?
          | |- context [match respuesta_cercana ?a ?b ?c ?d with _ => _ end] =>
              destruct (respuesta_cercana a b c d) as [[?|?]|] eqn:?
          end);
  cbn [fst snd mundo enviadas].

Section Corridas.
Context {Mundo : Type}.
Variable http_get : Peticion -> Mundo -> resultado Element * Mundo.
Variable mensaje_interprete : excepcion -> str.

(** X5. The smart search sends at most three requests, in a fixed order:
    none when the number is no integer; otherwise the lookup of the number
    asked for, then possibly the enumeration of the street, then possibly
    the lookup of the number selected, which is never 0. Only the first
    request carries the stair, the floor and the door: the enumeration and
    the second lookup are made with the province, the municipality, the
    street and its type alone. *)
Theorem peticiones_de_la_busqueda
  (provincia municipio nombre_via numero_texto : str)
  (tipo_via escalera planta puerta : option str) (st : Estado Mundo) :
  match Py.int numero_texto with
  | None =>
      snd (buscar_inmueble_inteligente http_get mensaje_interprete
             provincia municipio nombre_via numero_texto tipo_via escalera
             planta puerta st) = st
  | Some numero_buscado =>
      exists resto,
        enviadas
          (snd (buscar_inmueble_inteligente http_get mensaje_interprete
                  provincia municipio nombre_via numero_texto tipo_via
                  escalera planta puerta st))
        = enviadas st
            ++ peticion_directa provincia municipio nombre_via numero_buscado
                 tipo_via escalera planta puerta :: resto
        /\ (resto = []
            \/ resto = [peticion_numeros provincia municipio nombre_via
                          numero_buscado tipo_via]
            \/ exists numero_cercano,
                numero_cercano <> 0
                /\ resto = [peticion_numeros provincia municipio nombre_via
                              numero_buscado tipo_via;
                            peticion_cercano provincia municipio nombre_via
                              numero_cercano tipo_via])
  end
  /\ (forall k numero_buscado numero_cercano,
         In k ["Escalera"; "Planta"; "Puerta"] ->
         dict_get k (params (peticion_numeros provincia municipio nombre_via
                               numero_buscado tipo_via)) = None
         /\ dict_get k (params (peticion_cercano provincia municipio nombre_via
                                  numero_cercano tipo_via)) = None)
  /\ (forall numero_buscado,
         dict_get "Escalera"
           (params (peticion_directa provincia municipio nombre_via
                      numero_buscado tipo_via escalera planta puerta))
         = (if dado escalera then Some escalera else None)
         /\ dict_get "Planta"
              (params (peticion_directa provincia municipio nombre_via
                         numero_buscado tipo_via escalera planta puerta))
            = (if dado planta then Some planta else None)
         /\ dict_get "Puerta"
              (params (peticion_directa provincia municipio nombre_via
                         numero_buscado tipo_via escalera planta puerta))
            = (if dado puerta then Some puerta else None)).
Proof.
  split; [|split].
  - casos_busqueda http_get; try reflexivity;
      rewrite <- ?app_assoc; cbn [app];
      try (exists []; split; [reflexivity|left; reflexivity]);
      try (eexists; split; [reflexivity|right; left; reflexivity]).
    all: match goal with
         | H : ordenar_por_diferencia ?n ?l = ?c :: _ |- _ =>
             assert (Hc : numero c <> 0);
             [ apply (extraer_numeros_no_cero
                        ltac:(match l with extraer_numeros ?r => exact r end));
               apply (sort_by_In (fun x => Z.abs (numero x - n)));
               unfold ordenar_por_diferencia in H; rewrite H; left; reflexivity
             | eexists; split;
               [reflexivity|right; right; exists (numero c); split;
                            [exact Hc|reflexivity]] ]
         end.
  - intros k nb nc Hk. cbn [peticion_numeros peticion_cercano params].
    rewrite !si_dado_get.
    destruct Hk as [<-|[<-|[<-|[]]]]; split; reflexivity.
  - intros nb. cbn [peticion_directa params]. rewrite !si_dado_get.
    cbn [String.eqb Ascii.eqb Bool.eqb andb].
    destruct (dado escalera), (dado planta), (dado puerta);
      repeat split; reflexivity.
Qed.


(** X6. A result of the smart search that reports an exact match comes from
    one request only; the number found is the number asked for, and the
    result has no difference and no list of other numbers. *)
Theorem resultado_exacto
  (provincia municipio nombre_via numero_texto : str)
  (tipo_via escalera planta puerta : option str)
  (st st' : Estado Mundo) (j : json)
  (Hrun : buscar_inmueble_inteligente http_get mensaje_interprete
            provincia municipio nombre_via numero_texto tipo_via escalera
            planta puerta st = (j, st'))
  (Hexacta : es_exacta j) :
  exists numero_buscado,
    Py.int numero_texto = Some numero_buscado
    /\ enviadas st'
       = enviadas st ++ [peticion_directa provincia municipio nombre_via
                           numero_buscado tipo_via escalera planta puerta]
    /\ campo "numero_buscado" j = Some (JInt numero_buscado)
    /\ campo "numero_encontrado" j = Some (JInt numero_buscado)
    /\ campo "diferencia" j = None
    /\ campo "otros_numeros_disponibles" j = None.
Proof.
  revert Hrun. casos_busqueda http_get; intros [= <- <-];
    try (vm_compute in Hexacta; discriminate);
    try (unfold es_exacta in Hexacta; cbn in Hexacta; discriminate).
  all: lazymatch goal with
       | H : respuesta_cercana _ _ _ _ = Some (Ok _) |- _ =>
           destruct (respuesta_cercana_discriminante _ _ _ _ _ H) as (Hc & _);
           unfold es_cercano, es_exacta in *; rewrite Hc in Hexacta;
           vm_compute in Hexacta; discriminate
       | H : respuesta_exacta _ _ = Some (Ok _) |- _ =>
           destruct (respuesta_exacta_campos _ _ _ H)
             as (_ & H1 & H2 & H3 & H4 & _);
           eexists; split; [reflexivity|]; split; [reflexivity|];
           repeat split; assumption
       | H : parse_xml_error _ = Some _ |- _ =>
           destruct (parse_xml_error_campos _ _ H) as (_ & _ & _ & Hk);
           unfold es_exacta, campo in Hexacta;
           rewrite Hk in Hexacta by no_en_lista; discriminate
       end.
Qed.

(** X7. A result of the smart search that carries an error code is the
    service error of the first answer, as [parse_xml_error] read it, with
    nothing added; one request was sent, and the description of the error
    has no "NUMERO NO EXISTE". So the smart search retries on the number
    error alone and attaches no candidates to any other error. *)
Theorem error_de_servicio_sin_cambios
  (provincia municipio nombre_via numero_texto : str)
  (tipo_via escalera planta puerta : option str)
  (st st' : Estado Mundo) (j : json)
  (Hrun : buscar_inmueble_inteligente http_get mensaje_interprete
            provincia municipio nombre_via numero_texto tipo_via escalera
            planta puerta st = (j, st'))
  (Hcodigo : campo "codigo" j <> None) :
  exists numero_buscado root error_info d,
    Py.int numero_texto = Some numero_buscado
    /\ enviadas st'
       = enviadas st ++ [peticion_directa provincia municipio nombre_via
                           numero_buscado tipo_via escalera planta puerta]
    /\ fst (http_get (peticion_directa provincia municipio nombre_via
                        numero_buscado tipo_via escalera planta puerta)
              (mundo st)) = Ok root
    /\ parse_xml_error root = Some error_info
    /\ j = JDict error_info
    /\ keys error_info = claves_error
    /\ dict_get "descripcion" error_info = Some (JStr d)
    /\ numero_no_existe (upper d) = false.
Proof.
  revert Hrun. casos_busqueda http_get; intros [= <- <-];
    try (exfalso; apply Hcodigo; reflexivity).
  all: lazymatch goal with
       | H : respuesta_cercana _ _ _ _ = Some (Ok _) |- _ =>
           unfold respuesta_cercana in H;
           destruct (match find _ ".//bico" with
                     | Some bico => find bico ".//bi"
                     | None => None
                     end);
           [destruct (parse_inmueble_completo _); [|discriminate]
           |destruct (find _ ".//lrcdnp"); [|discriminate]];
           injection H as <-; exfalso; apply Hcodigo; reflexivity
       | H : respuesta_exacta _ _ = Some (Ok _) |- _ =>
           unfold respuesta_exacta in H;
           destruct (match find _ ".//bico" with
                     | Some bico => find bico ".//bi"
                     | None => None
                     end);
           [destruct (parse_inmueble_completo _); [|discriminate]
           |destruct (find _ ".//lrcdnp"); [|discriminate]];
           injection H as <-; exfalso; apply Hcodigo; reflexivity
       | H : parse_xml_error _ = Some _, Hu : upper_de _ = Ok _,
         Hn : numero_no_existe _ = false, Hg : http_get _ _ = _ |- _ =>
           pose proof (parse_xml_error_claves _ _ H) as Hk;
           destruct (parse_xml_error_campos _ _ H)
             as (_ & _ & (des & Hd & Hd') & _);
           rewrite Hd in Hu; unfold upper_de in Hu;
           destruct Hd' as [->|[t ->]]; [discriminate|];
           injection Hu as <-;
           eexists _, _, _, t; split; [reflexivity|]; split; [reflexivity|];
           split; [unfold peticion_directa, URL_DNPLOC; rewrite Hg; reflexivity|];
           split; [exact H|]; split; [reflexivity|]; split; [exact Hk|];
           split; [exact Hd|exact Hn]
       end.
Qed.

End Corridas.

Lemma resultado_exacto_witness :
  buscar_inmueble_inteligente Ejemplo.servicio Ejemplo.sin_mensaje
    (u "MADRID") (u "MADRID") (u "MAYOR") (u "9") (Some (u "CL"))
    None (Some (u "02")) None Ejemplo.inicio = Ejemplo.resultado_9
  /\ es_exacta (fst Ejemplo.resultado_9)
  /\ exists numero_buscado,
      Py.int (u "9") = Some numero_buscado
      /\ enviadas (snd Ejemplo.resultado_9)
         = enviadas Ejemplo.inicio
             ++ [peticion_directa (u "MADRID") (u "MADRID") (u "MAYOR")
                   numero_buscado (Some (u "CL")) None (Some (u "02")) None]
      /\ campo "numero_buscado" (fst Ejemplo.resultado_9)
         = Some (JInt numero_buscado)
      /\ campo "numero_encontrado" (fst Ejemplo.resultado_9)
         = Some (JInt numero_buscado)
      /\ campo "diferencia" (fst Ejemplo.resultado_9) = None
      /\ campo "otros_numeros_disponibles" (fst Ejemplo.resultado_9) = None.
Proof.
  split; [vm_compute; reflexivity|]. split; [vm_compute; reflexivity|].
  apply (resultado_exacto Ejemplo.servicio Ejemplo.sin_mensaje
           (u "MADRID") (u "MADRID") (u "MAYOR") (u "9") (Some (u "CL"))
           None (Some (u "02")) None Ejemplo.inicio (snd Ejemplo.resultado_9)
           (fst Ejemplo.resultado_9)).
  - vm_compute. reflexivity.
  - vm_compute. reflexivity.
Defined.

Lemma error_de_servicio_sin_cambios_witness :
  buscar_inmueble_inteligente
    (Ejemplo.servicio_fijo (Ejemplo.doc_error_con_candidatos "LA VIA NO EXISTE"))
    Ejemplo.sin_mensaje (u "MADRID") (u "MADRID") (u "MAYOR") (u "9")
    (Some (u "CL")) None None None Ejemplo.inicio = Ejemplo.resultado_sin_via
  /\ campo "codigo" (fst Ejemplo.resultado_sin_via) <> None
  /\ exists numero_buscado root error_info d,
      Py.int (u "9") = Some numero_buscado
      /\ enviadas (snd Ejemplo.resultado_sin_via)
         = enviadas Ejemplo.inicio
             ++ [peticion_directa (u "MADRID") (u "MADRID") (u "MAYOR")
                   numero_buscado (Some (u "CL")) None None None]
      /\ fst (Ejemplo.servicio_fijo
                (Ejemplo.doc_error_con_candidatos "LA VIA NO EXISTE")
                (peticion_directa (u "MADRID") (u "MADRID") (u "MAYOR")
                   numero_buscado (Some (u "CL")) None None None)
                (mundo Ejemplo.inicio)) = Ok root
      /\ parse_xml_error root = Some error_info
      /\ fst Ejemplo.resultado_sin_via = JDict error_info
      /\ keys error_info = claves_error
      /\ dict_get "descripcion" error_info = Some (JStr d)
      /\ numero_no_existe (upper d) = false.
Proof.
  split; [vm_compute; reflexivity|].
  assert (H : campo "codigo" (fst Ejemplo.resultado_sin_via) <> None)
    by (vm_compute; discriminate).
  split; [exact H|].
  apply (error_de_servicio_sin_cambios
           (Ejemplo.servicio_fijo
              (Ejemplo.doc_error_con_candidatos "LA VIA NO EXISTE"))
           Ejemplo.sin_mensaje (u "MADRID") (u "MADRID") (u "MAYOR") (u "9")
           (Some (u "CL")) None None None Ejemplo.inicio
           (snd Ejemplo.resultado_sin_via) (fst Ejemplo.resultado_sin_via)).
  - vm_compute. reflexivity.
  - exact H.
Defined.

(** ** The keys of a dictionary *)

Lemma keys_dict_set_nueva {V : Type} (k : string) (v : V) (d : list (string * V)) :
  ~ In k (map fst d) -> map fst (dict_set k v d) = map fst d ++ [k].
Proof.
  induction d as [|[k' v'] r IH]; simpl; [reflexivity|].
  intros H. destruct (String.eqb_spec k k') as [->|_].
  - exfalso. apply H. left. reflexivity.
  - simpl. rewrite IH; [reflexivity|]. intros Hin. apply H. right. assumption.
Qed.

Lemma keys_dict_set_vieja {V : Type} (k : string) (v : V) (d : list (string * V)) :
  In k (map fst d) -> map fst (dict_set k v d) = map fst d.
Proof.
  induction d as [|[k' v'] r IH]; simpl; [intros []|].
  intros H. destruct (String.eqb_spec k k') as [->|Hne]; [reflexivity|].
  simpl. rewrite IH; [reflexivity|]. destruct H as [H|H]; [congruence|assumption].
Qed.

Lemma dict_get_In {V : Type} (k : string) (d : list (string * V)) :
  In k (map fst d) <-> dict_get k d <> None.
Proof.
  induction d as [|[k' v] r IH]; simpl.
  - split; [intros []|congruence].
  - destruct (String.eqb_spec k k') as [->|Hne].
    + split; [discriminate|]. intros _. left. reflexivity.
    + rewrite <- IH. split; [intros [H|H]; [congruence|assumption]|].
      intros H. right. assumption.
Qed.

(** ** The enrichment of a service error *)

Lemma buscar_candidatos_frame (root : Element) (error_info error_info' : dict)
  (k : string) :
  buscar_candidatos root error_info = Ok error_info' ->
  ~ In k claves_candidatos ->
  dict_get k error_info' = dict_get k error_info.
Proof.
  intros Hb H. revert Hb. unfold buscar_candidatos, adjuntar.
  destruct (upper_de _) as [du|]; [|discriminate].
  repeat match goal with
         | |- context [if ?b then _ else _] => destruct b
         end;
    intros [= <-]; saltar H; reflexivity.
Qed.

(** X8. What [consulta_datos_catastro] adds to a service error. The code,
    the description and the error flag stay as they were; at most one key
    is added, after them, and a list of candidates is added only when it
    is not empty. The tests are made in a fixed order, so a description
    with the province phrase gets province candidates and nothing else,
    whatever other phrase it has. An error of the number class gets either
    its candidates or the suggestion, never both and never neither. *)
Theorem enriquecimiento_del_error
  (root : Element) (error_info error_info' : dict)
  (Hparse : parse_xml_error root = Some error_info)
  (Hb : buscar_candidatos root error_info = Ok error_info') :
  (forall k, In k claves_error ->
             dict_get k error_info' = dict_get k error_info)
  /\ (exists extra,
         keys error_info' = claves_error ++ extra
         /\ (extra = [] \/ exists k, In k claves_candidatos /\ extra = [k]))
  /\ (forall k, dict_get k error_info' <> Some (JList []))
  /\ (forall d,
         dict_get "descripcion" error_info = Some (JStr d) ->
         str_in (u "PROVINCIA NO EXISTE") (upper d) = true ->
         forall k, k <> "candidatos_provincias" ->
                   dict_get k error_info' = dict_get k error_info)
  /\ (forall d,
         dict_get "descripcion" error_info = Some (JStr d) ->
         str_in (u "PROVINCIA NO EXISTE") (upper d) = false ->
         str_in (u "MUNICIPIO NO EXISTE") (upper d) = false ->
         str_in (u "VIA NO EXISTE") (upper d) = false ->
         str_in (u "VÃA NO EXISTE") (upper d) = false ->
         str_in (u "NUMERO NO EXISTE") (upper d) = true ->
         (dict_get "candidatos_numeros" error_info' <> None
          /\ dict_get "sugerencia" error_info' = None)
         \/ (dict_get "candidatos_numeros" error_info' = None
             /\ dict_get "sugerencia" error_info' <> None)).
Proof.
  pose proof (parse_xml_error_claves root error_info Hparse) as Hk.
  destruct (parse_xml_error_campos root error_info Hparse)
    as (He & _ & _ & Hout).
  assert (Hnull : forall k, dict_get k error_info <> Some (JList [])).
  { intros k. revert Hparse. unfold parse_xml_error.
    destruct (find root ".//lerr/err") as [err|]; [|discriminate].
    intros [= <-]. cbn [dict_get].
    destruct (String.eqb k "error"); [discriminate|].
    destruct (String.eqb k "codigo").
    - destruct (find err "cod") as [c|]; [destruct (text c)|]; discriminate.
    - destruct (String.eqb k "descripcion"); [|discriminate].
      destruct (find err "des") as [c|]; [destruct (text c)|]; discriminate. }
  split; [|split; [|split; [|split]]].
  - intros k Hin. apply (buscar_candidatos_frame root _ _ k Hb).
    intros Hc. revert Hin Hc. clear. cbv. intuition congruence.
  - revert Hb. unfold buscar_candidatos, adjuntar.
    destruct (upper_de _) as [du|]; [|discriminate].
    unfold keys in *.
    repeat match goal with
           | |- context [if ?b then _ else _] => destruct b
           end;
      intros [= <-];
      try (exists []; rewrite app_nil_r; split; [assumption|left; reflexivity]);
      (rewrite keys_dict_set_nueva by (rewrite Hk; no_en_lista);
       rewrite Hk; eexists; split; [reflexivity|];
       right; eexists; split; [|reflexivity]; cbv; tauto).
  - intros k. revert Hb. unfold buscar_candidatos, adjuntar.
    destruct (upper_de _) as [du|]; [|discriminate].
    repeat match goal with
           | |- context [if truthy ?l then _ else _] =>
               destruct l eqn:?; cbn [truthy]
           | |- context [if ?b then _ else _] => destruct b
           end;
      intros [= <-]; try apply Hnull;
      rewrite dict_get_set; destruct (String.eqb k _);
      try apply Hnull; discriminate.
  - intros d Hd Hprov k Hne. revert Hb. unfold buscar_candidatos, adjuntar.
    rewrite Hd. cbn [upper_de]. rewrite Hprov.
    destruct (truthy _); intros [= <-]; [|reflexivity].
    apply dict_get_set_other. assumption.
  - intros d Hd H1 H2 H3 H4 H5. revert Hb. unfold buscar_candidatos.
    rewrite Hd. cbn [upper_de]. rewrite H1, H2, H3, H4, H5.
    cbn [orb]. destruct (truthy _); intros [= <-]; rewrite !dict_get_set;
      cbn [String.eqb Ascii.eqb Bool.eqb]; rewrite ?Hout by no_en_lista;
      [left|right]; split; (reflexivity || discriminate).
Qed.

Lemma enriquecimiento_del_error_witness :
  parse_xml_error (Ejemplo.doc_error_con_candidatos "LA VIA NO EXISTE")
  = Some [("error", JBool true); ("codigo", JStr (u "43"));
          ("descripcion", JStr (u "LA VIA NO EXISTE"))]
  /\ buscar_candidatos (Ejemplo.doc_error_con_candidatos "LA VIA NO EXISTE")
       [("error", JBool true); ("codigo", JStr (u "43"));
        ("descripcion", JStr (u "LA VIA NO EXISTE"))]
     = Ok [("error", JBool true); ("codigo", JStr (u "43"));
           ("descripcion", JStr (u "LA VIA NO EXISTE"));
           ("candidatos_vias",
            JList [JDict [("nombre", JStr (u "MAYOR")); ("tipo", JStr (u "CL"))]])]
  /\ forall k, In k claves_error ->
               dict_get k [("error", JBool true); ("codigo", JStr (u "43"));
                           ("descripcion", JStr (u "LA VIA NO EXISTE"));
                           ("candidatos_vias",
                            JList [JDict [("nombre", JStr (u "MAYOR"));
                                          ("tipo", JStr (u "CL"))]])]
               = dict_get k [("error", JBool true); ("codigo", JStr (u "43"));
                             ("descripcion", JStr (u "LA VIA NO EXISTE"))].
Proof.
  split; [reflexivity|]. split; [vm_compute; reflexivity|].
  exact (proj1 (enriquecimiento_del_error
                  (Ejemplo.doc_error_con_candidatos "LA VIA NO EXISTE")
                  _ _ eq_refl eq_refl)).
Defined.

(** ** The results of the three tools *)

Lemma respuesta_consulta_discriminada (root : Element) (j : json) :
  respuesta_consulta root = Ok j -> discriminado j.
Proof.
  unfold respuesta_consulta. cbv zeta.
  destruct (find root ".//bico") as [bico|].
  - destruct (find bico ".//bi") as [bi|].
    + destruct (parse_inmueble_completo bi); [|discriminate].
      intros [= <-]. right. eexists. split; reflexivity.
    + intros [= <-]. left. eexists. split; reflexivity.
  - destruct (find root ".//lrcdnp").
    + intros [= <-]. right. eexists. split; reflexivity.
    + intros [= <-]. left. eexists. split; reflexivity.
Qed.

Lemma error_info_discriminado (root : Element) (error_info : dict) :
  parse_xml_error root = Some error_info -> discriminado (JDict error_info).
Proof.
  intros H. destruct (parse_xml_error_campos root error_info H)
    as (He & _ & _ & Hout).
  left. exists true. split; [exact He|]. apply Hout. no_en_lista.
Qed.

Section Resultados.
Context {Mundo : Type}.
Variable http_get : Peticion -> Mundo -> resultado Element * Mundo.
Variable mensaje_interprete : excepcion -> str.

(** X9. Whatever the service answers and whatever fails, each of the three
    tools returns an object with a discriminant: either the key [error]
    with a truth value and no [tipo_respuesta], or the key [tipo_respuesta]
    with a text and no [error]. *)
Theorem resultados_discriminados
  (provincia municipio nombre_via numero_texto : str)
  (tipo_via escalera planta puerta : option str)
  (oprovincia omunicipio onombre_via onumero bloque codigo_provincia
     codigo_municipio codigo_via referencia_catastral : option str)
  (st : Estado Mundo) :
  discriminado
    (fst (buscar_inmueble_inteligente http_get mensaje_interprete
            provincia municipio nombre_via numero_texto tipo_via escalera
            planta puerta st))
  /\ discriminado
       (fst (consulta_datos_catastro http_get mensaje_interprete
               oprovincia omunicipio tipo_via onombre_via onumero bloque
               escalera planta puerta codigo_provincia codigo_municipio
               codigo_via referencia_catastral st))
  /\ discriminado
       (fst (listar_numeros_via http_get mensaje_interprete
               provincia municipio tipo_via onombre_via st)).
Proof.
  split; [|split].
  - casos_busqueda http_get;
      try (left; eexists; split; reflexivity).
    all: lazymatch goal with
         | H : respuesta_cercana _ _ _ _ = Some (Ok _) |- _ =>
             destruct (respuesta_cercana_discriminante _ _ _ _ _ H)
               as (_ & He & Ht);
             right; destruct Ht as [t Ht]; exists t; split; assumption
         | H : respuesta_exacta _ _ = Some (Ok _) |- _ =>
             destruct (respuesta_exacta_campos _ _ _ H)
               as (_ & _ & _ & _ & _ & He & Ht);
             right; destruct Ht as [t Ht]; exists t; split; assumption
         | H : parse_xml_error _ = Some _ |- _ =>
             exact (error_info_discriminado _ _ H)
         end.
  - unfold consulta_datos_catastro.
    destruct (preparar_consulta _ _ _ _ _ _ _ _ _ _ _ _ _) as [rechazo|pet] eqn:Ep.
    + revert Ep. unfold preparar_consulta.
      repeat match goal with
             | |- context [if ?b then _ else _] => destruct b
             end; intros [= <-].
      left. eexists. split; reflexivity.
    + unfold intentar, bind, consultar, lift, ret. cbn [fst snd mundo enviadas].
      destruct (http_get _ (mundo st)) as [[root|e] w];
        [|destruct e; left; eexists; split; reflexivity].
      destruct (parse_xml_error root) as [error_info|] eqn:Eerr.
      * destruct (buscar_candidatos root error_info) as [error_info'|e] eqn:Eb;
          [|destruct e; left; eexists; split; reflexivity].
        cbn [fst].
        destruct (parse_xml_error_campos root error_info Eerr)
          as (He & _ & _ & Hout).
        left. exists true. unfold campo. split.
        -- rewrite (buscar_candidatos_frame _ _ _ "error" Eb) by no_en_lista.
           exact He.
        -- rewrite (buscar_candidatos_frame _ _ _ "tipo_respuesta" Eb)
             by no_en_lista.
           apply Hout. no_en_lista.
      * destruct (respuesta_consulta root) as [j|e] eqn:Er;
          [|destruct e; left; eexists; split; reflexivity].
        exact (respuesta_consulta_discriminada root j Er).
  - unfold listar_numeros_via, intentar, bind, consultar, ret. cbv zeta.
    cbn [fst snd mundo enviadas].
    destruct (http_get _ (mundo st)) as [[root|e] w];
      [|left; eexists; split; reflexivity].
    destruct (parse_xml_error root) as [error_info|] eqn:Eerr.
    + exact (error_info_discriminado root error_info Eerr).
    + right. eexists. split; reflexivity.
Qed.

End Resultados.

(** ** Answers that the tools cannot read *)

Lemma parse_inmueble_completo_Raise (bi debi : Element) (t : str) :
  find bi ".//debi" = Some debi ->
  texto_de (find debi "ant") = Some t ->
  Py.int t = None ->
  parse_inmueble_completo bi = Raise (ValueError t).
Proof.
  intros Hdebi Hant Hno. unfold parse_inmueble_completo. cbv zeta.
  rewrite (datos_economicos_cases bi debi _ Hdebi). cbv zeta.
  rewrite Hant, Hno. reflexivity.
Qed.

Section Ilegibles.
Context {Mundo : Type}.
Variable http_get : Peticion -> Mundo -> resultado Element * Mundo.
Variable mensaje_interprete : excepcion -> str.

(** X10. When the service answers with a full record whose build year
    [ant] has a text that is no integer, the smart search and
    [consulta_datos_catastro] both lose the record: the [ValueError] of
    [int] leaves the extractor and the tool returns [error_inesperado],
    after the one request it has sent. *)
Theorem antiguedad_ilegible
  (root bico bi debi : Element) (t : str)
  (Herr : parse_xml_error root = None)
  (Hbico : find root ".//bico" = Some bico)
  (Hbi : find bico ".//bi" = Some bi)
  (Hdebi : find bi ".//debi" = Some debi)
  (Hant : texto_de (find debi "ant") = Some t)
  (Hno : Py.int t = None) :
  (forall provincia municipio nombre_via numero_texto tipo_via escalera planta
          puerta numero_buscado (st : Estado Mundo) w,
      Py.int numero_texto = Some numero_buscado ->
      http_get (peticion_directa provincia municipio nombre_via numero_buscado
                  tipo_via escalera planta puerta) (mundo st) = (Ok root, w) ->
      buscar_inmueble_inteligente http_get mensaje_interprete
        provincia municipio nombre_via numero_texto tipo_via escalera planta
        puerta st
      = (error_inesperado mensaje_interprete (ValueError t),
         tras_peticion st
           (peticion_directa provincia municipio nombre_via numero_buscado
              tipo_via escalera planta puerta) w))
  /\ (forall provincia municipio tipo_via nombre_via onumero bloque escalera
             planta puerta codigo_provincia codigo_municipio codigo_via
             referencia_catastral pet (st : Estado Mundo) w,
         preparar_consulta provincia municipio tipo_via nombre_via onumero
           bloque escalera planta puerta codigo_provincia codigo_municipio
           codigo_via referencia_catastral = inr pet ->
         http_get pet (mundo st) = (Ok root, w) ->
         consulta_datos_catastro http_get mensaje_interprete
           provincia municipio tipo_via nombre_via onumero bloque escalera
           planta puerta codigo_provincia codigo_municipio codigo_via
           referencia_catastral st
         = (error_inesperado mensaje_interprete (ValueError t),
            tras_peticion st pet w)).
Proof.
  pose proof (parse_inmueble_completo_Raise bi debi t Hdebi Hant Hno) as Hraise.
  split.
  - intros provincia municipio nombre_via numero_texto tipo_via escalera planta
      puerta numero_buscado st w Hint Hget.
    unfold buscar_inmueble_inteligente. rewrite Hint.
    unfold intentar, busqueda, bind, consultar, lift, ret. cbv zeta.
    unfold peticion_directa, URL_DNPLOC in Hget. rewrite Hget, Herr.
    unfold respuesta_exacta. rewrite Hbico, Hbi, Hraise. reflexivity.
  - intros provincia municipio tipo_via nombre_via onumero bloque escalera
      planta puerta codigo_provincia codigo_municipio codigo_via
      referencia_catastral pet st w Hp Hget.
    unfold consulta_datos_catastro. rewrite Hp.
    unfold intentar, bind, consultar, lift, ret.
    destruct pet as [url0 params0]. cbn [url params] in *.
    rewrite Hget, Herr. unfold respuesta_consulta. cbv zeta.
    rewrite Hbico, Hbi, Hraise. reflexivity.
Qed.

(** X11. When the service reports an error whose description element
    [des] is there but empty, the description read is [None]. The smart
    search and [consulta_datos_catastro] then fail on its [upper] and
    return [error_inesperado] in place of the service error;
    [listar_numeros_via], which does not look at the description, returns
    the error with its code. *)
Theorem descripcion_vacia
  (root err des : Element)
  (Herr : find root ".//lerr/err" = Some err)
  (Hdes : find err "des" = Some des)
  (Htext : text des = None) :
  (exists codigo,
      parse_xml_error root
      = Some [("error", JBool true); ("codigo", codigo); ("descripcion", JNull)])
  /\ (forall provincia municipio nombre_via numero_texto tipo_via escalera
             planta puerta numero_buscado (st : Estado Mundo) w,
         Py.int numero_texto = Some numero_buscado ->
         http_get (peticion_directa provincia municipio nombre_via
                     numero_buscado tipo_via escalera planta puerta)
           (mundo st) = (Ok root, w) ->
         buscar_inmueble_inteligente http_get mensaje_interprete
           provincia municipio nombre_via numero_texto tipo_via escalera
           planta puerta st
         = (error_inesperado mensaje_interprete (AttributeError "upper"),
            tras_peticion st
              (peticion_directa provincia municipio nombre_via numero_buscado
                 tipo_via escalera planta puerta) w))
  /\ (forall provincia municipio tipo_via nombre_via onumero bloque escalera
             planta puerta codigo_provincia codigo_municipio codigo_via
             referencia_catastral pet (st : Estado Mundo) w,
         preparar_consulta provincia municipio tipo_via nombre_via onumero
           bloque escalera planta puerta codigo_provincia codigo_municipio
           codigo_via referencia_catastral = inr pet ->
         http_get pet (mundo st) = (Ok root, w) ->
         consulta_datos_catastro http_get mensaje_interprete
           provincia municipio tipo_via nombre_via onumero bloque escalera
           planta puerta codigo_provincia codigo_municipio codigo_via
           referencia_catastral st
         = (error_inesperado mensaje_interprete (AttributeError "upper"),
            tras_peticion st pet w))
  /\ (forall provincia municipio tipo_via nombre_via (st : Estado Mundo) w,
         http_get {| url := URL_ConsultaVia;
                     params :=
                       si_dado "NombreVia" nombre_via
                         (si_dado "TipoVia" tipo_via
                            [("Provincia", Some provincia);
                             ("Municipio", Some municipio)]) |}
           (mundo st) = (Ok root, w) ->
         exists codigo,
           fst (listar_numeros_via http_get mensaje_interprete
                  provincia municipio tipo_via nombre_via st)
           = JDict [("error", JBool true); ("codigo", codigo);
                    ("descripcion", JNull)]).
Proof.
  assert (Hparse :
    parse_xml_error root
    = Some [("error", JBool true);
            ("codigo", match find err "cod" with
                       | Some cod => json_of_text (text cod)
                       | None => JStr (u "UNKNOWN")
                       end);
            ("descripcion", JNull)]).
  { unfold parse_xml_error. rewrite Herr, Hdes, Htext. reflexivity. }
  split; [eexists; exact Hparse|]. split; [|split].
  - intros provincia municipio nombre_via numero_texto tipo_via escalera planta
      puerta numero_buscado st w Hint Hget.
    unfold buscar_inmueble_inteligente. rewrite Hint.
    unfold intentar, busqueda, bind, consultar, lift, ret. cbv zeta.
    unfold peticion_directa, URL_DNPLOC in Hget. rewrite Hget, Hparse.
    reflexivity.
  - intros provincia municipio tipo_via nombre_via onumero bloque escalera
      planta puerta codigo_provincia codigo_municipio codigo_via
      referencia_catastral pet st w Hp Hget.
    unfold consulta_datos_catastro. rewrite Hp.
    unfold intentar, bind, consultar, lift, ret.
    destruct pet as [url0 params0]. cbn [url params] in *.
    rewrite Hget, Hparse. reflexivity.
  - intros provincia municipio tipo_via nombre_via st w Hget.
    unfold listar_numeros_via, intentar, bind, consultar, ret. cbv zeta.
    unfold URL_ConsultaVia in Hget. rewrite Hget, Hparse.
    eexists. reflexivity.
Qed.

End Ilegibles.

Lemma antiguedad_ilegible_witness :
  parse_xml_error Ejemplo.doc_sin_anio = None
  /\ Py.int (u "s. XIX") = None
  /\ buscar_inmueble_inteligente (Ejemplo.servicio_fijo Ejemplo.doc_sin_anio)
       Ejemplo.sin_mensaje (u "MADRID") (u "MADRID") (u "MAYOR") (u "9")
       None None None None Ejemplo.inicio
     = (error_inesperado Ejemplo.sin_mensaje (ValueError (u "s. XIX")),
        tras_peticion Ejemplo.inicio
          (peticion_directa (u "MADRID") (u "MADRID") (u "MAYOR") 9
             None None None None) tt).
Proof.
  split; [reflexivity|]. split; [reflexivity|].
  exact (proj1 (antiguedad_ilegible (Ejemplo.servicio_fijo Ejemplo.doc_sin_anio)
                  Ejemplo.sin_mensaje Ejemplo.doc_sin_anio
                  (Ejemplo.nodo "bico" [Ejemplo.bi_sin_anio]) Ejemplo.bi_sin_anio
                  (Ejemplo.nodo "debi" [Ejemplo.hoja "luso" "Residencial";
                                        Ejemplo.hoja "ant" "s. XIX"])
                  (u "s. XIX") eq_refl eq_refl eq_refl eq_refl eq_refl eq_refl)
           (u "MADRID") (u "MADRID") (u "MAYOR") (u "9") None None None None
           9 Ejemplo.inicio tt eq_refl eq_refl).
Defined.

Lemma descripcion_vacia_witness :
  find Ejemplo.doc_error_sin_texto ".//lerr/err"
  = Some (Ejemplo.nodo "err" [Ejemplo.hoja "cod" "12"; Ejemplo.nodo "des" []])
  /\ buscar_inmueble_inteligente
       (Ejemplo.servicio_fijo Ejemplo.doc_error_sin_texto)
       Ejemplo.sin_mensaje (u "MADRID") (u "MADRID") (u "MAYOR") (u "9")
       None None None None Ejemplo.inicio
     = (error_inesperado Ejemplo.sin_mensaje (AttributeError "upper"),
        tras_peticion Ejemplo.inicio
          (peticion_directa (u "MADRID") (u "MADRID") (u "MAYOR") 9
             None None None None) tt).
Proof.
  split; [reflexivity|].
  exact (proj1 (proj2 (descripcion_vacia
                         (Ejemplo.servicio_fijo Ejemplo.doc_error_sin_texto)
                         Ejemplo.sin_mensaje Ejemplo.doc_error_sin_texto
                         (Ejemplo.nodo "err" [Ejemplo.hoja "cod" "12";
                                              Ejemplo.nodo "des" []])
                         (Ejemplo.nodo "des" []) eq_refl eq_refl eq_refl))
           (u "MADRID") (u "MADRID") (u "MAYOR") (u "9") None None None None
           9 Ejemplo.inicio tt eq_refl eq_refl).
Defined.

(** ** Answers without a record *)

Section SinInmueble.
Context {Mundo : Type}.
Variable http_get : Peticion -> Mundo -> resultado Element * Mundo.
Variable mensaje_interprete : excepcion -> str.

(** X12. On an answer without service error and without a record (no
    [bico], or a [bico] without [bi]) the two lookup tools differ. The
    smart search returns the listing when there is one, and otherwise
    falls into step 2 with no error to read and returns
    [error_inesperado]. [consulta_datos_catastro] returns the listing only
    when there is no [bico] at all; a [bico] without [bi] hides the
    listing, and with nothing to return it reports no results with
    [error] false. *)
Theorem respuesta_sin_inmueble (root : Element)
  (Herr : parse_xml_error root = None)
  (Hbi : match find root ".//bico" with
         | Some bico => find bico ".//bi"
         | None => None
         end = None) :
  (forall provincia municipio nombre_via numero_texto tipo_via escalera planta
          puerta numero_buscado (st : Estado Mundo) w,
      Py.int numero_texto = Some numero_buscado ->
      http_get (peticion_directa provincia municipio nombre_via numero_buscado
                  tipo_via escalera planta puerta) (mundo st) = (Ok root, w) ->
      let r := fst (buscar_inmueble_inteligente http_get mensaje_interprete
                      provincia municipio nombre_via numero_texto tipo_via
                      escalera planta puerta st) in
      match find root ".//lrcdnp" with
      | Some lrcdnp =>
          es_exacta r
          /\ campo "tipo_respuesta" r = Some (JStr (u "listado_inmuebles"))
          /\ campo "inmuebles" r = Some (JList (map JDict (listado lrcdnp)))
      | None => r = error_inesperado mensaje_interprete (AttributeError "get")
      end)
  /\ (forall provincia municipio tipo_via nombre_via onumero bloque escalera
             planta puerta codigo_provincia codigo_municipio codigo_via
             referencia_catastral pet (st : Estado Mundo) w,
         preparar_consulta provincia municipio tipo_via nombre_via onumero
           bloque escalera planta puerta codigo_provincia codigo_municipio
           codigo_via referencia_catastral = inr pet ->
         http_get pet (mundo st) = (Ok root, w) ->
         let r := fst (consulta_datos_catastro http_get mensaje_interprete
                         provincia municipio tipo_via nombre_via onumero bloque
                         escalera planta puerta codigo_provincia
                         codigo_municipio codigo_via referencia_catastral st) in
         match find root ".//bico", find root ".//lrcdnp" with
         | None, Some lrcdnp =>
             campo "tipo_respuesta" r = Some (JStr (u "listado_inmuebles"))
             /\ campo "total" r = Some (len_json (findall lrcdnp ".//rcdnp"))
             /\ campo "inmuebles" r = Some (JList (map JDict (listado lrcdnp)))
         | _, _ => r = sin_resultados
         end).
Proof.
  split.
  - intros provincia municipio nombre_via numero_texto tipo_via escalera planta
      puerta numero_buscado st w Hint Hget.
    unfold buscar_inmueble_inteligente. rewrite Hint.
    unfold intentar, busqueda, bind, consultar, lift, ret. cbv zeta.
    unfold peticion_directa, URL_DNPLOC in Hget. rewrite Hget, Herr.
    unfold respuesta_exacta. rewrite Hbi.
    destruct (find root ".//lrcdnp") as [lrcdnp|]; cbn [fst].
    + repeat split.
    + reflexivity.
  - intros provincia municipio tipo_via nombre_via onumero bloque escalera
      planta puerta codigo_provincia codigo_municipio codigo_via
      referencia_catastral pet st w Hp Hget.
    unfold consulta_datos_catastro. rewrite Hp.
    unfold intentar, bind, consultar, lift, ret.
    destruct pet as [url0 params0]. cbn [url params] in *.
    rewrite Hget, Herr. unfold respuesta_consulta. cbv zeta.
    destruct (find root ".//bico") as [bico|].
    + rewrite Hbi. reflexivity.
    + destruct (find root ".//lrcdnp") as [lrcdnp|]; cbn [fst].
      * repeat split. cbn. unfold listado, len_json.
        rewrite length_map. reflexivity.
      * reflexivity.
Qed.

End SinInmueble.

Lemma respuesta_sin_inmueble_witness :
  fst (buscar_inmueble_inteligente (Ejemplo.servicio_fijo Ejemplo.doc_bico_vacio)
         Ejemplo.sin_mensaje (u "MADRID") (u "MADRID") (u "MAYOR") (u "9")
         None None None None Ejemplo.inicio)
  <> fst (consulta_datos_catastro (Ejemplo.servicio_fijo Ejemplo.doc_bico_vacio)
            Ejemplo.sin_mensaje (Some (u "MADRID")) (Some (u "MADRID")) None
            (Some (u "MAYOR")) (Some (u "9")) None None None None None None
            None None Ejemplo.inicio)
  /\ fst (consulta_datos_catastro (Ejemplo.servicio_fijo Ejemplo.doc_bico_vacio)
            Ejemplo.sin_mensaje (Some (u "MADRID")) (Some (u "MADRID")) None
            (Some (u "MAYOR")) (Some (u "9")) None None None None None None
            None None Ejemplo.inicio)
     = sin_resultados.
Proof.
  pose proof (respuesta_sin_inmueble (Ejemplo.servicio_fijo Ejemplo.doc_bico_vacio)
                Ejemplo.sin_mensaje Ejemplo.doc_bico_vacio eq_refl eq_refl)
    as [_ H].
  specialize (H (Some (u "MADRID")) (Some (u "MADRID")) None
                (Some (u "MAYOR")) (Some (u "9")) None None None None None None
                None None _ Ejemplo.inicio tt eq_refl eq_refl).
  split; [|exact H]. discriminate.
Defined.

(** ** [listar_numeros_via] *)

Lemma extraer_vias_length (root : Element) :
  List.length (extraer_vias root)
  = List.length (filter con_codigo_y_nombre (findall root ".//calle")).
Proof.
  unfold extraer_vias. induction (findall root ".//calle") as [|calle r IH];
    [reflexivity|].
  cbn [flat_map filter]. rewrite length_app. cbv zeta in IH |- *.
  unfold con_codigo_y_nombre.
  destruct (find calle ".//cv"), (find calle ".//nv");
    cbn [List.length Nat.add]; try apply f_equal; exact IH.
Qed.

Lemma extraer_vias_claves (root : Element) (via : dict) :
  In via (extraer_vias root) -> keys via = claves_via.
Proof.
  unfold extraer_vias. intros H. apply in_flat_map in H.
  destruct H as [calle [_ H]]. cbv zeta in H.
  destruct (find calle ".//cv"), (find calle ".//nv"); simpl in H;
    try contradiction.
  destruct H as [<-|[]]. reflexivity.
Qed.

Section Vias.
Context {Mundo : Type}.
Variable http_get : Peticion -> Mundo -> resultado Element * Mundo.
Variable mensaje_interprete : excepcion -> str.

(** X13. [listar_numeros_via] sends exactly one request, to [ConsultaVia],
    with the province and the municipality and, when they are not empty,
    the street type and name; it never asks for numbers. A failure of the
    request is returned as an error with its message and no [tipo]; a
    service error is returned as it is, with no candidates added; any
    other answer gives the list of the streets that have a code and a
    name, each with the keys [codigo_via], [tipo], [nombre], and their
    count as [total]. *)
Theorem listar_una_peticion (provincia municipio : str)
  (tipo_via nombre_via : option str) (st : Estado Mundo) :
  let pet := peticion_vias provincia municipio tipo_via nombre_via in
  let r := listar_numeros_via http_get mensaje_interprete
             provincia municipio tipo_via nombre_via st in
  snd r = tras_peticion st pet (snd (http_get pet (mundo st)))
  /\ dict_get "Numero" (params pet) = None
  /\ match fst (http_get pet (mundo st)) with
     | Raise e =>
         fst r = JDict [("error", JBool true);
                        ("mensaje", JStr (str_exc mensaje_interprete e))]
     | Ok root =>
         match parse_xml_error root with
         | Some error_info => fst r = JDict error_info
         | None =>
             exists vias,
               fst r = JDict [("tipo_respuesta", JStr (u "lista_vias"));
                              ("total",
                               len_json (filter con_codigo_y_nombre
                                           (findall root ".//calle")));
                              ("vias", JList (map JDict vias));
                              ("sugerencia", JStr (u "Usa el codigo_via de la vía deseada para buscar inmuebles con más precisión"))]
               /\ List.length vias
                  = List.length (filter con_codigo_y_nombre
                                   (findall root ".//calle"))
               /\ forall via, In via vias -> keys via = claves_via
         end
     end.
Proof.
  cbv zeta. unfold listar_numeros_via, intentar, bind, consultar, ret.
  cbv zeta. unfold peticion_vias, URL_ConsultaVia, tras_peticion.
  cbn [url params].
  split; [|split].
  - destruct (http_get _ (mundo st)) as [[root|e] w]; cbn [fst snd];
      [destruct (parse_xml_error root)|]; reflexivity.
  - rewrite !si_dado_get. reflexivity.
  - destruct (http_get _ (mundo st)) as [[root|e] w]; cbn [fst snd];
      [|reflexivity].
    destruct (parse_xml_error root) as [error_info|]; cbn [fst];
      [reflexivity|].
    exists (extraer_vias root). split; [|split].
    + unfold len_json. rewrite extraer_vias_length. reflexivity.
    + apply extraer_vias_length.
    + apply extraer_vias_claves.
Qed.

End Vias.

(** ** Candidates and what the tools extract *)

Lemma flat_map_length_le {A B C : Type} (f : A -> list B) (g : A -> list C)
  (l : list A) :
  (forall x, List.length (f x) <= List.length (g x))%nat ->
  (List.length (flat_map f l) <= List.length (flat_map g l))%nat.
Proof.
  intros H. induction l as [|x r IH]; simpl; [lia|].
  rewrite !length_app. specialize (H x). lia.
Qed.

(** X14. The candidates that [parse_candidatos] reads from a document cover
    what the tools extract from it: every number that the smart search
    keeps from an enumeration is a [numeros] candidate with the same
    number as text and the same reference, and every street that
    [listar_numeros_via] lists is a [vias] candidate with the same name,
    type and code. The candidates are at least as many. *)
Theorem candidatos_y_extractores (root : Element) :
  (forall c, In c (extraer_numeros root) ->
     exists d, In d (parse_candidatos root "numeros")
               /\ numero_de_candidato d = Some (numero c)
               /\ dict_get "referencia_catastral" d = Some (JStr (referencia c)))
  /\ (forall via, In via (extraer_vias root) ->
        exists d, In d (parse_candidatos root "vias")
                  /\ dict_get "nombre" d = dict_get "nombre" via
                  /\ dict_get "tipo" d = dict_get "tipo" via
                  /\ dict_get "codigo" d = dict_get "codigo_via" via)
  /\ (List.length (extraer_numeros root)
      <= List.length (parse_candidatos root "numeros"))%nat
  /\ (List.length (extraer_vias root)
      <= List.length (parse_candidatos root "vias"))%nat.
Proof.
  split; [|split; [|split]].
  - intros c H. unfold extraer_numeros in H. apply in_flat_map in H.
    destruct H as [nump [Hnump H]]. cbv zeta in H.
    destruct (find nump ".//pnp") as [pnp|] eqn:Epnp; [|contradiction].
    destruct (find nump ".//pc1") as [pc1|] eqn:Epc1; [|contradiction].
    destruct (find nump ".//pc2") as [pc2|] eqn:Epc2; [|contradiction].
    destruct (texto_de (Some pnp)) as [t|] eqn:Et; [|contradiction].
    destruct (Py.int t) as [n|] eqn:En; [|contradiction].
    destruct (n =? 0); [contradiction|].
    destruct H as [<-|[]]. cbn [numero referencia].
    exists [("numero", JStr t);
            ("referencia_catastral",
             JStr (text_or_empty pc1 ++ text_or_empty pc2))].
    split; [|split].
    + unfold parse_candidatos. cbn [String.eqb Ascii.eqb Bool.eqb].
      apply in_flat_map. exists nump. split; [exact Hnump|].
      cbv zeta. rewrite Epnp, Epc1, Epc2.
      unfold texto_de in Et. destruct (text pnp) as [[|a s]|]; try discriminate.
      injection Et as <-. left. reflexivity.
    + unfold numero_de_candidato. cbn. exact En.
    + reflexivity.
  - intros via H. unfold extraer_vias in H. apply in_flat_map in H.
    destruct H as [calle [Hcalle H]]. cbv zeta in H.
    destruct (find calle ".//cv") as [cv|] eqn:Ecv; [|contradiction].
    destruct (find calle ".//nv") as [nv|] eqn:Env; [|contradiction].
    destruct H as [<-|[]].
    exists [("nombre", json_of_text (text nv));
            ("tipo", text_if_present (find calle ".//tv"));
            ("codigo", json_of_text (text cv))].
    split; [|repeat split].
    unfold parse_candidatos. cbn [String.eqb Ascii.eqb Bool.eqb].
    apply in_flat_map. exists calle. split; [exact Hcalle|].
    cbv zeta. rewrite Ecv, Env. left. reflexivity.
  - unfold extraer_numeros, parse_candidatos.
    cbn [String.eqb Ascii.eqb Bool.eqb].
    apply flat_map_length_le. intros nump. cbv zeta.
    destruct (find nump ".//pnp") as [pnp|]; [|simpl; lia].
    destruct (find nump ".//pc1"), (find nump ".//pc2"); try (simpl; lia).
    destruct (texto_de (Some pnp)) as [t|]; [|simpl; lia].
    destruct (Py.int t) as [n|]; [|simpl; lia].
    destruct (n =? 0); simpl; lia.
  - unfold extraer_vias, parse_candidatos.
    cbn [String.eqb Ascii.eqb Bool.eqb].
    apply flat_map_length_le. intros calle. cbv zeta.
    destruct (find calle ".//cv"), (find calle ".//nv"); simpl; lia.
Qed.

(** ** The parameters of a query *)

Lemma dict_set_In {V : Type} (k k' : string) (v x : V) (p : list (string * V)) :
  In (k, v) (dict_set k' x p) -> (k = k' /\ v = x) \/ In (k, v) p.
Proof.
  induction p as [|[k0 v0] r IH]; simpl.
  - intros [H|[]]. injection H as <- <-. left. split; reflexivity.
  - destruct (String.eqb k' k0).
    + intros [H|H]; [injection H as <- <-; left; split; reflexivity|].
      right. right. assumption.
    + intros [H|H]; [right; left; assumption|].
      destruct (IH H) as [H'|H']; [left; assumption|right; right; assumption].
Qed.

Lemma dict_set_NoDup {V : Type} (k : string) (x : V) (p : list (string * V)) :
  NoDup (map fst p) -> NoDup (map fst (dict_set k x p)).
Proof.
  intros H. destruct (in_dec string_dec k (map fst p)) as [Hin|Hno].
  - rewrite keys_dict_set_vieja by assumption. assumption.
  - rewrite keys_dict_set_nueva by assumption.
    apply NoDup_app; [assumption|repeat constructor; intros []|].
    intros a Ha [<-|[]]. contradiction.
Qed.

Lemma si_dado_In (k k' : string) (v x : option str) (p : Params) :
  In (k, v) (si_dado k' x p) -> (k = k' /\ v = x /\ dado x = true) \/ In (k, v) p.
Proof.
  unfold si_dado. destruct (dado x) eqn:E; [|right; assumption].
  intros H. destruct (dict_set_In _ _ _ _ _ H) as [[-> ->]|H'];
    [left; repeat split; assumption|right; assumption].
Qed.

Lemma si_dado_NoDup (k : string) (x : option str) (p : Params) :
  NoDup (map fst p) -> NoDup (map fst (si_dado k x p)).
Proof.
  unfold si_dado. destruct (dado x); [apply dict_set_NoDup|trivial].
Qed.

Lemma si_dado_keys (k : string) (x : option str) (p : Params) (ks : list string) :
  In k ks -> incl (map fst p) ks -> incl (map fst (si_dado k x p)) ks.
Proof.
  unfold si_dado. intros Hk Hp. destruct (dado x); [|assumption].
  intros a Ha. apply in_map_iff in Ha. destruct Ha as [[a' v] [<- Ha]].
  destruct (dict_set_In _ _ _ _ _ Ha) as [[-> _]|H']; [assumption|].
  apply Hp. apply in_map_iff. exists (a', v). split; [reflexivity|assumption].
Qed.

(** X15. A request of [consulta_datos_catastro] names each parameter once,
    and every value it sends is a text that is not empty, with one
    exception: on the codes route [Numero] is sent whatever was given,
    also when no number was given. On the reference route only the
    reference, the province and the municipality are sent. *)
Theorem parametros_de_la_consulta
  (provincia municipio tipo_via nombre_via onumero bloque escalera planta
     puerta codigo_provincia codigo_municipio codigo_via
     referencia_catastral : option str) (pet : Peticion)
  (Hp : preparar_consulta provincia municipio tipo_via nombre_via onumero
          bloque escalera planta puerta codigo_provincia codigo_municipio
          codigo_via referencia_catastral = inr pet) :
  NoDup (map fst (params pet))
  /\ (forall k v, In (k, v) (params pet) ->
        dado v = true \/ (k = "Numero"%string /\ url pet = URL_DNPLOC_Codigos))
  /\ (url pet = URL_DNPLOC_Codigos ->
      dict_get "Numero" (params pet) = Some onumero)
  /\ (url pet = URL_DNPRC ->
      incl (map fst (params pet)) ["RefCat"; "Provincia"; "Municipio"]%string).
Proof.
  unfold preparar_consulta in Hp.
  destruct (dado referencia_catastral) eqn:Eref.
  - injection Hp as <-. cbn [url params]. split; [|split; [|split]].
    + repeat apply si_dado_NoDup. repeat constructor. intros [].
    + intros k v H.
      repeat (apply si_dado_In in H; destruct H as [[_ [-> H]]|H];
              [left; exact H|]).
      destruct H as [H|[]]. injection H as _ <-. left. exact Eref.
    + intros H. vm_compute in H. discriminate.
    + intros _. repeat (apply si_dado_keys; [simpl; tauto|]).
      intros a [<-|[]]. simpl. tauto.
  - destruct (dado codigo_provincia) eqn:Ecod.
    + injection Hp as <-. cbn [url params]. split; [|split; [|split]].
      * repeat apply si_dado_NoDup. repeat constructor; simpl;
          intuition discriminate.
      * intros k v H.
        repeat (apply si_dado_In in H; destruct H as [[_ [-> H]]|H];
                [left; exact H|]).
        destruct H as [H|[H|[]]].
        -- injection H as _ <-. left. exact Ecod.
        -- injection H as <- _. right. split; reflexivity.
      * intros _. rewrite !si_dado_get. reflexivity.
      * intros H. vm_compute in H. discriminate.
    + destruct (dado provincia) eqn:Eprov; [|discriminate].
      destruct (dado municipio) eqn:Emun; [|discriminate].
      cbn [negb orb] in Hp. injection Hp as <-. cbn [url params].
      split; [|split; [|split]].
      * repeat apply si_dado_NoDup. repeat constructor; simpl;
          intuition discriminate.
      * intros k v H.
        repeat (apply si_dado_In in H; destruct H as [[_ [-> H]]|H];
                [left; exact H|]).
        destruct H as [H|[H|[]]]; injection H as _ <-; left; assumption.
      * intros H. vm_compute in H. discriminate.
      * intros H. vm_compute in H. discriminate.
Qed.

Lemma parametros_de_la_consulta_witness :
  dict_get "Numero"
    (si_dado "CodigoVia" (Some (u "1234"))
       (si_dado "CodigoMunicipio" (Some (u "900"))
          [("CodigoProvincia", Some (u "28")); ("Numero", None)]))
  = Some None.
Proof.
  exact (proj1 (proj2 (proj2
           (parametros_de_la_consulta None None None None None None None None
              None (Some (u "28")) (Some (u "900")) (Some (u "1234")) None
              {| url := URL_DNPLOC_Codigos;
                 params :=
                   si_dado "CodigoVia" (Some (u "1234"))
                     (si_dado "CodigoMunicipio" (Some (u "900"))
                        [("CodigoProvincia", Some (u "28")); ("Numero", None)]) |}
              eq_refl))) eq_refl).
Defined.

(** ** The keys of the records and their order *)

Lemma sublista_vacia {A : Type} (m : list A) : sublista [] m.
Proof.
  induction m; [apply sublista_nil|apply sublista_salta; assumption].
Qed.

Lemma sublista_refl {A : Type} (l : list A) : sublista l l.
Proof.
  induction l; [apply sublista_nil|apply sublista_toma; assumption].
Qed.

Lemma sublista_app_r {A : Type} (l m r : list A) :
  sublista l m -> sublista l (m ++ r).
Proof.
  induction 1 as [|x l m _ IH|x l m _ IH]; simpl.
  - apply sublista_vacia.
  - apply sublista_salta. assumption.
  - apply sublista_toma. assumption.
Qed.

Lemma sublista_snoc {A : Type} (l m : list A) (k : A) :
  sublista l m -> sublista (l ++ [k]) (m ++ [k]).
Proof.
  induction 1 as [|x l m _ IH|x l m _ IH]; simpl.
  - apply sublista_refl.
  - apply sublista_salta. assumption.
  - apply sublista_toma. assumption.
Qed.

Lemma sublista_In {A : Type} (l m : list A) (x : A) :
  sublista l m -> In x l -> In x m.
Proof.
  induction 1 as [|y l m _ IH|y l m _ IH]; simpl; intuition.
Qed.

Lemma sublista_NoDup {A : Type} (l m : list A) :
  sublista l m -> NoDup m -> NoDup l.
Proof.
  induction 1 as [|y l m Hs IH|y l m Hs IH]; intros Hm.
  - constructor.
  - apply IH. inversion Hm. assumption.
  - inversion Hm as [|? ? Hy Hm']. subst. constructor; [|apply IH; assumption].
    intros Hin. apply Hy. apply (sublista_In _ _ _ Hs Hin).
Qed.

Lemma antes_no_In (k : string) (l : list string) : ~ In k (antes k l).
Proof.
  induction l as [|x r IH]; simpl; [tauto|].
  destruct (String.eqb_spec k x) as [->|Hne]; simpl; [tauto|].
  intros [H|H]; [congruence|contradiction].
Qed.

Lemma antes_split (k : string) (l : list string) :
  In k l -> exists post, l = antes k l ++ k :: post.
Proof.
  induction l as [|x r IH]; simpl; [intros []|].
  intros H. destruct (String.eqb_spec k x) as [->|Hne].
  - exists r. reflexivity.
  - destruct H as [H|H]; [congruence|].
    destruct (IH H) as [post E]. exists post. simpl. congruence.
Qed.

Lemma prefijo_app (l m : list string) :
  prefijo l m = true -> exists r, m = l ++ r.
Proof.
  revert m. induction l as [|x l IH]; intros m H; simpl in H.
  - exists m. reflexivity.
  - destruct m as [|y m]; [discriminate|].
    apply andb_true_iff in H. destruct H as [Hxy H].
    apply String.eqb_eq in Hxy. subst y.
    destruct (IH m H) as [r ->]. exists r. reflexivity.
Qed.

Lemma sublista_prefijo (l L0 L1 : list string) :
  sublista l L0 -> prefijo L0 L1 = true -> sublista l L1.
Proof.
  intros H Hp. destruct (prefijo_app _ _ Hp) as [r ->].
  apply sublista_app_r. assumption.
Qed.

(** One assignment [d[k] = v] with the keys of [d] among those that come
    before [k] in the list [L]. *)
Lemma paso_en_orden (k : string) (v : json) (d : dict) (L : list string) :
  In k L -> sublista (keys d) (antes k L) -> sublista (keys (dict_set k v d)) L.
Proof.
  intros Hk H. unfold keys in *.
  rewrite keys_dict_set_nueva.
  - destruct (antes_split k L Hk) as [post E]. rewrite E.
    change (k :: post) with ([k] ++ post). rewrite app_assoc.
    apply sublista_app_r. apply sublista_snoc. assumption.
  - intros Hin. apply (antes_no_In k L). apply (sublista_In _ _ _ H Hin).
Qed.

Ltac literales :=
  cbv [todas_las_claves claves_listado claves_referencia claves_tipo
       claves_domicilio claves_no_estructurado claves_economicos
       claves_unidades claves_subparcelas claves_unidad claves_subparcela
       app] in *.

Ltac en_orden H :=
  repeat first
    [ exact H
    | apply (sublista_prefijo _ _ _ H); reflexivity
    | apply paso_en_orden;
      [simpl; tauto | cbn [antes String.eqb Ascii.eqb Bool.eqb]] ].

Lemma referencia_completa_en_orden (bi : Element) :
  sublista (keys (referencia_completa bi [])) ["referencia_catastral"].
Proof.
  unfold referencia_completa. destruct (find bi ".//rc"); cbv zeta;
    [|apply sublista_vacia].
  apply paso_en_orden; [simpl; tauto|apply sublista_vacia].
Qed.

Lemma referencia_listado_en_orden (rcdnp : Element) :
  sublista (keys (referencia_listado rcdnp [])) ["referencia_catastral"].
Proof.
  unfold referencia_listado. destruct (find rcdnp ".//rc"); cbv zeta;
    [|apply sublista_vacia].
  apply paso_en_orden; [simpl; tauto|apply sublista_vacia].
Qed.

Lemma tipo_de_bien_en_orden (bi : Element) (d : dict) :
  sublista (keys d) ["referencia_catastral"] ->
  sublista (keys (tipo_de_bien bi d)) ["referencia_catastral"; "tipo"].
Proof.
  intros H. unfold tipo_de_bien. destruct (find bi ".//cn"); en_orden H.
Qed.

Lemma domicilio_tributario_en_orden (bi : Element) (d : dict)
  (L : list string) :
  sublista (keys d) L ->
  (forall k, In k claves_domicilio -> ~ In k L) ->
  sublista (keys (domicilio_tributario bi d)) (L ++ claves_domicilio).
Proof.
  intros H Hno.
  assert (Hset : forall k v d' pre post,
             sublista (keys d') (L ++ pre) -> ~ In k L -> ~ In k pre ->
             sublista (keys (dict_set k v d')) (L ++ pre ++ k :: post)).
  { intros k v d' pre post Hd HL Hpre. unfold keys in *.
    rewrite keys_dict_set_nueva.
    - change (k :: post) with ([k] ++ post). rewrite !app_assoc.
      apply sublista_app_r. apply sublista_snoc. assumption.
    - intros Hin. apply (sublista_In _ _ _ Hd) in Hin.
      apply in_app_or in Hin. tauto. }
  unfold domicilio_tributario, claves_domicilio in *.
  destruct (find bi ".//dt") as [dt|]; [|apply sublista_app_r; exact H].
  cbv zeta.
  set (v1 := if truthy _ then _ else JNull).
  assert (H1 : sublista (keys (dict_set "direccion" v1 d))
                 (L ++ ["direccion"]%string)).
  { apply (Hset "direccion"%string v1 d [] []);
      [rewrite app_nil_r; exact H|apply Hno; simpl; tauto|simpl; tauto]. }
  assert (H2 : sublista
                 (keys (dict_set "provincia" (text_if_present (find dt ".//np"))
                          (dict_set "direccion" v1 d)))
                 (L ++ ["direccion"; "provincia"]%string)).
  { apply (Hset "provincia"%string _ _ ["direccion"]%string []);
      [exact H1|apply Hno; simpl; tauto|simpl; intuition discriminate]. }
  assert (H3 : sublista
                 (keys (dict_set "municipio" (text_if_present (find dt ".//nm"))
                          (dict_set "provincia"
                             (text_if_present (find dt ".//np"))
                             (dict_set "direccion" v1 d))))
                 (L ++ ["direccion"; "provincia"; "municipio"]%string)).
  { apply (Hset "municipio"%string _ _ ["direccion"; "provincia"]%string []);
      [exact H2|apply Hno; simpl; tauto|simpl; intuition discriminate]. }
  match goal with |- context [if ?b then _ else _] => destruct b end.
  - apply (Hset "localizacion_interna"%string _ _
             ["direccion"; "provincia"; "municipio"]%string []);
      [exact H3|apply Hno; simpl; tauto|simpl; intuition discriminate].
  - change ["direccion"; "provincia"; "municipio"; "localizacion_interna"]%string
      with (["direccion"; "provincia"; "municipio"]%string
              ++ ["localizacion_interna"%string])%list.
    rewrite app_assoc. apply sublista_app_r. exact H3.
Qed.

Ltac en_orden_desde H :=
  literales;
  repeat first
    [ exact H
    | apply sublista_vacia
    | apply (sublista_prefijo _ _ _ H); reflexivity
    | apply paso_en_orden; [simpl; tauto | simpl (antes _ _)] ].

Lemma domicilio_no_estructurado_en_orden (bi : Element) (d : dict) :
  sublista (keys d) (claves_referencia ++ claves_tipo ++ claves_domicilio) ->
  sublista (keys (domicilio_no_estructurado bi d))
    (claves_referencia ++ claves_tipo ++ claves_domicilio
       ++ claves_no_estructurado).
Proof.
  intros H. unfold domicilio_no_estructurado.
  destruct (texto_de (find bi ".//ldt")); en_orden_desde H.
Qed.

Lemma datos_economicos_en_orden (bi : Element) (d d' : dict) :
  datos_economicos bi d = Ok d' ->
  sublista (keys d)
    (claves_referencia ++ claves_tipo ++ claves_domicilio
       ++ claves_no_estructurado) ->
  sublista (keys d')
    (claves_referencia ++ claves_tipo ++ claves_domicilio
       ++ claves_no_estructurado ++ claves_economicos).
Proof.
  intros Hok H. unfold datos_economicos in Hok.
  destruct (find bi ".//debi") as [debi|]; cbv zeta in Hok.
  - destruct (texto_de (find debi "sfc")), (texto_de (find debi "cpt")),
      (texto_de (find debi "ant")) as [t|];
      try (destruct (Py.int t); [|discriminate Hok]);
      injection Hok as <-; en_orden_desde H.
  - injection Hok as <-. en_orden_desde H.
Qed.

Lemma unidades_constructivas_en_orden (bi : Element) (d : dict) :
  sublista (keys d)
    (claves_referencia ++ claves_tipo ++ claves_domicilio
       ++ claves_no_estructurado ++ claves_economicos) ->
  sublista (keys (unidades_constructivas bi d))
    (claves_referencia ++ claves_tipo ++ claves_domicilio
       ++ claves_no_estructurado ++ claves_economicos ++ claves_unidades).
Proof.
  intros H. unfold unidades_constructivas.
  destruct (find bi ".//lcons"); cbv zeta;
    [match goal with |- context [if ?b then _ else _] => destruct b end|];
    en_orden_desde H.
Qed.

Lemma subparcelas_en_orden (bi : Element) (d : dict) :
  sublista (keys d)
    (claves_referencia ++ claves_tipo ++ claves_domicilio
       ++ claves_no_estructurado ++ claves_economicos ++ claves_unidades) ->
  sublista (keys (subparcelas bi d)) todas_las_claves.
Proof.
  intros H. unfold subparcelas.
  destruct (find bi ".//lspr"); cbv zeta;
    [match goal with |- context [if ?b then _ else _] => destruct b end|];
    en_orden_desde H.
Qed.

Ltac disjuntas :=
  let k := fresh "k" in
  let Hk := fresh "Hk" in
  let Hin := fresh "Hin" in
  intros k Hk Hin; cbv [claves_domicilio In] in Hk, Hin;
  repeat (destruct Hk as [Hk|Hk];
          [subst k; repeat (destruct Hin as [Hin|Hin]; [discriminate Hin|]);
           exact Hin|]);
  exact Hk.

(** X16. The keys of every record come in one fixed order and none twice:
    the keys of a full record are the list of its thirteen keys with some
    left out, and so are those of a listing entry (reference and address
    keys), of a construction unit and of a sub-parcel with their own
    lists. *)
Theorem claves_en_orden :
  (forall bi inmueble,
      parse_inmueble_completo bi = Ok inmueble ->
      sublista (keys inmueble) todas_las_claves /\ NoDup (keys inmueble))
  /\ (forall rcdnp,
         sublista (keys (parse_inmueble_listado rcdnp)) claves_listado
         /\ NoDup (keys (parse_inmueble_listado rcdnp)))
  /\ (forall cons,
         sublista (keys (unidad_constructiva cons)) claves_unidad
         /\ NoDup (keys (unidad_constructiva cons)))
  /\ (forall spr,
         sublista (keys (subparcela_de spr)) claves_subparcela
         /\ NoDup (keys (subparcela_de spr))).
Proof.
  assert (Hnd : forall (l m : list string),
             NoDup m -> sublista l m -> sublista l m /\ NoDup l).
  { intros l m Hm H. split; [exact H|exact (sublista_NoDup _ _ H Hm)]. }
  assert (H0 : sublista (keys []) []) by apply sublista_nil.
  split; [|split; [|split]].
  - intros bi inmueble Hok.
    apply Hnd; [repeat constructor; simpl; intuition discriminate|].
    unfold parse_inmueble_completo in Hok. cbv zeta in Hok.
    destruct (datos_economicos bi _) as [d|e] eqn:E; [|discriminate Hok].
    injection Hok as <-.
    apply subparcelas_en_orden, unidades_constructivas_en_orden.
    apply (datos_economicos_en_orden _ _ _ E).
    apply domicilio_no_estructurado_en_orden.
    apply (domicilio_tributario_en_orden bi _ ["referencia_catastral"; "tipo"]).
    + apply tipo_de_bien_en_orden, referencia_completa_en_orden.
    + disjuntas.
  - intros rcdnp.
    apply Hnd; [repeat constructor; simpl; intuition discriminate|].
    unfold parse_inmueble_listado. cbv zeta.
    apply (domicilio_tributario_en_orden rcdnp _ ["referencia_catastral"]).
    + apply referencia_listado_en_orden.
    + disjuntas.
  - intros cons.
    apply Hnd; [repeat constructor; simpl; intuition discriminate|].
    unfold unidad_constructiva. cbv zeta.
    destruct (find cons ".//lcd"), (texto_de (find cons ".//stl")),
      (find cons ".//dtip"), (find cons ".//loint"); en_orden_desde H0.
  - intros spr.
    apply Hnd; [repeat constructor; simpl; intuition discriminate|].
    unfold subparcela_de. cbv zeta.
    destruct (find spr "cspr"), (find spr ".//ccc"), (find spr ".//dcc"),
      (find spr ".//ip"), (texto_de (find spr ".//ssp")); en_orden_desde H0.
Qed.

(** ** The two extractors on one element *)

Lemma listado_referencia (e : Element) :
  dict_get "referencia_catastral" (parse_inmueble_listado e)
  = dict_get "referencia_catastral" (referencia_listado e []).
Proof.
  unfold parse_inmueble_listado. cbv zeta.
  apply domicilio_tributario_frame. no_en_lista.
Qed.

(** X17. On one element the listing extractor is the full extractor cut
    down: it gives the address keys the values that the full record has,
    it writes nothing else but the reference, and its reference is the
    full one without the two control characters. *)
Theorem listado_y_completo (e : Element) (inmueble : dict)
  (Hok : parse_inmueble_completo e = Ok inmueble) :
  (forall k, In k claves_domicilio ->
     dict_get k (parse_inmueble_listado e) = dict_get k inmueble)
  /\ (forall k, ~ In k claves_listado ->
        dict_get k (parse_inmueble_listado e) = None)
  /\ match find e ".//rc" with
     | Some rc =>
         exists r0,
           dict_get "referencia_catastral" (parse_inmueble_listado e)
           = Some (JStr r0)
           /\ dict_get "referencia_catastral" inmueble
              = Some (JStr (r0 ++ match find rc "pc1", find rc "pc2" with
                                  | Some _, Some _ =>
                                      sufijo (find rc "cc1")
                                        ++ sufijo (find rc "cc2")
                                  | _, _ => []
                                  end))
     | None =>
         dict_get "referencia_catastral" (parse_inmueble_listado e) = None
         /\ dict_get "referencia_catastral" inmueble = None
     end.
Proof.
  split; [|split].
  - intros k Hk. rewrite (completo_domicilio e inmueble k Hk Hok).
    unfold parse_inmueble_listado. cbv zeta.
    rewrite !domicilio_tributario_get by assumption.
    rewrite referencia_listado_frame; [reflexivity|].
    cbv in Hk |- *. intuition (subst; discriminate).
  - intros k Hk. unfold parse_inmueble_listado. cbv zeta.
    rewrite domicilio_tributario_frame by fuera Hk.
    rewrite referencia_listado_frame by fuera Hk. reflexivity.
  - rewrite listado_referencia, (completo_referencia e inmueble Hok).
    unfold referencia_listado, referencia_completa. cbv zeta.
    destruct (find e ".//rc") as [rc|]; [|split; reflexivity].
    eexists. split; [apply dict_get_set_same|].
    rewrite dict_get_set_same. do 2 f_equal.
    destruct (find rc "pc1"), (find rc "pc2"); rewrite <- ?app_assoc;
      reflexivity.
Qed.

Lemma listado_y_completo_witness :
  parse_inmueble_completo Ejemplo.bi_completo = Ok Ejemplo.inmueble_completo
  /\ dict_get "provincia" (parse_inmueble_listado Ejemplo.bi_completo)
     = dict_get "provincia" Ejemplo.inmueble_completo.
Proof.
  split; [reflexivity|].
  apply (proj1 (listado_y_completo Ejemplo.bi_completo
                  Ejemplo.inmueble_completo eq_refl)).
  cbv. tauto.
Defined.
